(** * dump_video_frames: a shallow embedding of [app.py]

    The program extracts still frames from videos by driving ffprobe and
    ffmpeg, and deletes the extracted frames again.  This development
    embeds [_get_video_metadata], [extract_frames], [delete_frames] and
    [main] of [app.py] (and [setup_ffmpeg_path] of [ffmpeg_setup.py]) as
    functions over an explicit world: a file system, an environment and a
    chronological trace of the effects the program performs.

    Conventions.
    - Python floats are IEEE-754 binary64 values: Rocq's primitive floats.
      [int / int] is the correctly rounded quotient, as in CPython.
    - Python values coming out of [json] are the inductive type [pyval],
      with the dynamic checks of the operations the program applies to
      them ([v[k]], [v.get], [in], [split], [float], truth values).
    - Exceptions are values of type [exn]; a computation returns [Ok v] or
      [Raise e] together with the world it leaves behind.
    - What the program cannot see into is a [runtime]: the builtins [int]
      and [float] on strings, ffprobe, ffmpeg and the content of the
      manifest file.  Every property holds for every runtime.
    - Paths follow the POSIX flavour of [pathlib], the file system maps
      paths to files and directories; symbolic links, [..] and
      permission failures are outside the model, so [os.remove] fails
      exactly on what is not a regular file.
    - The trace records the log lines and the calls that leave the
      process, in order, and one ghost event for every call of
      [extract_frames].
    - [logging_setup.py] is embedded on its own, over the level and the
      handlers of the root logger; the program configures it once, at
      level [INFO], which lets every log call of [app.py] through. *)

From Stdlib Require Import ZArith Ascii String.
From Stdlib Require Import PrimFloat SpecFloat FloatOps FloatAxioms.
From stdpp Require Import gmap strings list.

Set Warnings "-register-all".
Local Open Scope Z_scope.

(** ** Strings *)

Module Str.

Definition lower_ascii (c : ascii) : ascii :=
  let n := Ascii.N_of_ascii c in
  if ((65 <=? n) && (n <=? 90))%N then Ascii.ascii_of_N (n + 32) else c.

(** [s.lower()], on the ASCII letters. *)
Fixpoint lower (s : string) : string :=
  match s with
  | EmptyString => EmptyString
  | String c r => String (lower_ascii c) (lower r)
  end.

(** [sub in s] for two strings. *)
Fixpoint contains (sub s : string) : bool :=
  String.prefix sub s ||
  match s with
  | EmptyString => false
  | String _ r => contains sub r
  end.

(** [s.split(sep)] for a one-character separator: never the empty list. *)
Fixpoint split (sep : ascii) (s : string) : list string :=
  match s with
  | EmptyString => [EmptyString]
  | String c r =>
      if Ascii.eqb c sep then EmptyString :: split sep r
      else match split sep r with
           | h :: t => String c h :: t
           | [] => [String c EmptyString]
           end
  end.

Definition ends_with (suf s : string) : bool :=
  String.prefix (String.rev suf) (String.rev s).

(** Index of the first occurrence of [c], if any. *)
Fixpoint find (c : ascii) (s : string) : option nat :=
  match s with
  | EmptyString => None
  | String d r => if Ascii.eqb c d then Some O else S <$> find c r
  end.

(** The characters of [s] from position [i] on: [s[i:]]. *)
Fixpoint drop (i : nat) (s : string) : string :=
  match i, s with
  | O, _ => s
  | S j, EmptyString => EmptyString
  | S j, String _ r => drop j r
  end.

End Str.

(** ** Python values, exceptions and the builtins the program calls *)

Inductive pyval : Type :=
| PNone
| PBool (b : bool)
| PInt (z : Z)
| PFloat (f : float)
| PStr (s : string)
| PList (l : list pyval)
| PDict (items : list (string * pyval)).

(** The exception classes that occur.  [SystemExit] is the only one that
    is not a subclass of [Exception]. *)
Inductive exn_class : Type :=
| FileNotFoundError | IsADirectoryError | FileExistsError | OSError
| ValueError | JSONDecodeError | UnicodeDecodeError
| KeyError | TypeError | AttributeError
| OverflowError | ZeroDivisionError
| RuntimeError
| FfmpegError (stderr : string)                 (* ffmpeg.Error *)
| CalledProcessError (stdout stderr : string)   (* subprocess *)
| SystemExit (code : Z).

Record exn : Type := Exn { exn_cls : exn_class; exn_msg : string }.

#[global] Instance exn_class_eq_dec : EqDecision exn_class.
Proof. solve_decision. Defined.
#[global] Instance exn_eq_dec : EqDecision exn.
Proof. solve_decision. Defined.

Definition is_Exception (e : exn) : bool :=
  match exn_cls e with SystemExit _ => false | _ => true end.

(** [isinstance(e, OSError)] *)
Definition is_OSError (e : exn) : bool :=
  match exn_cls e with
  | OSError | FileNotFoundError | IsADirectoryError | FileExistsError => true
  | _ => false
  end.

(** [isinstance(e, ValueError)]: the json and unicode decoding errors are
    subclasses of [ValueError]. *)
Definition is_ValueError (e : exn) : bool :=
  match exn_cls e with
  | ValueError | JSONDecodeError | UnicodeDecodeError => true
  | _ => false
  end.

(** [isinstance(e, KeyError)] *)
Definition is_KeyError (e : exn) : bool :=
  match exn_cls e with KeyError => true | _ => false end.

Inductive result (A : Type) : Type :=
| Ok (a : A)
| Raise (e : exn).
Arguments Ok {A} a.
Arguments Raise {A} e.

Module Py.

Definition raise {A} (c : exn_class) (msg : string) : result A :=
  Raise (Exn c msg).

Definition bind {A B} (r : result A) (k : A -> result B) : result B :=
  match r with Ok a => k a | Raise e => Raise e end.

Fixpoint lookup (k : string) (items : list (string * pyval)) : option pyval :=
  match items with
  | [] => None
  | (k', v) :: rest => if String.eqb k k' then Some v else lookup k rest
  end.

(** Truth value of an object, as tested by [if x] and [x and ...]. *)
Definition truthy (v : pyval) : bool :=
  match v with
  | PNone => false
  | PBool b => b
  | PInt z => negb (z =? 0)
  | PFloat f => negb (PrimFloat.eqb f 0)
  | PStr s => negb (String.eqb s EmptyString)
  | PList l => match l with [] => false | _ => true end
  | PDict d => match d with [] => false | _ => true end
  end.

(** [v == s] where [s] is a string literal. *)
Definition eq_str (v : pyval) (s : string) : bool :=
  match v with PStr t => String.eqb t s | _ => false end.

(** [v[k]] for a string key. *)
Definition getitem (v : pyval) (k : string) : result pyval :=
  match v with
  | PDict d => match lookup k d with
               | Some x => Ok x
               | None => raise KeyError k
               end
  | _ => raise TypeError "object is not subscriptable by a string"
  end.

(** [v.get(k, default)]: only dicts have the method. *)
Definition get (v : pyval) (k : string) (default : pyval) : result pyval :=
  match v with
  | PDict d => Ok (match lookup k d with Some x => x | None => default end)
  | _ => raise AttributeError "get"
  end.

(** [iter(v)], fully listed. *)
Definition iter (v : pyval) : result (list pyval) :=
  match v with
  | PList l => Ok l
  | PDict d => Ok (map (fun kv => PStr (fst kv)) d)
  | PStr s => Ok (map (fun c => PStr (String c EmptyString)) (list_ascii_of_string s))
  | _ => raise TypeError "object is not iterable"
  end.

(** [k in v] for a string [k]. *)
Definition contains (k : string) (v : pyval) : result bool :=
  match v with
  | PStr s => Ok (Str.contains k s)
  | PList l => Ok (existsb (fun x => eq_str x k) l)
  | PDict d => Ok (match lookup k d with Some _ => true | None => false end)
  | _ => raise TypeError "argument is not iterable"
  end.

(** [v.split(sep)]: only strings have the method. *)
Definition split (v : pyval) (sep : ascii) : result (list string) :=
  match v with
  | PStr s => Ok (Str.split sep s)
  | _ => raise AttributeError "split"
  end.

Definition isinstance_list (v : pyval) : bool :=
  match v with PList _ => true | _ => false end.

(** *** Numbers *)

Definition Z2SF (z : Z) : spec_float :=
  match z with
  | Z0 => S754_zero false
  | Zpos p => S754_finite false p 0
  | Zneg p => S754_finite true p 0
  end.

(** [float(z)] for an int: the nearest binary64 value, [OverflowError]
    when that is not finite. *)
Definition float_of_int (z : Z) : result float :=
  let r := SF2Prim (binary_normalize prec emax z 0 false) in
  if PrimFloat.is_infinity r
  then raise OverflowError "int too large to convert to float"
  else Ok r.

(** [a / b] on two ints: the correctly rounded quotient. *)
Definition int_truediv (a b : Z) : result float :=
  if b =? 0 then raise ZeroDivisionError "division by zero"
  else
    let r := SF2Prim (SFdiv prec emax (Z2SF a) (Z2SF b)) in
    if PrimFloat.is_infinity r
    then raise OverflowError "integer division result too large for a float"
    else Ok r.

(** [a / b] on two floats. *)
Definition float_truediv (a b : float) : result float :=
  if PrimFloat.eqb b 0 then raise ZeroDivisionError "float division by zero"
  else Ok (PrimFloat.div a b).

(** [n / d] with an int on the left and a float on the right: the int is
    converted first. *)
Definition int_float_truediv (n : Z) (d : float) : result float :=
  bind (float_of_int n) (fun x => float_truediv x d).

End Py.

(** ** Paths: the POSIX flavour of [pathlib.Path] *)

Record Path : Type := MkPath { anchored : bool; parts : list string }.

#[global] Instance Path_eq_dec : EqDecision Path.
Proof. solve_decision. Defined.

#[global] Instance Path_countable : Countable Path.
Proof.
  refine (inj_countable' (fun p => (anchored p, parts p))
                         (fun '(a, l) => MkPath a l) _).
  by intros [].
Defined.

Module Pathlib.

(** [Path(s)]: split at the slashes, drop empty and [.] components. *)
Definition of_str (s : string) : Path :=
  MkPath (String.prefix "/" s)
         (filter (fun c => c <> EmptyString /\ c <> "."%string) (Str.split "/" s)).

(** [p.name] *)
Definition name (p : Path) : string := List.last (parts p) EmptyString.

(** [p.parent] *)
Definition parent (p : Path) : Path :=
  MkPath (anchored p) (removelast (parts p)).

(** [p / c] for a single plain component [c]. *)
Definition joinpath (p : Path) (c : string) : Path :=
  MkPath (anchored p) (parts p ++ [c]).

(** [p.suffix]: with [i = name.rfind('.')], the slice [name[i:]] when
    [0 < i < len(name) - 1], and the empty string otherwise. *)
Definition suffix (p : Path) : string :=
  let n := name p in
  let len := String.length n in
  match Str.find "." (String.rev n) with
  | Some j =>
      let i := (len - 1 - j)%nat in
      if (0 <? i)%nat && (i <? len - 1)%nat then Str.drop i n
      else EmptyString
  | None => EmptyString
  end.

(** [str(p)] *)
Definition str (p : Path) : string :=
  match anchored p, parts p with
  | false, [] => "."
  | a, l => (if a then "/" else "") +:+ String.concat "/" l
  end.

(** [q] lies in the tree rooted at [p] ([q = p] included). *)
Definition under (p q : Path) : Prop :=
  anchored p = anchored q /\ parts p `prefix_of` parts q.

#[global] Instance under_dec p q : Decision (under p q).
Proof. unfold under. apply _. Defined.

(** [q] is an entry directly inside [p]. *)
Definition child_of (p q : Path) : Prop :=
  parts q <> [] /\ parent q = p.

#[global] Instance child_of_dec p q : Decision (child_of p q).
Proof. unfold child_of. apply _. Defined.

End Pathlib.

Notation "p // c" := (Pathlib.joinpath p c) (at level 40, left associativity).

(** ** The file system *)

Inductive entry : Type := File | Dir.

#[global] Instance entry_eq_dec : EqDecision entry.
Proof. solve_decision. Defined.

Abbreviation filesystem := (gmap Path entry).

Module FS.

Definition exists_ (fs : filesystem) (p : Path) : bool :=
  bool_decide (is_Some (fs !! p)).

Definition is_dir (fs : filesystem) (p : Path) : bool :=
  bool_decide (fs !! p = Some Dir).

Definition is_file (fs : filesystem) (p : Path) : bool :=
  bool_decide (fs !! p = Some File).

(** The entries directly inside [d], as a map. *)
Definition children (fs : filesystem) (d : Path) : filesystem :=
  filter (fun kv => Pathlib.child_of d kv.1) fs.

(** [list(d.iterdir())] *)
Definition iterdir (fs : filesystem) (d : Path) : list Path :=
  (map_to_list (children fs d)).*1.

(** The pattern [*.png] of [glob]: any name that ends in [.png]. *)
Definition png_name (p : Path) : bool :=
  Str.ends_with ".png" (Pathlib.name p).

(** [list(d.glob("*.png"))]: entries of any kind directly inside [d]
    whose name matches. *)
Definition glob_png (fs : filesystem) (d : Path) : list Path :=
  filter (fun p => png_name p = true) (iterdir fs d).

(** [os.remove(p)]: only a regular file can be removed. *)
Definition remove (fs : filesystem) (p : Path) : result filesystem :=
  match fs !! p with
  | Some File => Ok (delete p fs)
  | Some Dir => Py.raise IsADirectoryError (Pathlib.str p)
  | None => Py.raise FileNotFoundError (Pathlib.str p)
  end.

(** [shutil.rmtree(d)]: [d] and everything below it. *)
Definition rmtree (fs : filesystem) (d : Path) : filesystem :=
  filter (fun kv => ~ Pathlib.under d kv.1) fs.

(** [d.mkdir(parents=True, exist_ok=True)]: every missing directory on
    the way down to [d] is created; a regular file on the way is an
    error. [done] is the part of the path already walked. *)
Fixpoint mkdir_from (fs : filesystem) (a : bool) (done todo : list string)
  : result filesystem :=
  match fs !! MkPath a done with
  | Some File => Py.raise FileExistsError (Pathlib.str (MkPath a done))
  | here =>
      let fs' := match here with
                 | None => <[MkPath a done := Dir]> fs
                 | _ => fs
                 end in
      match todo with
      | [] => Ok fs'
      | c :: rest => mkdir_from fs' a (done ++ [c]) rest
      end
  end.

Definition mkdir_p (fs : filesystem) (d : Path) : result filesystem :=
  mkdir_from fs (anchored d) [] (parts d).

End FS.

(** ** The world: what the program can observe and change *)

(** The probed metadata: the dict that [_get_video_metadata] returns. *)
Record metadata : Type := Metadata {
  duration_s : float;
  width : pyval;
  height : pyval;
  fps : float
}.

(** The stream that [extract_frames] builds and [ffmpeg.compile] turns
    into a command line: input, [fps] filter, output pattern, [vsync]. *)
Record ffmpeg_job : Type := Job {
  job_input : Path;
  job_fps : float;
  job_output : Path;
  job_vsync : string
}.

Inductive level : Type := INFO | WARNING | ERROR | CRITICAL.

(** One constructor for each logging call of the program, with the values
    its message is formatted from. *)
Inductive log_msg : Type :=
| MsgInvalidMetadata (video : Path) (duration fps : float)
| MsgFFprobeError (video : Path) (stderr : string)
| MsgMetadataError (video : Path) (e : exn)
| MsgDurationDefault (video : Path)
| MsgInvalidTargetFps (video : Path)
| MsgFfmpegCommand (name : string) (job : ffmpeg_job)
| MsgFramesExtracted (dir : Path)
| MsgFfmpegFailed (name stdout stderr : string)
| MsgExtractionCritical (name : string) (e : exn)
| MsgPathMissing (target : Path)
| MsgNoFramesSubdir (target : Path)
| MsgNoPngFound (dir : Path)
| MsgDeleting (count : nat) (dir : Path)
| MsgDeleteError (file : Path) (e : exn)
| MsgRemovedEmptyDir (dir : Path)
| MsgCouldNotRemoveDir (dir : Path) (e : exn)
| MsgPathAdded (bin : Path)
| MsgPathAlready (bin : Path)
| MsgNoBinaries
| MsgSetupCompleted
| MsgInputMissing (input : Path)
| MsgDetectedJson (input : Path)
| MsgBatchFileFailed (e : exn)
| MsgFoundVideos (count : nat)
| MsgCouldNotProcess (name : string) (e : exn)
| MsgDeleteFailed (e : exn).

(** The effects, in the order in which they happen.  [EvExtract] is a
    ghost event that records each call of [extract_frames] with its
    arguments; the others are the log lines and the calls that leave the
    process. *)
Inductive event : Type :=
| EvLog (lvl : level) (msg : log_msg)
| EvExtract (video out : Path)
| EvProbe (video : Path)
| EvMkdir (dir : Path)
| EvRun (job : ffmpeg_job)
| EvRemove (file : Path)
| EvRmtree (dir : Path).

Record world : Type := World {
  fs : filesystem;
  env_path : list string;
  trace : list event
}.

(** What lies outside the program: the builtins [int] and [float] on
    strings, the two external tools, the content of the manifest file and
    the place of the script. *)
Inductive probe_outcome : Type :=
| ProbeSpawnError                 (* no ffprobe executable *)
| ProbeFailed (stderr : string)   (* non-zero exit: ffmpeg.Error *)
| ProbeOk (response : pyval).

Inductive run_outcome : Type :=
| RunSpawnError                               (* no ffmpeg executable *)
| RunExited (code : Z) (stdout stderr : string).

Inductive load_outcome : Type :=
| LoadOSError          (* open() failed *)
| LoadUnicodeError     (* not UTF-8 *)
| LoadJSONError        (* not JSON *)
| Loaded (data : pyval).

Record runtime : Type := Runtime {
  int_of_str : string -> option Z;
  float_of_str : string -> option float;
  ffprobe : filesystem -> Path -> probe_outcome;
  ffmpeg_run : filesystem -> ffmpeg_job -> run_outcome * filesystem;
  json_load : filesystem -> Path -> load_outcome;
  script_file : Path
}.

(** ** The monad of the program: state and exceptions *)

Definition M (A : Type) : Type := world -> result A * world.

#[global] Instance M_ret : MRet M := fun A a w => (Ok a, w).
#[global] Instance M_bind : MBind M := fun A B k m w =>
  match m w with
  | (Ok a, w') => k a w'
  | (Raise e, w') => (Raise e, w')
  end.

Module Eff.

Definition raise {A} (c : exn_class) (msg : string) : M A :=
  fun w => (Raise (Exn c msg), w).

Definition reraise {A} (e : exn) : M A := fun w => (Raise e, w).

(** A pure computation that may raise. *)
Definition lift {A} (r : result A) : M A := fun w => (r, w).

(** [try: body  except ...: handler].  The handler answers [None] for an
    exception that no [except] clause matches. *)
Definition try_except {A} (body : M A) (handler : exn -> option (M A)) : M A :=
  fun w =>
    match body w with
    | (Ok a, w') => (Ok a, w')
    | (Raise e, w') =>
        match handler e with
        | Some h => h w'
        | None => (Raise e, w')
        end
    end.

Definition emit (ev : event) : M unit :=
  fun w => (Ok tt, World (fs w) (env_path w) (trace w ++ [ev])).

Definition log (lvl : level) (msg : log_msg) : M unit := emit (EvLog lvl msg).

Definition get_fs : M filesystem := fun w => (Ok w.(fs), w).

Definition put_fs (f : filesystem) : M unit :=
  fun w => (Ok tt, World f (env_path w) (trace w)).

Definition get_env_path : M (list string) := fun w => (Ok w.(env_path), w).

Definition put_env_path (l : list string) : M unit :=
  fun w => (Ok tt, World (fs w) l (trace w)).

(** [for x in l: body x] *)
Fixpoint for_each {A} (l : list A) (body : A -> M unit) : M unit :=
  match l with
  | [] => mret tt
  | x :: rest => body x ;; for_each rest body
  end.

(** [sys.exit(code)] *)
Definition sys_exit {A} (code : Z) : M A := raise (SystemExit code) "".

(** The exit status of the process when [main] ends with [r]: 0 on a
    normal return, the code of [sys.exit], and 1 after the traceback of
    an exception nobody caught. *)
Definition exit_status {A} (r : result A) : Z :=
  match r with
  | Ok _ => 0
  | Raise e => match exn_cls e with SystemExit c => c | _ => 1 end
  end.

End Eff.

(** ** The program *)

Section Program.

Variable rt : runtime.

Import Eff.
Local Open Scope string_scope.

(** *** Calls that leave the program *)

Definition path_exists (p : Path) : M bool :=
  f ← get_fs; mret (FS.exists_ f p).

Definition path_is_dir (p : Path) : M bool :=
  f ← get_fs; mret (FS.is_dir f p).

Definition path_is_file (p : Path) : M bool :=
  f ← get_fs; mret (FS.is_file f p).

(** [ffmpeg.probe(str(video_path))] *)
Definition ffmpeg_probe (video_path : Path) : M pyval :=
  emit (EvProbe video_path);;
  f ← get_fs;
  match ffprobe rt f video_path with
  | ProbeSpawnError => raise FileNotFoundError "ffprobe"
  | ProbeFailed stderr => raise (FfmpegError stderr) "ffprobe error"
  | ProbeOk response => mret response
  end.

(** [subprocess.run(cmd, capture_output=True, text=True, check=True)] *)
Definition subprocess_run (job : ffmpeg_job) : M unit :=
  emit (EvRun job);;
  f ← get_fs;
  let '(outcome, f') := ffmpeg_run rt f job in
  put_fs f';;
  match outcome with
  | RunSpawnError => raise FileNotFoundError "ffmpeg"
  | RunExited code stdout stderr =>
      if (code =? 0)%Z then mret tt
      else raise (CalledProcessError stdout stderr) "non-zero exit status"
  end.

(** [output_dir.mkdir(parents=True, exist_ok=True)] *)
Definition mkdir (d : Path) : M unit :=
  emit (EvMkdir d);;
  f ← get_fs;
  f' ← lift (FS.mkdir_p f d);
  put_fs f'.

(** [os.remove(p)] *)
Definition os_remove (p : Path) : M unit :=
  emit (EvRemove p);;
  f ← get_fs;
  f' ← lift (FS.remove f p);
  put_fs f'.

(** [shutil.rmtree(d)] *)
Definition shutil_rmtree (d : Path) : M unit :=
  emit (EvRmtree d);;
  f ← get_fs;
  put_fs (FS.rmtree f d).

(** *** Builtin conversions *)

(** [int(s)] on a string *)
Definition py_int (s : string) : result Z :=
  match int_of_str rt s with
  | Some z => Ok z
  | None => Py.raise ValueError "invalid literal for int()"
  end.

(** [float(v)] *)
Definition py_float (v : pyval) : result float :=
  match v with
  | PFloat f => Ok f
  | PInt z => Py.float_of_int z
  | PBool b => Ok (if b then 1%float else 0%float)
  | PStr s => match float_of_str rt s with
              | Some f => Ok f
              | None => Py.raise ValueError "could not convert string to float"
              end
  | _ => Py.raise TypeError "float() argument must be a string or a real number"
  end.

(** *** [_get_video_metadata] *)

(** [next((s for s in streams if s['codec_type'] == 'video'), None)]:
    the streams are inspected in order, and a stream without a
    [codec_type] in front of the first video stream raises. *)
Fixpoint first_video (streams : list pyval) : result pyval :=
  match streams with
  | [] => Ok PNone
  | s :: rest =>
      Py.bind (Py.getitem s "codec_type") (fun c =>
      if Py.eq_str c "video" then Ok s else first_video rest)
  end.

(** [num, den = map(int, rate.split('/'))] followed by
    [num / den if den != 0 else 0.0].  A failing [int] and a number of
    parts other than two are both a [ValueError]. *)
Definition ratio (rate : pyval) : result float :=
  Py.bind (Py.split rate "/") (fun pieces =>
  match pieces with
  | [a; b] =>
      Py.bind (py_int a) (fun num =>
      Py.bind (py_int b) (fun den =>
      if negb (den =? 0)%Z then Py.int_truediv num den else Ok 0%float))
  | [a] =>
      Py.bind (py_int a) (fun _ =>
      Py.raise ValueError "not enough values to unpack")
  | a :: b :: c :: _ =>
      Py.bind (py_int a) (fun _ =>
      Py.bind (py_int b) (fun _ =>
      Py.bind (py_int c) (fun _ =>
      Py.raise ValueError "too many values to unpack")))
  | [] => Py.raise ValueError "not enough values to unpack"
  end).

(** [rate and '/' in rate] *)
Definition has_slash (rate : pyval) : result bool :=
  if Py.truthy rate then Py.contains "/" rate else Ok false.

(** Lines 35-47: the frame rate of the video stream. *)
Definition stream_fps (video_stream : pyval) : result float :=
  Py.bind (Py.get video_stream "avg_frame_rate" PNone) (fun avg_frame_rate =>
  Py.bind (has_slash avg_frame_rate) (fun slash =>
  if slash then ratio avg_frame_rate
  else if Py.truthy avg_frame_rate then py_float avg_frame_rate
  else
    Py.bind (Py.get video_stream "r_frame_rate" PNone) (fun r_frame_rate =>
    Py.bind (has_slash r_frame_rate) (fun r_slash =>
    if r_slash then ratio r_frame_rate else Ok 0%float)))).

(** Lines 27-47: what is read out of the probe response. *)
Definition read_metadata (video_path : Path) (probe : pyval) : result metadata :=
  Py.bind (Py.bind (Py.getitem probe "streams") Py.iter) (fun streams =>
  Py.bind (first_video streams) (fun video_stream =>
  if negb (Py.truthy video_stream)
  then Py.raise ValueError ("No video stream found in " +:+ Pathlib.str video_path)
  else
    Py.bind (Py.get probe "format" (PDict [])) (fun format =>
    Py.bind (Py.get format "duration" (PFloat 0)) (fun container_duration =>
    Py.bind (Py.get video_stream "duration" container_duration) (fun duration =>
    Py.bind (py_float duration) (fun duration_s =>
    Py.bind (Py.getitem video_stream "width") (fun width =>
    Py.bind (Py.getitem video_stream "height") (fun height =>
    Py.bind (stream_fps video_stream) (fun fps =>
    Ok (Metadata duration_s width height fps)))))))))).

(** The body of the [try] block, lines 26-52. *)
Definition probe_metadata (video_path : Path) : M metadata :=
  probe ← ffmpeg_probe video_path;
  meta ← lift (read_metadata video_path probe);
  (if PrimFloat.leb (duration_s meta) 0 || PrimFloat.leb (fps meta) 0
   then log WARNING (MsgInvalidMetadata video_path (duration_s meta) (fps meta))
   else mret tt);;
  mret meta.

Definition _get_video_metadata (video_path : Path) : M metadata :=
  present ← path_exists video_path;
  if negb present
  then raise FileNotFoundError ("Video file not found: " +:+ Pathlib.str video_path)
  else
    try_except (probe_metadata video_path) (fun e =>
      match exn_cls e with
      | FfmpegError stderr => Some (
          log ERROR (MsgFFprobeError video_path stderr);;
          raise RuntimeError
            ("Could not get video metadata for " +:+ Pathlib.str video_path +:+ "."))
      | _ =>
          if is_Exception e then Some (
            log ERROR (MsgMetadataError video_path e);;
            raise RuntimeError
              ("Could not get video metadata for " +:+ Pathlib.str video_path +:+ "."))
          else None
      end).

(** *** [extract_frames] *)

(** Lines 76-88: the sampling rate asked of ffmpeg. *)
Definition plan_rate (video_path : Path) (duration_s : float)
    (num_frames : option Z) (interval_sec : option float) : M float :=
  match num_frames, interval_sec with
  | Some n, _ =>
      if PrimFloat.leb duration_s 0
      then log WARNING (MsgDurationDefault video_path);; mret 1%float
      else lift (Py.int_float_truediv n duration_s)
  | None, Some i =>
      if PrimFloat.leb i 0
      then raise ValueError "Interval seconds must be greater than 0."
      else lift (Py.float_truediv 1 i)
  | None, None =>
      raise ValueError "Either 'num_frames' or 'interval_sec' must be specified."
  end.

(** Lines 104-109: the inner [try] around the subprocess. *)
Definition run_ffmpeg (video_path output_dir : Path) (job : ffmpeg_job) : M unit :=
  try_except
    (subprocess_run job;;
     log INFO (MsgFramesExtracted output_dir))
    (fun e =>
       match exn_cls e with
       | CalledProcessError stdout stderr => Some (
           log ERROR (MsgFfmpegFailed (Pathlib.name video_path) stdout stderr);;
           raise RuntimeError "FFmpeg failed during extraction.")
       | _ => None
       end).

(** Lines 90-109: nothing is written for a rate that is not positive;
    otherwise the directory is made and ffmpeg runs. *)
Definition write_frames (video_path output_dir : Path) (target_fps : float) : M unit :=
  if PrimFloat.leb target_fps 0
  then log ERROR (MsgInvalidTargetFps video_path)
  else
    mkdir output_dir;;
    let output_pattern := output_dir // "frame_%04d.png" in
    let job := Job video_path target_fps output_pattern "0" in
    log INFO (MsgFfmpegCommand (Pathlib.name video_path) job);;
    run_ffmpeg video_path output_dir job.

(** Lines 111-113: log and raise again. *)
Definition critical (video_path : Path) (e : exn) : option (M unit) :=
  if is_Exception e then Some (
    log CRITICAL (MsgExtractionCritical (Pathlib.name video_path) e);;
    reraise e)
  else None.

Definition extract_frames (video_path output_dir : Path)
    (num_frames : option Z) (interval_sec : option float) : M unit :=
  emit (EvExtract video_path output_dir);;
  present ← path_exists video_path;
  if negb present
  then raise FileNotFoundError ("Video file not found at: " +:+ Pathlib.str video_path)
  else
  regular ← path_is_file video_path;
  if negb regular
  then raise ValueError ("Provided path is not a file: " +:+ Pathlib.str video_path)
  else
    try_except
      (meta ← _get_video_metadata video_path;
       target_fps ← plan_rate video_path (duration_s meta) num_frames interval_sec;
       write_frames video_path output_dir target_fps)
      (critical video_path).

(** *** [delete_frames] *)

(** Lines 125-132: the directory whose frames are deleted. *)
Definition resolve_frames_dir (target_path : Path) : M Path :=
  is_directory ← path_is_dir target_path;
  if is_directory
     && negb (String.eqb (Str.lower (Pathlib.name target_path)) "frames")
  then
    let potential_frames_dir := target_path // "frames" in
    found ← path_is_dir potential_frames_dir;
    if found : bool then mret potential_frames_dir
    else log WARNING (MsgNoFramesSubdir target_path);; mret target_path
  else mret target_path.

(** Lines 144-148: one file after the other; a failure is logged and
    the loop goes on. *)
Definition remove_all (png_files : list Path) : M unit :=
  for_each png_files (fun p_file =>
    try_except (os_remove p_file) (fun e =>
      if is_OSError e then Some (log ERROR (MsgDeleteError p_file e))
      else None)).

(** Lines 150-155: an emptied directory called [frames] is removed. *)
Definition prune (frames_dir_to_clean : Path) : M unit :=
  try_except
    (if String.eqb (Str.lower (Pathlib.name frames_dir_to_clean)) "frames"
     then
       f ← get_fs;
       match FS.iterdir f frames_dir_to_clean with
       | [] =>
           shutil_rmtree frames_dir_to_clean;;
           log INFO (MsgRemovedEmptyDir frames_dir_to_clean)
       | _ => mret tt
       end
     else mret tt)
    (fun e =>
       if is_OSError e
       then Some (log WARNING (MsgCouldNotRemoveDir frames_dir_to_clean e))
       else None).

(** Lines 137-155: the frames of one directory. *)
Definition clean_dir (frames_dir_to_clean : Path) : M unit :=
  f ← get_fs;
  let png_files := FS.glob_png f frames_dir_to_clean in
  match png_files with
  | [] => log INFO (MsgNoPngFound frames_dir_to_clean)
  | _ =>
      log INFO (MsgDeleting (length png_files) frames_dir_to_clean);;
      remove_all png_files;;
      prune frames_dir_to_clean
  end.

Definition delete_frames (target_path : Path) : M unit :=
  present ← path_exists target_path;
  if negb present
  then log WARNING (MsgPathMissing target_path)
  else
    frames_dir_to_clean ← resolve_frames_dir target_path;
    is_directory ← path_is_dir frames_dir_to_clean;
    if negb is_directory
    then raise ValueError ("Resolved path is not a directory: '"
                           +:+ Pathlib.str frames_dir_to_clean +:+ "'.")
    else clean_dir frames_dir_to_clean.

(** *** [ffmpeg_setup.py] *)

Definition _find_ffmpeg_bin_directory (current_file : Path) : M (option Path) :=
  let script_dir := Pathlib.parent current_file in
  let bin_dir := script_dir // "bin" in
  is_directory ← path_is_dir bin_dir;
  has_exe ← path_is_file (bin_dir // "ffmpeg.exe");
  mret (if is_directory && has_exe then Some bin_dir else None).

Definition setup_ffmpeg_path : M unit :=
  bin_path ← _find_ffmpeg_bin_directory (script_file rt);
  match bin_path with
  | Some bin =>
      path ← get_env_path;
      if bool_decide (Pathlib.str bin ∈ path)
      then log INFO (MsgPathAlready bin)
      else put_env_path (path ++ [Pathlib.str bin]);; log INFO (MsgPathAdded bin)
  | None => log ERROR MsgNoBinaries
  end.

(** *** [main] *)

(** The parsed command line.  [argparse] has already made sure that
    exactly one of [num_frames] and [interval_sec] is given. *)
Inductive args : Type :=
| ExtractArgs (path : string) (output_dir : option string)
              (num_frames : option Z) (interval_sec : option float)
| DeleteArgs (target_path : string).

(** [Path(p)] for the entries of the manifest: only a string will do. *)
Fixpoint paths_of (entries : list pyval) : result (list Path) :=
  match entries with
  | [] => Ok []
  | PStr s :: rest =>
      Py.bind (paths_of rest) (fun l => Ok (Pathlib.of_str s :: l))
  | _ :: _ => Py.raise TypeError "expected str, bytes or os.PathLike object"
  end.

(** [with open(input_path) as f: data = json.load(f)] *)
Definition open_json (input_path : Path) : M pyval :=
  f ← get_fs;
  match json_load rt f input_path with
  | LoadOSError => raise OSError (Pathlib.str input_path)
  | LoadUnicodeError => raise UnicodeDecodeError "invalid utf-8"
  | LoadJSONError => raise JSONDecodeError "invalid json"
  | Loaded data => mret data
  end.

(** ['videos' not in data or not isinstance(data['videos'], list)] *)
Definition malformed (data : pyval) : result bool :=
  Py.bind (Py.contains "videos" data) (fun listed =>
  if negb listed then Ok true
  else Py.bind (Py.getitem data "videos") (fun v =>
       Ok (negb (Py.isinstance_list v)))).

(** Lines 195-203: the manifest. *)
Definition load_manifest (input_path : Path) : M (list Path) :=
  try_except
    (data ← open_json input_path;
     bad ← lift (malformed data);
     if bad : bool
     then raise ValueError "JSON must have a 'videos' key with a list of file paths."
     else
       listed_videos ← lift (Py.bind (Py.getitem data "videos") Py.iter);
       lift (paths_of listed_videos))
    (fun e =>
       if is_ValueError e || is_KeyError e
       then Some (log ERROR (MsgBatchFileFailed e);; sys_exit 1)
       else None).

(** Lines 186-205: the videos of this run. *)
Definition videos_to_process (input_path : Path) : M (list Path) :=
  if String.eqb (Str.lower (Pathlib.suffix input_path)) ".json"
  then log INFO (MsgDetectedJson input_path);; load_manifest input_path
  else mret [input_path].

(** Lines 211-214: where the frames of one video go. *)
Definition output_dir_for (videos : list Path) (output_dir : option string)
    (video_path : Path) : Path :=
  match output_dir with
  | Some dir =>
      if (length videos =? 1)%nat && negb (String.eqb dir "")
      then Pathlib.of_str dir
      else Pathlib.parent video_path // "frames"
  | None => Pathlib.parent video_path // "frames"
  end.

(** Lines 209-218: the body of the loop, with its own handler. *)
Definition process_one (videos : list Path) (output_dir : option string)
    (num_frames : option Z) (interval_sec : option float)
    (video_path : Path) : M unit :=
  try_except
    (extract_frames video_path (output_dir_for videos output_dir video_path)
                    num_frames interval_sec)
    (fun e =>
       if is_Exception e
       then Some (log ERROR (MsgCouldNotProcess (Pathlib.name video_path) e))
       else None).

(** Lines 208-218: one video after the other. *)
Definition process_videos (videos : list Path) (output_dir : option string)
    (num_frames : option Z) (interval_sec : option float) : M unit :=
  for_each videos (process_one videos output_dir num_frames interval_sec).

Definition main (a : args) : M unit :=
  setup_ffmpeg_path;;
  log INFO MsgSetupCompleted;;
  match a with
  | ExtractArgs path output_dir num_frames interval_sec =>
      let input_path := Pathlib.of_str path in
      present ← path_exists input_path;
      if negb present
      then log ERROR (MsgInputMissing input_path);; sys_exit 1
      else
        videos ← videos_to_process input_path;
        log INFO (MsgFoundVideos (length videos));;
        process_videos videos output_dir num_frames interval_sec
  | DeleteArgs target_path =>
      try_except (delete_frames (Pathlib.of_str target_path)) (fun e =>
        if is_Exception e
        then Some (log ERROR (MsgDeleteFailed e);; sys_exit 1)
        else None)
  end.

End Program.

(** ** [logging_setup.py] *)

(** The state of the [logging] module as far as [configure_logging]
    reads and writes it: the level and the handlers of the root logger,
    the handlers that were closed, and what was written, in order.  A
    formatter is its two format strings, and whether it is the subclass
    that knows [%(shortlevel)s]. *)
Module Logging.

(** The numeric levels.  [DEBUG] is not used by the program itself. *)
Definition DEBUG : Z := 10.

Definition levelno (l : level) : Z :=
  match l with
  | INFO => 20
  | WARNING => 30
  | ERROR => 40
  | CRITICAL => 50
  end.

Record LogRecord : Type := MkRecord {
  rec_levelno : Z;
  rec_asctime : string;    (* the time, as [formatTime] renders it *)
  rec_message : string
}.

(** *** [ShortLevelFormatter] *)

Definition LEVEL_MAP : gmap Z string :=
  list_to_map [(DEBUG, "d"); (levelno INFO, "i"); (levelno WARNING, "W");
               (levelno ERROR, "E"); (levelno CRITICAL, "C")]%string.

Definition DEFAULT_LEVEL_CHAR : string := "?".

(** [self.LEVEL_MAP.get(record.levelno, self.DEFAULT_LEVEL_CHAR)] *)
Definition shortlevel (record : LogRecord) : string :=
  default DEFAULT_LEVEL_CHAR (LEVEL_MAP !! rec_levelno record).

(** [format], with the format string
    ['%(asctime)s  %(shortlevel)s   %(message)s'] the console handler is
    given, for a record without exception or stack information. *)
Definition format (record : LogRecord) : string :=
  rec_asctime record +:+ "  " +:+ shortlevel record +:+ "   " +:+ rec_message record.

(** *** The handlers and the root logger *)

Inductive stream : Type := Stdout | Stderr.

Record formatter : Type := Formatter {
  short_level : bool;
  fmt : string;
  datefmt : option string
}.

Inductive handler : Type :=
| StreamHandler (s : stream) (f : formatter)
| FileHandler (file : string) (f : formatter).

Inductive line : Type :=
| ConsoleConfigured (level : Z)
| FileConfigured (level : Z) (log_file : string)
| HandlerFailed (log_file : string) (e : exn).

Inductive output : Type :=
| Printed (l : line)                              (* [print(..., file=sys.stderr)] *)
| Handled (h : handler) (levelno : Z) (l : line). (* a record given to a handler *)

Record logging : Type := MkLogging {
  root_level : Z;
  root_handlers : list handler;
  closed : list handler;
  written : list output
}.

Definition console_formatter : formatter :=
  Formatter true "%(asctime)s  %(shortlevel)s   %(message)s" (Some "%H:%M:%S"%string).

Definition file_formatter : formatter :=
  Formatter false "%(asctime)s - %(levelname)-8s - %(name)-15s - %(message)s"
            (Some "%Y-%m-%d %H:%M:%S"%string).

(** The formatter of [logging.basicConfig()]. *)
Definition basic_formatter : formatter :=
  Formatter false "%(levelname)s:%(name)s:%(message)s" None.

(** [logging.basicConfig()] and [logging.basicConfig(handlers=[])]: a
    root logger that has handlers is left alone; one without gets the
    handlers given, or a stream handler on [sys.stderr]. *)
Definition basicConfig (handlers : option (list handler)) (s : logging) : logging :=
  match root_handlers s with
  | [] =>
      MkLogging (root_level s)
              (match handlers with
               | Some given => given
               | None => [StreamHandler Stderr basic_formatter]
               end)
              (closed s) (written s)
  | _ :: _ => s
  end.

(** [logging.error(msg)]: the root logger, configured first if it has no
    handler, hands the record to each of its handlers when its level
    lets an error through. *)
Definition logging_error (msg : line) (s : logging) : logging :=
  let s := match root_handlers s with [] => basicConfig None s | _ :: _ => s end in
  if root_level s <=? levelno ERROR
  then MkLogging (root_level s) (root_handlers s) (closed s)
               (written s ++ map (fun h => Handled h (levelno ERROR) msg) (root_handlers s))
  else s.

Definition print (l : line) (s : logging) : logging :=
  MkLogging (root_level s) (root_handlers s) (closed s) (written s ++ [Printed l]).

Definition addHandler (h : handler) (s : logging) : logging :=
  MkLogging (root_level s) (root_handlers s ++ [h]) (closed s) (written s).

(** Lines 69-73: every handler is taken off the root logger and closed. *)
Definition clear_handlers (s : logging) : logging :=
  match root_handlers s with
  | [] => s
  | _ :: _ => MkLogging (root_level s) [] (closed s ++ root_handlers s) (written s)
  end.

Section Configure.

(** [logging.FileHandler(log_file, mode='a', encoding='utf-8')]: the
    exception it raises when the file cannot be opened. *)
Variable open_append : string -> option exn.

(** Lines 49-65: the file handler, if one is asked for and can be made. *)
Definition make_file_handler (log_file : option string) (s : logging)
    : result (option handler) * logging :=
  match log_file with
  | Some file =>
      if String.eqb file "" then (Ok None, s)
      else
        match open_append file with
        | None => (Ok (Some (FileHandler file file_formatter)), s)
        | Some e =>
            if is_Exception e
            then (Ok None,
                  basicConfig (Some [])
                    (logging_error (HandlerFailed file e) (basicConfig None s)))
            else (Raise e, s)
        end
  | None => (Ok None, s)
  end.

Definition configure_logging (level : Z) (log_file : option string) (s : logging)
    : result unit * logging :=
  let s := MkLogging level (root_handlers s) (closed s) (written s) in
  let console_handler := StreamHandler Stdout console_formatter in
  match make_file_handler log_file s with
  | (Raise e, s) => (Raise e, s)
  | (Ok file_handler, s) =>
      let s := clear_handlers s in
      let s := addHandler console_handler s in
      let s := print (ConsoleConfigured level) s in
      match file_handler, log_file with
      | Some h, Some file => (Ok tt, print (FileConfigured level file) (addHandler h s))
      | _, _ => (Ok tt, s)
      end
  end.

End Configure.

End Logging.

(** ** A concrete world for the examples *)

Module Fixture.

Local Open Scope string_scope.

(** [int] on strings made of an optional sign and decimal digits. *)
Fixpoint digits (acc : Z) (s : string) : option Z :=
  match s with
  | EmptyString => Some acc
  | String c r =>
      let n := Z.of_N (Ascii.N_of_ascii c) in
      if ((48 <=? n) && (n <=? 57))%Z then digits (10 * acc + (n - 48)) r
      else None
  end.

Definition int_of_str (s : string) : option Z :=
  match s with
  | EmptyString => None
  | String "-" (String _ _ as r) => Z.opp <$> digits 0 r
  | String "-" EmptyString => None
  | _ => digits 0 s
  end.

(** [float] on the same strings. *)
Definition float_of_str (s : string) : option float :=
  match int_of_str s with
  | Some z => match Py.float_of_int z with Ok f => Some f | Raise _ => None end
  | None => None
  end.

Definition clip : Path := Pathlib.of_str "videos/clip.mp4".
Definition audio_only : Path := Pathlib.of_str "videos/audio.mp4".
Definition broken : Path := Pathlib.of_str "videos/broken.mp4".

Definition clip_stream : pyval :=
  PDict [("codec_type", PStr "video"); ("width", PInt 1920); ("height", PInt 1080);
         ("duration", PStr "10"); ("avg_frame_rate", PStr "30000/1001");
         ("r_frame_rate", PStr "30/1")].

Definition audio_stream : pyval := PDict [("codec_type", PStr "audio")].

(** ffprobe: [clip] has an audio and a video stream, [audio_only] has no
    video stream, anything else is not a media file. *)
Definition ffprobe (f : filesystem) (p : Path) : probe_outcome :=
  if bool_decide (p = clip)
  then ProbeOk (PDict [("streams", PList [audio_stream; clip_stream]);
                       ("format", PDict [("duration", PStr "10")])])
  else if bool_decide (p = audio_only)
  then ProbeOk (PDict [("streams", PList [audio_stream]); ("format", PDict [])])
  else ProbeFailed "Invalid data found when processing input".

(** ffmpeg: writes one frame next to the output pattern and exits with 0. *)
Definition ffmpeg_run (f : filesystem) (job : ffmpeg_job) : run_outcome * filesystem :=
  (RunExited 0 "" "",
   <[Pathlib.parent (job_output job) // "frame_0001.png" := File]> f).

Definition json_load (f : filesystem) (p : Path) : load_outcome :=
  if bool_decide (p = Pathlib.of_str "batch.json")
  then Loaded (PDict [("videos", PList [PStr "videos/broken.mp4"; PStr "videos/clip.mp4"])])
  else if bool_decide (p = Pathlib.of_str "single.json")
  then Loaded (PDict [("videos", PList [PStr "videos/clip.mp4"])])
  else if bool_decide (p = Pathlib.of_str "clips.json")
  then Loaded (PDict [("clips", PList [])])
  else LoadJSONError.

Definition rt : runtime :=
  Runtime int_of_str float_of_str ffprobe ffmpeg_run json_load
          (Pathlib.of_str "tool/app.py").

Definition dir_entries (l : list string) : list (Path * entry) :=
  map (fun s => (Pathlib.of_str s, Dir)) l.

Definition file_entries (l : list string) : list (Path * entry) :=
  map (fun s => (Pathlib.of_str s, File)) l.

(** The working directory before any extraction. *)
Definition fs0 : filesystem :=
  list_to_map (dir_entries ["."; "videos"]
               ++ file_entries ["videos/clip.mp4"; "videos/audio.mp4";
                                "videos/broken.mp4"; "batch.json";
                                "single.json"; "clips.json"]).

Definition w0 : world := World fs0 [] [].

(** A directory with extracted frames and other content. *)
Definition fs_frames : filesystem :=
  list_to_map (dir_entries ["."; "shots"; "shots/frames"; "shots/frames/keep"]
               ++ file_entries ["shots/poster.png"; "shots/frames/a.png";
                                "shots/frames/b.png"; "shots/frames/c.txt";
                                "shots/frames/keep/d.png"]).

(** A directory whose [frames] subdirectory holds nothing but frames. *)
Definition fs_only_frames : filesystem :=
  list_to_map (dir_entries ["."; "shots"; "shots/frames"]
               ++ file_entries ["shots/poster.png"; "shots/frames/frame_0001.png"]).

End Fixture.

(** ** Vocabulary of the properties *)

(** [m] only appends events that satisfy [P] to the trace, and any
    exception it ends with satisfies [Q]. *)
Definition effects {A} (P : event -> Prop) (Q : exn -> Prop) (m : M A) : Prop :=
  forall w r w', m w = (r, w') ->
    (exists evs, trace w' = trace w ++ evs /\ Forall P evs) /\
    (forall e, r = Raise e -> Q e).

(** [m] leaves the file system as it found it. *)
Definition keeps_fs {A} (m : M A) : Prop :=
  forall w r w', m w = (r, w') -> fs w' = fs w.

(** [isinstance(e, Exception)], as a proposition. *)
Definition exception (e : exn) : Prop := is_Exception e = true.

(** A pure result that is a value or an [Exception]. *)
Definition ordinary {A} (r : result A) : Prop :=
  match r with Ok _ => True | Raise e => exception e end.

Definition is_log (ev : event) : Prop :=
  match ev with EvLog _ _ => True | _ => False end.

(** A log line or the probe call: what [_get_video_metadata] may do. *)
Definition is_probe_or_log (ev : event) : Prop :=
  match ev with EvLog _ _ | EvProbe _ => True | _ => False end.

(** Neither the creation of the output directory nor a run of ffmpeg. *)
Definition no_extraction (ev : event) : Prop :=
  match ev with EvMkdir _ | EvRun _ => False | _ => True end.

(** No call that leaves the process: no probe, no directory, no ffmpeg. *)
Definition no_tool (ev : event) : Prop :=
  match ev with EvProbe _ | EvMkdir _ | EvRun _ => False | _ => True end.

(** The warning of line 50, when it is due. *)
Definition metadata_warning (video : Path) (meta : metadata) : list event :=
  if PrimFloat.leb (duration_s meta) 0 || PrimFloat.leb (fps meta) 0
  then [EvLog WARNING (MsgInvalidMetadata video (duration_s meta) (fps meta))]
  else [].

(** The reading of the frame-rate rule under which a zero denominator in
    [avg_frame_rate] hands over to [r_frame_rate], parsed the same way. *)
Definition falls_back_to_r_frame_rate (rt : runtime) (video_stream : pyval) : Prop :=
  forall r, Py.get video_stream "r_frame_rate" PNone = Ok r ->
    stream_fps rt video_stream = ratio rt r.

(** The reading of the interval rule under which a non-positive interval
    is rejected with a [ValueError] before anything outside the process
    has been called. *)
Definition rejected_before_any_tool (rt : runtime) (video out : Path)
    (interval : float) (w : world) : Prop :=
  exists msg w' evs,
    extract_frames rt video out None (Some interval) w
      = (Raise (Exn ValueError msg), w') /\
    trace w' = trace w ++ evs /\ Forall no_tool evs.

(** Anything but the start of another [extract_frames] call. *)
Definition not_extract (ev : event) : Prop :=
  match ev with EvExtract _ _ => False | _ => True end.

(** The calls of [extract_frames] recorded in a trace, oldest first. *)
Fixpoint extract_calls (t : list event) : list (Path * Path) :=
  match t with
  | [] => []
  | EvExtract v o :: rest => (v, o) :: extract_calls rest
  | _ :: rest => extract_calls rest
  end.

(** A manifest as the driver needs it: a dict whose [videos] entry is a
    list. *)
Definition well_formed_manifest (o : load_outcome) : bool :=
  match o with
  | Loaded (PDict items) =>
      match Py.lookup "videos" items with
      | Some (PList _) => true
      | _ => false
      end
  | _ => false
  end.

(** [p] is a regular file directly inside [d] whose name matches [*.png]. *)
Definition png_file_in (f : filesystem) (d p : Path) : Prop :=
  Pathlib.child_of d p /\ FS.png_name p = true /\ f !! p = Some File.

#[global] Instance png_file_in_dec f d p : Decision (png_file_in f d p).
Proof. unfold png_file_in. apply _. Defined.

(** The directory that a cleanup of [target] works on, by the rule of
    lines 125-132. *)
Definition frames_dir (f : filesystem) (target : Path) : Path :=
  if FS.is_dir f target
     && negb (String.eqb (Str.lower (Pathlib.name target)) "frames")
     && FS.is_dir f (target // "frames")
  then target // "frames"
  else target.

(** [f] without the [.png] files directly inside [d]. *)
Definition without_pngs (f : filesystem) (d : Path) : filesystem :=
  filter (fun kv => ~ png_file_in f d kv.1) f.

(** The condition of lines 139 and 151 under which the cleaned directory
    is removed: there was something to delete, the directory is called
    [frames], and nothing is left in it. *)
Definition prunes (f : filesystem) (d : Path) : Prop :=
  FS.glob_png f d <> [] /\
  Str.lower (Pathlib.name d) = "frames"%string /\
  FS.iterdir (without_pngs f d) d = [].

#[global] Instance prunes_dec f d : Decision (prunes f d).
Proof. unfold prunes. apply _. Defined.

(** The file system after the frames of [d] have been cleaned up. *)
Definition cleaned (f : filesystem) (d : Path) : filesystem :=
  if decide (prunes f d) then FS.rmtree (without_pngs f d) d
  else without_pngs f d.

Definition no_rmtree (ev : event) : Prop :=
  match ev with EvRmtree _ => False | _ => True end.

(** The first cleanup of [target] removed its [frames] subdirectory. *)
Definition pruned_subdir (before after : filesystem) (target : Path) : Prop :=
  Str.lower (Pathlib.name target) <> "frames"%string /\
  FS.is_dir before (target // "frames") = true /\
  FS.is_dir after (target // "frames") = false.

(** The reading of idempotence under which a second cleanup right after
    a successful first one succeeds and deletes nothing. *)
Definition second_run_deletes_nothing (target : Path) (w : world) : Prop :=
  forall w1 r2 w2,
    delete_frames target w = (Ok tt, w1) ->
    delete_frames target w1 = (r2, w2) ->
    r2 = Ok tt /\ fs w2 = fs w1.

(** Every entry other than the roots lies in a directory. *)
Definition well_formed_fs (f : filesystem) : Prop :=
  forall p e, f !! p = Some e -> parts p <> [] ->
    f !! Pathlib.parent p = Some Dir.

(** [s] has no slash. *)
Definition plain (s : string) : Prop := Str.find "/" s = None.

(** A stream that is a dict with a [codec_type] other than ["video"]. *)
Definition other_stream (s : pyval) : Prop :=
  exists c, Py.getitem s "codec_type" = Ok c /\ Py.eq_str c "video" = false.

(** * Properties *)

(** ** The monad *)

Section MonadLaws.

Context {A B : Type}.

Lemma bind_ok (m : M A) (k : A -> M B) w a w' :
  m w = (Ok a, w') -> (m ≫= k) w = k a w'.
Proof. intros H. unfold mbind, M_bind. by rewrite H. Qed.

End MonadLaws.

(** ** Rules for [effects] and [keeps_fs] *)

Section EffectRules.

Context {A B : Type}.
Variables (P : event -> Prop) (Q : exn -> Prop).

Lemma effects_ret (a : A) : effects P Q (mret a).
Proof.
  intros w r w' [= <- <-]. split; [|done].
  exists []. by rewrite app_nil_r.
Qed.

Lemma effects_bind (m : M A) (k : A -> M B) :
  effects P Q m -> (forall a, effects P Q (k a)) -> effects P Q (m ≫= k).
Proof.
  intros Hm Hk w r w'. unfold mbind, M_bind.
  destruct (m w) as [[a|e] w1] eqn:E; intros H.
  - destruct (Hm _ _ _ E) as [(evs1 & T1 & F1) _].
    destruct (Hk a _ _ _ H) as [(evs2 & T2 & F2) HQ].
    split; [|done]. exists (evs1 ++ evs2).
    rewrite T2, T1, <-app_assoc. split; [done|]. by apply Forall_app.
  - injection H as <- <-. destruct (Hm _ _ _ E) as [HT HQ]. split; [done|].
    intros e' [= <-]. by apply HQ.
Qed.

Lemma effects_raise c msg : Q (Exn c msg) -> effects P Q (@Eff.raise A c msg).
Proof.
  intros HQ w r w' [= <- <-]. split.
  - exists []. by rewrite app_nil_r.
  - by intros e [= <-].
Qed.

Lemma effects_reraise e : Q e -> effects P Q (@Eff.reraise A e).
Proof.
  intros HQ w r w' [= <- <-]. split.
  - exists []. by rewrite app_nil_r.
  - by intros e' [= <-].
Qed.

Lemma effects_lift (r : result A) :
  (forall e, r = Raise e -> Q e) -> effects P Q (Eff.lift r).
Proof.
  intros HQ w r' w' [= <- <-]. split; [|done].
  exists []. by rewrite app_nil_r.
Qed.

Lemma effects_try (m : M A) (h : exn -> option (M A)) (Q0 : exn -> Prop) :
  effects P Q0 m ->
  (forall e k, Q0 e -> h e = Some k -> effects P Q k) ->
  (forall e, Q0 e -> h e = None -> Q e) ->
  effects P Q (Eff.try_except m h).
Proof.
  intros Hm Hh Hn w r w'. unfold Eff.try_except.
  destruct (m w) as [[a|e] w1] eqn:E.
  - intros [= <- <-]. destruct (Hm _ _ _ E) as [HT _]. by split.
  - destruct (Hm _ _ _ E) as [(evs1 & T1 & F1) HQ0].
    specialize (HQ0 e eq_refl).
    destruct (h e) as [k|] eqn:Eh.
    + intros H. destruct (Hh e k HQ0 Eh _ _ _ H) as [(evs2 & T2 & F2) HQ].
      split; [|done]. exists (evs1 ++ evs2).
      rewrite T2, T1, <-app_assoc. split; [done|]. by apply Forall_app.
    + intros [= <- <-]. split; [eauto|]. intros e' [= <-]. by apply Hn.
Qed.

End EffectRules.

Lemma effects_emit P Q ev : P ev -> effects P Q (Eff.emit ev).
Proof.
  intros HP w r w' [= <- <-]. split; [|done].
  exists [ev]. split; [done|]. by constructor.
Qed.

Lemma effects_get_fs P Q : effects P Q Eff.get_fs.
Proof.
  intros w r w' [= <- <-]. split; [|done]. exists []. by rewrite app_nil_r.
Qed.

Lemma effects_put_fs P Q f : effects P Q (Eff.put_fs f).
Proof.
  intros w r w' [= <- <-]. split; [|done]. exists []. by rewrite app_nil_r.
Qed.

Lemma effects_weaken {A} (P P' : event -> Prop) (Q Q' : exn -> Prop) (m : M A) :
  (forall ev, P ev -> P' ev) -> (forall e, Q e -> Q' e) ->
  effects P Q m -> effects P' Q' m.
Proof.
  intros HP HQ Hm w r w' H. destruct (Hm _ _ _ H) as [(evs & T & F) HQ0].
  split; [|by eauto]. exists evs. split; [done|].
  eapply Forall_impl; eauto.
Qed.

(** ** The pure part never raises [SystemExit] *)

Lemma ordinary_bind {A B} (r : result A) (k : A -> result B) :
  ordinary r -> (forall a, ordinary (k a)) -> ordinary (Py.bind r k).
Proof. destruct r; simpl; auto. Qed.

Lemma ordinary_elim {A} (r : result A) :
  ordinary r -> forall e, r = Raise e -> exception e.
Proof. by intros H e ->. Qed.

Ltac ordinary_step :=
  match goal with
  | |- ordinary (Py.bind _ _) => apply ordinary_bind
  | |- forall _, _ => intro
  | |- ordinary (match ?x with _ => _ end) => destruct x
  | |- ordinary (if ?x then _ else _) => destruct x
  | |- ordinary _ => exact I
  | |- ordinary _ => reflexivity
  | H : _ |- ordinary _ => apply H
  end.

Ltac ordinary_tac := repeat ordinary_step.

Lemma ordinary_getitem v k : ordinary (Py.getitem v k).
Proof. unfold Py.getitem, Py.raise. ordinary_tac. Qed.

Lemma ordinary_get v k d : ordinary (Py.get v k d).
Proof. unfold Py.get, Py.raise. ordinary_tac. Qed.

Lemma ordinary_iter v : ordinary (Py.iter v).
Proof. unfold Py.iter, Py.raise. ordinary_tac. Qed.

Lemma ordinary_contains k v : ordinary (Py.contains k v).
Proof. unfold Py.contains, Py.raise. ordinary_tac. Qed.

Lemma ordinary_split v c : ordinary (Py.split v c).
Proof. unfold Py.split, Py.raise. ordinary_tac. Qed.

Lemma ordinary_float_of_int z : ordinary (Py.float_of_int z).
Proof. unfold Py.float_of_int, Py.raise. ordinary_tac. Qed.

Lemma ordinary_int_truediv a b : ordinary (Py.int_truediv a b).
Proof. unfold Py.int_truediv, Py.raise. ordinary_tac. Qed.

Lemma ordinary_float_truediv a b : ordinary (Py.float_truediv a b).
Proof. unfold Py.float_truediv, Py.raise. ordinary_tac. Qed.

Lemma ordinary_int_float_truediv n d : ordinary (Py.int_float_truediv n d).
Proof.
  unfold Py.int_float_truediv. apply ordinary_bind.
  - apply ordinary_float_of_int.
  - intros. apply ordinary_float_truediv.
Qed.

Create HintDb ordinary.

#[global] Hint Resolve ordinary_getitem ordinary_get ordinary_iter
  ordinary_contains ordinary_split ordinary_float_of_int ordinary_int_truediv
  ordinary_float_truediv ordinary_int_float_truediv : ordinary.

Section PureProgram.

Variable rt : runtime.

Lemma ordinary_py_int s : ordinary (py_int rt s).
Proof. unfold py_int, Py.raise. ordinary_tac. Qed.

Lemma ordinary_py_float v : ordinary (py_float rt v).
Proof.
  unfold py_float, Py.raise. destruct v; try exact I; try reflexivity.
  - apply ordinary_float_of_int.
  - ordinary_tac.
Qed.

Lemma ordinary_first_video l : ordinary (first_video l).
Proof.
  induction l as [|s l IH]; simpl; [exact I|].
  apply ordinary_bind; [apply ordinary_getitem|].
  intros c. by destruct (Py.eq_str c "video").
Qed.

Lemma ordinary_ratio v : ordinary (ratio rt v).
Proof.
  unfold ratio. apply ordinary_bind; [apply ordinary_split|].
  intros [|a [|b [|c l]]]; try reflexivity;
    repeat (apply ordinary_bind; [apply ordinary_py_int|intro]);
    try reflexivity.
  destruct (negb _); [apply ordinary_int_truediv|exact I].
Qed.

Lemma ordinary_has_slash v : ordinary (has_slash v).
Proof. unfold has_slash. destruct (Py.truthy v); [apply ordinary_contains|exact I]. Qed.

Lemma ordinary_stream_fps v : ordinary (stream_fps rt v).
Proof.
  unfold stream_fps.
  apply ordinary_bind; [apply ordinary_get|intros avg].
  apply ordinary_bind; [apply ordinary_has_slash|intros [|]].
  { apply ordinary_ratio. }
  destruct (Py.truthy avg); [apply ordinary_py_float|].
  apply ordinary_bind; [apply ordinary_get|intros r].
  apply ordinary_bind; [apply ordinary_has_slash|intros [|]].
  - apply ordinary_ratio.
  - exact I.
Qed.

Lemma ordinary_read_metadata p probe : ordinary (read_metadata rt p probe).
Proof.
  unfold read_metadata.
  apply ordinary_bind.
  { apply ordinary_bind; [apply ordinary_getitem|intro; apply ordinary_iter]. }
  intros streams. apply ordinary_bind; [apply ordinary_first_video|].
  intros vs. destruct (negb _); [reflexivity|].
  repeat (apply ordinary_bind;
          [first [apply ordinary_get | apply ordinary_getitem
                 | apply ordinary_py_float | apply ordinary_stream_fps]
          |intro]).
  exact I.
Qed.

End PureProgram.

(** ** Effects of the program's functions *)

Section KeepsFs.

Context {A B : Type}.

Lemma keeps_fs_ret (a : A) : keeps_fs (mret a).
Proof. by intros w r w' [= <- <-]. Qed.

Lemma keeps_fs_bind (m : M A) (k : A -> M B) :
  keeps_fs m -> (forall a, keeps_fs (k a)) -> keeps_fs (m ≫= k).
Proof.
  intros Hm Hk w r w'. unfold mbind, M_bind.
  destruct (m w) as [[a|e] w1] eqn:E; intros H.
  - rewrite (Hk a _ _ _ H). eauto.
  - injection H as <- <-. eauto.
Qed.

Lemma keeps_fs_raise c msg : keeps_fs (@Eff.raise A c msg).
Proof. by intros w r w' [= <- <-]. Qed.

Lemma keeps_fs_reraise e : keeps_fs (@Eff.reraise A e).
Proof. by intros w r w' [= <- <-]. Qed.

Lemma keeps_fs_lift (r : result A) : keeps_fs (Eff.lift r).
Proof. by intros w r' w' [= <- <-]. Qed.

Lemma keeps_fs_try (m : M A) (h : exn -> option (M A)) :
  keeps_fs m -> (forall e k, h e = Some k -> keeps_fs k) ->
  keeps_fs (Eff.try_except m h).
Proof.
  intros Hm Hh w r w'. unfold Eff.try_except.
  destruct (m w) as [[a|e] w1] eqn:E.
  - intros [= <- <-]. eauto.
  - destruct (h e) as [k|] eqn:Eh.
    + intros H. rewrite (Hh e k Eh _ _ _ H). eauto.
    + intros [= <- <-]. eauto.
Qed.

End KeepsFs.

Lemma keeps_fs_emit ev : keeps_fs (Eff.emit ev).
Proof. by intros w r w' [= <- <-]. Qed.

Lemma keeps_fs_get_fs : keeps_fs Eff.get_fs.
Proof. by intros w r w' [= <- <-]. Qed.

Lemma keeps_fs_get_env_path : keeps_fs Eff.get_env_path.
Proof. by intros w r w' [= <- <-]. Qed.

Lemma keeps_fs_put_env_path l : keeps_fs (Eff.put_env_path l).
Proof. by intros w r w' [= <- <-]. Qed.

Lemma effects_get_env_path P Q : effects P Q Eff.get_env_path.
Proof.
  intros w r w' [= <- <-]. split; [|done]. exists []. by rewrite app_nil_r.
Qed.

Lemma effects_put_env_path P Q l : effects P Q (Eff.put_env_path l).
Proof.
  intros w r w' [= <- <-]. split; [|done]. exists []. by rewrite app_nil_r.
Qed.

(** One step of a proof that a function of the program has the stated
    effects: the rules above, syntax directed. *)
Ltac effects_step :=
  match goal with
  | |- effects _ _ (mbind _ _) => apply effects_bind
  | |- effects _ _ (_ ≫= _) => apply effects_bind
  | |- effects _ _ (mret _) => apply effects_ret
  | |- effects _ _ (Eff.emit _) => apply effects_emit; exact I
  | |- effects _ _ (Eff.log _ _) => apply effects_emit; exact I
  | |- effects _ _ Eff.get_fs => apply effects_get_fs
  | |- effects _ _ (Eff.put_fs _) => apply effects_put_fs
  | |- effects _ _ Eff.get_env_path => apply effects_get_env_path
  | |- effects _ _ (Eff.put_env_path _) => apply effects_put_env_path
  | |- effects _ _ (Eff.raise _ _) => apply effects_raise; reflexivity
  | |- effects _ _ (Eff.sys_exit _) => apply effects_raise; reflexivity
  | |- effects _ _ (Eff.lift _) =>
      apply effects_lift; apply ordinary_elim; auto with ordinary
  | |- effects _ _ (if ?b then _ else _) => destruct b
  | |- effects _ _ (match ?x with _ => _ end) => destruct x
  | |- forall _, _ => intro
  end.

Ltac keeps_fs_step :=
  match goal with
  | |- keeps_fs (mbind _ _) => apply keeps_fs_bind
  | |- keeps_fs (_ ≫= _) => apply keeps_fs_bind
  | |- keeps_fs (mret _) => apply keeps_fs_ret
  | |- keeps_fs (Eff.emit _) => apply keeps_fs_emit
  | |- keeps_fs (Eff.log _ _) => apply keeps_fs_emit
  | |- keeps_fs Eff.get_fs => apply keeps_fs_get_fs
  | |- keeps_fs Eff.get_env_path => apply keeps_fs_get_env_path
  | |- keeps_fs (Eff.put_env_path _) => apply keeps_fs_put_env_path
  | |- keeps_fs (Eff.raise _ _) => apply keeps_fs_raise
  | |- keeps_fs (Eff.sys_exit _) => apply keeps_fs_raise
  | |- keeps_fs (Eff.reraise _) => apply keeps_fs_reraise
  | |- keeps_fs (Eff.lift _) => apply keeps_fs_lift
  | |- keeps_fs (if ?b then _ else _) => destruct b
  | |- keeps_fs (match ?x with _ => _ end) => destruct x
  | |- forall _, _ => intro
  end.

Section ProgramEffects.

Variable rt : runtime.

Lemma ffmpeg_probe_effects v :
  effects is_probe_or_log exception (ffmpeg_probe rt v).
Proof. unfold ffmpeg_probe. repeat effects_step. Qed.

Lemma ffmpeg_probe_keeps_fs v : keeps_fs (ffmpeg_probe rt v).
Proof. unfold ffmpeg_probe. repeat keeps_fs_step. Qed.

Lemma probe_metadata_effects v :
  effects is_probe_or_log exception (probe_metadata rt v).
Proof.
  unfold probe_metadata. apply effects_bind; [apply ffmpeg_probe_effects|].
  intros probe. apply effects_bind.
  { apply effects_lift. apply ordinary_elim, ordinary_read_metadata. }
  repeat effects_step.
Qed.

Lemma probe_metadata_keeps_fs v : keeps_fs (probe_metadata rt v).
Proof.
  unfold probe_metadata. apply keeps_fs_bind; [apply ffmpeg_probe_keeps_fs|].
  repeat keeps_fs_step.
Qed.

(** Whatever goes wrong while probing, the caller sees a missing file or
    a [RuntimeError]. *)
Lemma get_video_metadata_effects v :
  effects is_probe_or_log
          (fun e => exn_cls e = FileNotFoundError \/ exn_cls e = RuntimeError)
          (_get_video_metadata rt v).
Proof.
  unfold _get_video_metadata, path_exists.
  apply effects_bind; [repeat effects_step|].
  intros present. destruct (negb present).
  { apply effects_raise. by left. }
  eapply effects_try; [apply probe_metadata_effects| |].
  - intros e k He Hk. destruct (exn_cls e) eqn:Ec;
      try (rewrite He in Hk; injection Hk as <-);
      try (injection Hk as <-);
      (apply effects_bind; [apply effects_emit; exact I
                           |intros _; apply effects_raise; by right]).
  - intros e He Hn. destruct (exn_cls e); try discriminate;
      rewrite He in Hn; discriminate.
Qed.

Lemma get_video_metadata_keeps_fs v : keeps_fs (_get_video_metadata rt v).
Proof.
  unfold _get_video_metadata, path_exists.
  apply keeps_fs_bind; [repeat keeps_fs_step|].
  intros present. destruct (negb present); [apply keeps_fs_raise|].
  apply keeps_fs_try; [apply probe_metadata_keeps_fs|].
  intros e k Hk. destruct (exn_cls e); try destruct (is_Exception e);
    try discriminate; injection Hk as <-; repeat keeps_fs_step.
Qed.

End ProgramEffects.

(** ** Strings with and without a slash *)

Lemma split_plain s : plain s -> Str.split "/" s = [s].
Proof.
  unfold plain. induction s as [|c s IH]; [done|].
  cbn [Str.split Str.find]. rewrite (Ascii.eqb_sym c).
  destruct (Ascii.eqb "/" c); [done|].
  intros H. destruct (Str.find "/" s); [done|]. by rewrite IH.
Qed.

Lemma split_at_slash a b :
  plain a -> Str.split "/" (a +:+ String "/" b) = a :: Str.split "/" b.
Proof.
  unfold plain. induction a as [|c a IH]; [done|].
  change (String c a +:+ String "/" b) with (String c (a +:+ String "/" b)).
  cbn [Str.split Str.find]. rewrite (Ascii.eqb_sym c).
  destruct (Ascii.eqb "/" c); [done|].
  intros H. destruct (Str.find "/" a); [done|]. by rewrite IH.
Qed.

Lemma contains_slash a b : Str.contains "/" (a +:+ String "/" b) = true.
Proof.
  induction a as [|c a IH].
  - by destruct b.
  - change (String c a +:+ String "/" b) with (String c (a +:+ String "/" b)).
    cbn [Str.contains]. rewrite IH. apply orb_true_r.
Qed.

Lemma plain_no_slash s : plain s -> Str.contains "/" s = false.
Proof.
  unfold plain. induction s as [|c s IH]; [done|].
  cbn [Str.contains Str.find].
  destruct (Ascii.eqb "/" c) eqn:E; [done|]. intros H.
  destruct (Str.find "/" s); [done|]. rewrite IH by done.
  cbn [String.prefix].
  destruct (ascii_dec "/" c) as [<-|]; [|done].
  by rewrite Ascii.eqb_refl in E.
Qed.

Lemma truthy_with_slash a b : Py.truthy (PStr (a +:+ String "/" b)) = true.
Proof. by destruct a. Qed.

(** ** The frame rate *)

Section FrameRate.

Variable rt : runtime.

(** A rate [a/b] is the quotient of the two ints, and 0.0 when the
    denominator is zero. *)
Lemma ratio_pair a b num den :
  plain a -> plain b ->
  int_of_str rt a = Some num -> int_of_str rt b = Some den ->
  ratio rt (PStr (a +:+ "/" +:+ b))
    = if (den =? 0)%Z then Ok 0%float else Py.int_truediv num den.
Proof.
  intros Ha Hb Hnum Hden. unfold ratio.
  change (a +:+ "/" +:+ b) with (a +:+ String "/" b).
  cbn [Py.split Py.bind].
  rewrite (split_at_slash a b Ha), (split_plain b Hb).
  unfold py_int. rewrite Hnum, Hden. cbn [Py.bind]. by destruct (den =? 0)%Z.
Qed.

Lemma has_slash_pair a b : has_slash (PStr (a +:+ "/" +:+ b)) = Ok true.
Proof.
  change (a +:+ "/" +:+ b) with (a +:+ String "/" b).
  unfold has_slash. rewrite truthy_with_slash. cbn [Py.contains]. by rewrite contains_slash.
Qed.

Lemma has_slash_falsy v : Py.truthy v = false -> has_slash v = Ok false.
Proof. unfold has_slash. by intros ->. Qed.

Lemma has_slash_plain s : plain s -> has_slash (PStr s) = Ok false.
Proof.
  intros H. unfold has_slash. destruct (Py.truthy _); [|done].
  cbn [Py.contains]. by rewrite plain_no_slash.
Qed.

End FrameRate.

(** ** The frame rate and the missing video stream *)

(** C1 (as amended). The frame rate read from the video stream.
    When [avg_frame_rate] is a string [a/b] of two ints, the rate is the
    quotient [num / den] for a non-zero [den] and 0.0 for [den = 0];
    [r_frame_rate] plays no part in either case.  When [avg_frame_rate]
    is absent (or empty), [r_frame_rate] decides: a string [a/b] gives
    [num / den], or 0.0 for [den = 0]; an absent [r_frame_rate], or one
    without a slash, gives 0.0. *)
Theorem stream_fps_by_cases (rt : runtime) (video_stream avg r : pyval) :
  Py.get video_stream "avg_frame_rate" PNone = Ok avg ->
  Py.get video_stream "r_frame_rate" PNone = Ok r ->
  (forall a b num den,
      avg = PStr (a +:+ "/" +:+ b) -> plain a -> plain b ->
      int_of_str rt a = Some num -> int_of_str rt b = Some den ->
      stream_fps rt video_stream
        = if (den =? 0)%Z then Ok 0%float else Py.int_truediv num den) /\
  (Py.truthy avg = false ->
     (forall a b num den,
        r = PStr (a +:+ "/" +:+ b) -> plain a -> plain b ->
        int_of_str rt a = Some num -> int_of_str rt b = Some den ->
        stream_fps rt video_stream
          = if (den =? 0)%Z then Ok 0%float else Py.int_truediv num den) /\
     (Py.truthy r = false \/ (exists s, r = PStr s /\ plain s) ->
        stream_fps rt video_stream = Ok 0%float)).
Proof.
  intros Havg Hr. unfold stream_fps. rewrite Havg. cbn [Py.bind]. split.
  - intros a b num den -> Ha Hb Hnum Hden.
    rewrite has_slash_pair. cbn [Py.bind]. by apply ratio_pair.
  - intros Hfalsy. rewrite (has_slash_falsy _ Hfalsy), Hfalsy, Hr.
    cbn [Py.bind]. split.
    + intros a b num den -> Ha Hb Hnum Hden.
      rewrite has_slash_pair. cbn [Py.bind]. by apply ratio_pair.
    + intros [Hr0|(s & -> & Hs)].
      * by rewrite (has_slash_falsy _ Hr0).
      * by rewrite (has_slash_plain _ Hs).
Qed.

Lemma stream_fps_by_cases_witness :
  stream_fps Fixture.rt Fixture.clip_stream = Py.int_truediv 30000 1001 /\
  stream_fps Fixture.rt (PDict [("r_frame_rate", PStr "25/1")]) = Py.int_truediv 25 1 /\
  stream_fps Fixture.rt (PDict [("r_frame_rate", PStr "25")]) = Ok 0%float.
Proof.
  split; [|split].
  - exact (proj1 (stream_fps_by_cases Fixture.rt Fixture.clip_stream
                    (PStr "30000/1001") (PStr "30/1") eq_refl eq_refl)
                 "30000" "1001" 30000 1001 eq_refl eq_refl eq_refl eq_refl eq_refl).
  - exact (proj1 (proj2 (stream_fps_by_cases Fixture.rt
                    (PDict [("r_frame_rate", PStr "25/1")])
                    PNone (PStr "25/1") eq_refl eq_refl) eq_refl)
                 "25" "1" 25 1 eq_refl eq_refl eq_refl eq_refl eq_refl).
  - exact (proj2 (proj2 (stream_fps_by_cases Fixture.rt
                    (PDict [("r_frame_rate", PStr "25")])
                    PNone (PStr "25") eq_refl eq_refl) eq_refl)
                 (or_intror (ex_intro _ "25" (conj eq_refl eq_refl)))).
Defined.

(** C1, the claim as worded: with [avg_frame_rate = "0/0"] (and likewise
    with the ["0/1"] of the specification) the rate is 0.0 although
    [r_frame_rate = "30/1"] parses to 30.0. *)
Lemma zero_denominator_does_not_fall_back :
  ~ falls_back_to_r_frame_rate Fixture.rt
      (PDict [("codec_type", PStr "video"); ("avg_frame_rate", PStr "0/0");
              ("r_frame_rate", PStr "30/1")]) /\
  ~ falls_back_to_r_frame_rate Fixture.rt
      (PDict [("codec_type", PStr "video"); ("avg_frame_rate", PStr "0/1");
              ("r_frame_rate", PStr "30/1")]).
Proof.
  split; intros H; specialize (H (PStr "30/1") eq_refl);
    vm_compute in H; discriminate H.
Qed.

(** The rate of ["30000/1001"] is about 29.97. *)
Example ntsc_rate :
  exists x, stream_fps Fixture.rt Fixture.clip_stream = Ok x /\
            PrimFloat.ltb 29.96875 x = true /\ PrimFloat.ltb x 29.9765625 = true.
Proof. eexists. split; [vm_compute; reflexivity|]. by vm_compute. Qed.

(** C9. A file without a video stream: [read_metadata] raises the
    [ValueError], but the handler of [_get_video_metadata] turns it into
    the same [RuntimeError] that a failing ffprobe gives. *)
Theorem no_video_stream_ends_in_runtime_error :
  FS.exists_ Fixture.fs0 Fixture.audio_only = true /\
  read_metadata Fixture.rt Fixture.audio_only
      (PDict [("streams", PList [Fixture.audio_stream]); ("format", PDict [])])
    = Raise (Exn ValueError "No video stream found in videos/audio.mp4") /\
  (_get_video_metadata Fixture.rt Fixture.audio_only Fixture.w0).1
    = Raise (Exn RuntimeError "Could not get video metadata for videos/audio.mp4.") /\
  (_get_video_metadata Fixture.rt Fixture.broken Fixture.w0).1
    = Raise (Exn RuntimeError "Could not get video metadata for videos/broken.mp4.").
Proof. repeat split; by vm_compute. Qed.


(** ** Comparisons with zero *)

Lemma positive_not_le (d : float) :
  PrimFloat.ltb 0 d = true -> PrimFloat.leb d 0 = false.
Proof.
  rewrite FloatAxioms.ltb_spec, FloatAxioms.leb_spec. change (Prim2SF 0) with (S754_zero false).
  destruct (Prim2SF d) as [s|s| |s m e]; try destruct s; cbn; congruence.
Qed.

Lemma positive_not_zero (d : float) :
  PrimFloat.ltb 0 d = true -> PrimFloat.eqb d 0 = false.
Proof.
  rewrite FloatAxioms.ltb_spec, FloatAxioms.eqb_spec. change (Prim2SF 0) with (S754_zero false).
  destruct (Prim2SF d) as [s|s| |s m e]; try destruct s; cbn; congruence.
Qed.

(** ** The sampling rate *)

(** C3. In frame-count mode a positive duration [D] gives the rate
    [float(N) / D] (the only possible failure is an [N] too large for a
    float), and a duration [D <= 0] gives exactly 1.0: a warning is
    logged, nothing is raised, and 1.0 passes the positivity test that
    follows. *)
Theorem frame_count_rate (video : Path) (D : float) (N : Z)
    (interval : option float) (w : world) :
  (PrimFloat.ltb 0 D = true ->
     plan_rate video D (Some N) interval w
       = (Py.bind (Py.float_of_int N) (fun x => Ok (PrimFloat.div x D)), w)) /\
  (PrimFloat.leb D 0 = true ->
     plan_rate video D (Some N) interval w
       = (Ok 1%float,
          World (fs w) (env_path w)
                (trace w ++ [EvLog WARNING (MsgDurationDefault video)])) /\
     PrimFloat.leb 1 0 = false).
Proof.
  split; intros H; unfold plan_rate.
  - rewrite (positive_not_le _ H). unfold Eff.lift, Py.int_float_truediv.
    f_equal. destruct (Py.float_of_int N); [|done]. cbn [Py.bind].
    unfold Py.float_truediv. by rewrite (positive_not_zero _ H).
  - by rewrite H.
Qed.

Lemma frame_count_rate_witness :
  plan_rate Fixture.clip 10 (Some 5%Z) None Fixture.w0 = (Ok 0.5%float, Fixture.w0) /\
  (plan_rate Fixture.clip 0 (Some 5%Z) None Fixture.w0).1 = Ok 1%float.
Proof.
  split.
  - exact (proj1 (frame_count_rate Fixture.clip 10 5 None Fixture.w0) eq_refl).
  - exact (f_equal fst
             (proj1 (proj2 (frame_count_rate Fixture.clip 0 5 None Fixture.w0) eq_refl))).
Defined.


(** Unfold the monad and the calls that only read the world. *)
Ltac mred :=
  cbv beta iota zeta delta
    [mbind M_bind mret M_ret Eff.emit Eff.log Eff.get_fs Eff.put_fs
     Eff.raise Eff.reraise Eff.lift Eff.try_except Eff.sys_exit
     Eff.get_env_path Eff.put_env_path
     path_exists path_is_dir path_is_file];
  cbn [fs env_path trace negb].

Section Extraction.

Variable rt : runtime.

(** A successful probe: the metadata, one probe call and at most the
    warning about a duration or rate that is not positive. *)
Lemma get_video_metadata_ok v w resp meta :
  FS.exists_ (fs w) v = true ->
  ffprobe rt (fs w) v = ProbeOk resp ->
  read_metadata rt v resp = Ok meta ->
  _get_video_metadata rt v w
    = (Ok meta, World (fs w) (env_path w)
                      (trace w ++ EvProbe v :: metadata_warning v meta)).
Proof.
  intros Hex Hprobe Hmeta.
  unfold _get_video_metadata. mred. rewrite Hex. mred.
  unfold probe_metadata, ffmpeg_probe. mred. rewrite Hprobe. mred.
  rewrite Hmeta. unfold metadata_warning.
  destruct (_ || _); mred; by rewrite <-?app_assoc.
Qed.

(** With a non-positive interval the rate planner raises at once. *)
Lemma plan_rate_rejects v D I w :
  PrimFloat.leb I 0 = true ->
  plan_rate v D None (Some I) w
    = (Raise (Exn ValueError "Interval seconds must be greater than 0."), w).
Proof. intros H. unfold plan_rate. by rewrite H. Qed.

(** With a non-positive interval [extract_frames] always raises, leaves
    the file system alone, and neither makes the output directory nor
    runs ffmpeg. *)
Lemma extract_frames_nonpositive_interval v out I w :
  PrimFloat.leb I 0 = true ->
  exists e w' evs,
    extract_frames rt v out None (Some I) w = (Raise e, w') /\
    fs w' = fs w /\ trace w' = trace w ++ evs /\ Forall no_extraction evs.
Proof.
  intros HI. unfold extract_frames. mred.
  destruct (FS.exists_ (fs w) v); mred.
  2:{ eexists _, _, [_]. do 3 (split; [reflexivity|]). by repeat constructor. }
  destruct (FS.is_file (fs w) v); mred.
  2:{ eexists _, _, [_]. do 3 (split; [reflexivity|]). by repeat constructor. }
  set (w1 := World (fs w) (env_path w) (trace w ++ [EvExtract v out])).
  destruct (_get_video_metadata rt v w1) as [[meta|e] w2] eqn:E.
  - rewrite (plan_rate_rejects _ _ _ _ HI). mred. unfold critical.
    cbn [is_Exception exn_cls]. mred.
    destruct (get_video_metadata_effects rt v _ _ _ E) as [(evs & T & F) _].
    pose proof (get_video_metadata_keeps_fs rt v _ _ _ E) as Hfs.
    eexists _, _, (EvExtract v out :: evs ++ [_]).
    split; [reflexivity|]. cbn [fs trace]. split; [done|]. split.
    + rewrite T. subst w1. cbn [trace]. by rewrite <-!app_assoc.
    + constructor; [done|]. apply Forall_app. split.
      * eapply Forall_impl; [exact F|]. by intros [].
      * by repeat constructor.
  - destruct (get_video_metadata_effects rt v _ _ _ E) as [(evs & T & F) HQ].
    pose proof (get_video_metadata_keeps_fs rt v _ _ _ E) as Hfs.
    assert (is_Exception e = true) as Hexc.
    { destruct (HQ e eq_refl) as [H|H]; unfold is_Exception; by rewrite H. }
    unfold critical. rewrite Hexc. mred.
    eexists _, _, (EvExtract v out :: evs ++ [_]).
    split; [reflexivity|]. cbn [fs trace]. split; [done|]. split.
    + rewrite T. subst w1. cbn [trace]. by rewrite <-!app_assoc.
    + constructor; [done|]. apply Forall_app. split.
      * eapply Forall_impl; [exact F|]. by intros [].
      * by repeat constructor.
Qed.

(** After a successful probe of a regular file the exception is the
    [ValueError] of the interval check, logged once on its way out. *)
Lemma extract_frames_rejects_interval v out I w resp meta :
  FS.is_file (fs w) v = true ->
  ffprobe rt (fs w) v = ProbeOk resp ->
  read_metadata rt v resp = Ok meta ->
  PrimFloat.leb I 0 = true ->
  let e := Exn ValueError "Interval seconds must be greater than 0." in
  extract_frames rt v out None (Some I) w
    = (Raise e,
       World (fs w) (env_path w)
             (trace w ++ EvExtract v out :: EvProbe v :: metadata_warning v meta
                      ++ [EvLog CRITICAL (MsgExtractionCritical (Pathlib.name v) e)])).
Proof.
  intros Hfile Hprobe Hmeta HI e.
  assert (FS.exists_ (fs w) v = true) as Hex.
  { unfold FS.is_file, FS.exists_ in *. apply bool_decide_eq_true in Hfile.
    apply bool_decide_eq_true. by rewrite Hfile. }
  unfold extract_frames. mred. rewrite Hex. mred. rewrite Hfile. mred.
  rewrite (get_video_metadata_ok _ _ resp meta) by done.
  rewrite (plan_rate_rejects _ _ _ _ HI). mred. unfold critical.
  cbn [is_Exception exn_cls]. mred. subst e. do 2 f_equal.
  by rewrite <-!app_assoc.
Qed.

End Extraction.

(** C4 (as amended). In interval mode a positive interval [I] gives the
    rate [1.0 / I].  An interval [I <= 0] makes [extract_frames] raise
    without creating the output directory and without running ffmpeg;
    the video has been looked up and probed with ffprobe by then, and
    when that probe succeeded on a regular file the exception is the
    [ValueError] of the interval check. *)
Theorem interval_rate (rt : runtime) (video out : Path) (I : float) (w : world) :
  (PrimFloat.ltb 0 I = true ->
     forall D, plan_rate video D None (Some I) w = (Ok (PrimFloat.div 1 I), w)) /\
  (PrimFloat.leb I 0 = true ->
     (exists e w' evs,
        extract_frames rt video out None (Some I) w = (Raise e, w') /\
        fs w' = fs w /\ trace w' = trace w ++ evs /\ Forall no_extraction evs) /\
     (forall resp meta,
        FS.is_file (fs w) video = true ->
        ffprobe rt (fs w) video = ProbeOk resp ->
        read_metadata rt video resp = Ok meta ->
        exists w',
          extract_frames rt video out None (Some I) w
            = (Raise (Exn ValueError "Interval seconds must be greater than 0."), w') /\
          EvProbe video ∈ trace w')).
Proof.
  split.
  - intros H D. unfold plan_rate. rewrite (positive_not_le _ H).
    unfold Eff.lift, Py.float_truediv. by rewrite (positive_not_zero _ H).
  - intros H. split; [by apply extract_frames_nonpositive_interval|].
    intros resp meta Hfile Hprobe Hmeta. eexists. split.
    + by apply (extract_frames_rejects_interval rt video out I w resp meta).
    + cbn [trace]. apply elem_of_app. right. right. by left.
Qed.

Lemma interval_rate_witness :
  plan_rate Fixture.clip 10 None (Some 2%float) Fixture.w0
    = (Ok 0.5%float, Fixture.w0) /\
  exists w',
    extract_frames Fixture.rt Fixture.clip (Pathlib.of_str "out") None
                   (Some (-1)%float) Fixture.w0
      = (Raise (Exn ValueError "Interval seconds must be greater than 0."), w') /\
    EvProbe Fixture.clip ∈ trace w'.
Proof.
  split.
  - exact (proj1 (interval_rate Fixture.rt Fixture.clip (Pathlib.of_str "out")
                                2 Fixture.w0) eq_refl 10%float).
  - eapply (proj2 (proj2 (interval_rate Fixture.rt Fixture.clip
                            (Pathlib.of_str "out") (-1) Fixture.w0) eq_refl));
      vm_compute; reflexivity.
Defined.

(** C4, the claim as worded: for the interval -1 and a regular file that
    ffprobe accepts, the [ValueError] comes only after the probe call, so
    the run is not free of calls to external tools. *)
Lemma interval_checked_after_probe :
  PrimFloat.leb (-1) 0 = true /\
  FS.is_file Fixture.fs0 Fixture.clip = true /\
  ~ rejected_before_any_tool Fixture.rt Fixture.clip (Pathlib.of_str "out")
                             (-1) Fixture.w0.
Proof.
  split; [done|]. split; [by vm_compute|].
  intros (msg & w' & evs & Hrun & Htrace & Hquiet).
  vm_compute in Hrun. injection Hrun as _ <-.
  cbn [trace Fixture.w0 app] in Htrace. subst evs.
  apply Forall_cons in Hquiet as [_ Hquiet].
  by apply Forall_cons in Hquiet as [Hprobe _].
Qed.

(** ** The job driver *)

Lemma extract_calls_app t1 t2 :
  extract_calls (t1 ++ t2) = extract_calls t1 ++ extract_calls t2.
Proof.
  induction t1 as [|[] t1 IH]; cbn [extract_calls app]; by rewrite ?IH.
Qed.

Lemma extract_calls_none t : Forall not_extract t -> extract_calls t = [].
Proof.
  induction 1 as [|ev t Hev _ IH]; [done|]. by destruct ev.
Qed.

Lemma is_log_not_extract ev : is_log ev -> not_extract ev.
Proof. by destruct ev. Qed.

Lemma is_probe_or_log_not_extract ev : is_probe_or_log ev -> not_extract ev.
Proof. by destruct ev. Qed.

Section Driver.

Variable rt : runtime.

Lemma subprocess_run_effects job : effects not_extract exception (subprocess_run rt job).
Proof.
  unfold subprocess_run. apply effects_bind; [repeat effects_step|]. intros _.
  apply effects_bind; [repeat effects_step|]. intros f.
  destruct (ffmpeg_run rt f job) as [outcome f'].
  apply effects_bind; [repeat effects_step|]. intros _.
  repeat effects_step.
Qed.

Lemma run_ffmpeg_effects v out job : effects not_extract exception (run_ffmpeg rt v out job).
Proof.
  unfold run_ffmpeg. eapply effects_try with (Q0 := exception).
  - apply effects_bind; [apply subprocess_run_effects|]. repeat effects_step.
  - intros e k He Hk. destruct (exn_cls e); try discriminate.
    injection Hk as <-. repeat effects_step.
  - by intros e He _.
Qed.

Lemma mkdir_effects d : effects not_extract exception (mkdir d).
Proof.
  unfold mkdir. apply effects_bind; [repeat effects_step|]. intros _.
  apply effects_bind; [repeat effects_step|]. intros f.
  apply effects_bind; [|repeat effects_step].
  apply effects_lift. unfold FS.mkdir_p.
  generalize (@nil string). generalize f. clear f.
  induction (parts d) as [|c rest IH]; intros f done e; cbn [FS.mkdir_from].
  - destruct (f !! _) as [[]|]; unfold Py.raise; by intros [= <-].
  - destruct (f !! _) as [[]|]; unfold Py.raise; try by intros [= <-].
    all: apply IH.
Qed.

Lemma plan_rate_effects v D nf iv : effects not_extract exception (plan_rate v D nf iv).
Proof. unfold plan_rate. repeat effects_step. Qed.

Lemma write_frames_effects v out rate : effects not_extract exception (write_frames rt v out rate).
Proof.
  unfold write_frames. destruct (PrimFloat.leb rate 0); [repeat effects_step|].
  apply effects_bind; [apply mkdir_effects|]. intros _.
  apply effects_bind; [repeat effects_step|]. intros _.
  apply run_ffmpeg_effects.
Qed.

(** One call of [extract_frames]: its own ghost event first, then no
    further one, and nothing but an [Exception] can come out. *)
Lemma extract_frames_effects v out nf iv w r w' :
  extract_frames rt v out nf iv w = (r, w') ->
  exists evs, trace w' = trace w ++ EvExtract v out :: evs /\
              Forall not_extract evs /\
              (forall e, r = Raise e -> exception e).
Proof.
  unfold extract_frames. intros H.
  rewrite (bind_ok _ _ _ tt (World (fs w) (env_path w) (trace w ++ [EvExtract v out])))
    in H by done.
  match type of H with ?m _ = _ => assert (effects not_extract exception m) as Hm end.
  { apply effects_bind; [unfold path_exists; repeat effects_step|].
    intros present. destruct (negb present); [repeat effects_step|].
    apply effects_bind; [unfold path_is_file; repeat effects_step|].
    intros regular. destruct (negb regular); [repeat effects_step|].
    eapply effects_try with (Q0 := exception).
    - apply effects_bind.
      + eapply effects_weaken; [| |apply get_video_metadata_effects].
        * apply is_probe_or_log_not_extract.
        * intros e [He|He]; unfold exception, is_Exception; by rewrite He.
      + intros meta. apply effects_bind; [apply plan_rate_effects|].
        intros rate. apply write_frames_effects.
    - intros e k He Hk. unfold critical in Hk. rewrite He in Hk.
      injection Hk as <-. apply effects_bind; [repeat effects_step|].
      intros _. by apply effects_reraise.
    - intros e He Hn. unfold critical in Hn. by rewrite He in Hn. }
  destruct (Hm _ _ _ H) as [(evs & T & F) HQ]. cbn [trace] in T.
  exists evs. split; [by rewrite T, <-app_assoc|]. by split.
Qed.

(** The loop body never raises: a failing video is logged and the loop
    goes on. *)
Lemma process_one_run videos out nf iv v w :
  exists w' evs,
    process_one rt videos out nf iv v w = (Ok tt, w') /\
    trace w' = trace w ++ evs /\
    extract_calls evs = [(v, output_dir_for videos out v)].
Proof.
  unfold process_one, Eff.try_except.
  destruct (extract_frames _ _ _ _ _ w) as [[[]|e] w1] eqn:E;
    destruct (extract_frames_effects _ _ _ _ _ _ _ E) as (evs & T & F & HQ).
  - eexists _, _. split; [done|]. split; [exact T|].
    cbn [extract_calls]. by rewrite (extract_calls_none _ F).
  - rewrite (HQ e eq_refl). eexists _, (_ ++ [_]). split; [done|].
    cbn [trace Eff.log Eff.emit]. rewrite T, <-app_assoc. split; [done|].
    rewrite extract_calls_app. cbn [extract_calls].
    by rewrite (extract_calls_none _ F).
Qed.

Lemma process_one_failure videos out nf iv v w e w1 :
  extract_frames rt v (output_dir_for videos out v) nf iv w = (Raise e, w1) ->
  process_one rt videos out nf iv v w
    = (Ok tt, World (fs w1) (env_path w1)
                    (trace w1 ++ [EvLog ERROR (MsgCouldNotProcess (Pathlib.name v) e)])).
Proof.
  intros E. unfold process_one, Eff.try_except. rewrite E.
  destruct (extract_frames_effects _ _ _ _ _ _ _ E) as (evs & T & F & HQ).
  by rewrite (HQ e eq_refl).
Qed.

Lemma for_each_process_one videos out nf iv l w :
  exists w' evs,
    Eff.for_each l (process_one rt videos out nf iv) w = (Ok tt, w') /\
    trace w' = trace w ++ evs /\
    extract_calls evs = map (fun v => (v, output_dir_for videos out v)) l.
Proof.
  revert w. induction l as [|v l IH]; intros w; cbn [Eff.for_each map].
  - exists w, []. by rewrite app_nil_r.
  - destruct (process_one_run videos out nf iv v w) as (w1 & evs1 & E1 & T1 & C1).
    destruct (IH w1) as (w2 & evs2 & E2 & T2 & C2).
    exists w2, (evs1 ++ evs2). rewrite (bind_ok _ _ _ _ _ E1). split; [done|].
    split; [by rewrite T2, T1, <-app_assoc|].
    by rewrite extract_calls_app, C1, C2.
Qed.

End Driver.

Section Main.

Variable rt : runtime.

(** The start-up step only logs and, at most, extends the search path. *)
Lemma setup_ffmpeg_path_run w :
  exists env evs,
    setup_ffmpeg_path rt w = (Ok tt, World (fs w) env (trace w ++ evs)) /\
    Forall is_log evs.
Proof.
  unfold setup_ffmpeg_path, _find_ffmpeg_bin_directory. mred.
  destruct (_ && _); mred.
  - destruct (bool_decide _); mred.
    + eexists _, [_]. split; [reflexivity|]. by repeat constructor.
    + eexists _, [_]. split; [reflexivity|]. by repeat constructor.
  - eexists _, [_]. split; [done|]. by repeat constructor.
Qed.

Lemma paths_of_strings entries :
  paths_of (map PStr entries) = Ok (map Pathlib.of_str entries).
Proof.
  induction entries as [|s l IH]; [done|]. cbn [map paths_of]. by rewrite IH.
Qed.

(** A well-formed manifest yields its entries, in order. *)
Lemma load_manifest_ok input w items entries :
  json_load rt (fs w) input = Loaded (PDict items) ->
  Py.lookup "videos" items = Some (PList (map PStr entries)) ->
  load_manifest rt input w = (Ok (map Pathlib.of_str entries), w).
Proof.
  intros Hload Hvideos. unfold load_manifest, open_json. mred.
  rewrite Hload. mred. unfold malformed. cbn [Py.contains Py.getitem Py.bind].
  rewrite Hvideos. cbn [Py.bind negb Py.isinstance_list Py.iter].
  by rewrite paths_of_strings.
Qed.

(** Anything else ends the run: [sys.exit(1)] from the handler, or an
    exception that the handler does not name. *)
Lemma load_manifest_malformed input w :
  well_formed_manifest (json_load rt (fs w) input) = false ->
  exists e evs,
    load_manifest rt input w
      = (Raise e, World (fs w) (env_path w) (trace w ++ evs)) /\
    Forall is_log evs /\ Eff.exit_status (@Raise unit e) = 1.
Proof.
  intros Hwf. destruct w as [f env t]. cbn [fs] in Hwf.
  unfold load_manifest, open_json. mred.
  destruct (json_load rt f input) as [| | |data]; mred.
  1-3: cbn [is_ValueError is_KeyError exn_cls orb]; mred.
  1: { eexists _, []. rewrite app_nil_r. by repeat split. }
  1-2: eexists _, [_]; split; [done|]; split; [by repeat constructor|done].
  unfold malformed.
  destruct data as [| | | | s|l|items]; cbn [Py.contains Py.bind Py.raise];
    cbn [is_ValueError is_KeyError exn_cls orb]; mred.
  1-4: eexists _, []; rewrite app_nil_r; by repeat split.
  - destruct (Str.contains "videos" s); cbn [negb Py.getitem Py.bind Py.raise];
      cbn [is_ValueError is_KeyError exn_cls orb]; mred.
    + eexists _, []. rewrite app_nil_r. by repeat split.
    + eexists _, [_]. split; [done|]. split; [by repeat constructor|done].
  - destruct (existsb _ l); cbn [negb Py.getitem Py.bind Py.raise];
      cbn [is_ValueError is_KeyError exn_cls orb]; mred.
    + eexists _, []. rewrite app_nil_r. by repeat split.
    + eexists _, [_]. split; [done|]. split; [by repeat constructor|done].
  - cbn [well_formed_manifest] in Hwf. cbn [Py.getitem].
    destruct (Py.lookup "videos" items) as [v|];
      cbn [negb Py.bind Py.isinstance_list].
    + destruct v; try discriminate Hwf;
        cbn [negb is_ValueError is_KeyError exn_cls orb]; mred;
        (eexists _, [_]; split; [done|]; split; [by repeat constructor|done]).
    + cbn [is_ValueError is_KeyError exn_cls orb]; mred.
      eexists _, [_]. split; [done|]. split; [by repeat constructor|done].
Qed.

End Main.

(** C5. An extract run on a path with the manifest suffix whose file does
    not hold a dict with a list under ["videos"] (unreadable and
    unparseable files included) ends with a non-zero exit status; it has
    only written log lines by then: [extract_frames] was never called and
    the file system is as before. *)
Theorem malformed_manifest_is_fatal (rt : runtime) (path : string)
    (output_dir : option string) (num_frames : option Z)
    (interval_sec : option float) (w : world) :
  String.eqb (Str.lower (Pathlib.suffix (Pathlib.of_str path))) ".json" = true ->
  well_formed_manifest (json_load rt (fs w) (Pathlib.of_str path)) = false ->
  exists r w' evs,
    main rt (ExtractArgs path output_dir num_frames interval_sec) w = (r, w') /\
    Eff.exit_status r <> 0 /\
    fs w' = fs w /\ trace w' = trace w ++ evs /\
    Forall is_log evs /\ extract_calls evs = [].
Proof.
  intros Hjson Hwf. unfold main.
  destruct (setup_ffmpeg_path_run rt w) as (env & evs0 & Hsetup & Hlog0).
  rewrite (bind_ok _ _ _ _ _ Hsetup). mred.
  destruct (FS.exists_ (fs w) (Pathlib.of_str path)); mred.
  2:{ eexists _, _, (evs0 ++ [_; _]). split; [reflexivity|].
      split; [by cbn|]. cbn [fs trace]. split; [done|].
      rewrite <-!app_assoc. split; [reflexivity|].
      assert (Forall is_log (evs0 ++ [EvLog INFO MsgSetupCompleted;
                EvLog ERROR (MsgInputMissing (Pathlib.of_str path))])) as Hall.
      { apply Forall_app. split; [done|]. by repeat constructor. }
      split; [done|]. apply extract_calls_none.
      eapply Forall_impl; [exact Hall|]. apply is_log_not_extract. }
  unfold videos_to_process. rewrite Hjson. mred.
  match goal with |- context [load_manifest rt ?p ?w1] =>
    destruct (load_manifest_malformed rt p w1) as (e & evs1 & Hload & Hlog1 & Hexit)
  end; [done|].
  rewrite Hload. eexists _, _, (evs0 ++ [_; _] ++ evs1).
  split; [reflexivity|]. split; [by rewrite Hexit|]. cbn [fs trace].
  split; [done|]. rewrite <-!app_assoc. split; [reflexivity|].
  assert (Forall is_log (evs0 ++ [EvLog INFO MsgSetupCompleted;
            EvLog INFO (MsgDetectedJson (Pathlib.of_str path))] ++ evs1)) as Hall.
  { apply Forall_app. split; [done|]. apply Forall_app. split; [|done].
    by repeat constructor. }
  split; [done|]. apply extract_calls_none.
  eapply Forall_impl; [exact Hall|]. apply is_log_not_extract.
Qed.

Lemma malformed_manifest_is_fatal_witness :
  exists r w' evs,
    main Fixture.rt (ExtractArgs "clips.json" None (Some 5) None) Fixture.w0 = (r, w') /\
    Eff.exit_status r <> 0 /\
    fs w' = fs Fixture.w0 /\ trace w' = trace Fixture.w0 ++ evs /\
    Forall is_log evs /\ extract_calls evs = [].
Proof.
  apply (malformed_manifest_is_fatal Fixture.rt "clips.json" None (Some 5) None
           Fixture.w0); vm_compute; reflexivity.
Defined.

(** C6. A batch run over a manifest that lists path strings: [main]
    returns normally, so the exit status is 0 whatever happened to the
    single videos; [extract_frames] has been called once for every entry,
    in the order of the manifest, each with its own output directory; and
    a call that raised is turned by the loop body into one error line,
    after which the loop goes on. *)
Theorem batch_processes_every_video (rt : runtime) (path : string)
    (output_dir : option string) (num_frames : option Z)
    (interval_sec : option float) (w : world)
    (items : list (string * pyval)) (entries : list string) :
  let videos := map Pathlib.of_str entries in
  FS.exists_ (fs w) (Pathlib.of_str path) = true ->
  String.eqb (Str.lower (Pathlib.suffix (Pathlib.of_str path))) ".json" = true ->
  json_load rt (fs w) (Pathlib.of_str path) = Loaded (PDict items) ->
  Py.lookup "videos" items = Some (PList (map PStr entries)) ->
  (exists r w' evs,
     main rt (ExtractArgs path output_dir num_frames interval_sec) w = (r, w') /\
     r = Ok tt /\ Eff.exit_status r = 0 /\
     trace w' = trace w ++ evs /\
     extract_calls evs
       = map (fun v => (v, output_dir_for videos output_dir v)) videos) /\
  (forall v w0 e w1,
     extract_frames rt v (output_dir_for videos output_dir v)
                    num_frames interval_sec w0 = (Raise e, w1) ->
     process_one rt videos output_dir num_frames interval_sec v w0
       = (Ok tt, World (fs w1) (env_path w1)
                       (trace w1 ++ [EvLog ERROR (MsgCouldNotProcess (Pathlib.name v) e)]))).
Proof.
  intros videos Hex Hjson Hload Hvideos. split; [|apply process_one_failure].
  unfold main.
  destruct (setup_ffmpeg_path_run rt w) as (env & evs0 & Hsetup & Hlog0).
  rewrite (bind_ok _ _ _ _ _ Hsetup). mred. rewrite Hex. mred.
  unfold videos_to_process. rewrite Hjson. mred.
  rewrite (load_manifest_ok rt _ _ items entries) by done. mred.
  unfold process_videos. fold videos.
  match goal with |- context [Eff.for_each videos ?body ?w1] =>
    destruct (for_each_process_one rt videos output_dir num_frames interval_sec
                videos w1) as (w2 & evs2 & Hloop & T2 & C2)
  end.
  rewrite Hloop. eexists _, _, (evs0 ++ [_; _; _] ++ evs2).
  split; [done|]. split; [done|]. split; [done|].
  rewrite T2. cbn [trace]. rewrite <-!app_assoc. split; [done|].
  rewrite !extract_calls_app, C2.
  rewrite (extract_calls_none evs0); [done|].
  eapply Forall_impl; [exact Hlog0|]. apply is_log_not_extract.
Qed.

Lemma batch_processes_every_video_witness :
  exists r w' evs,
    main Fixture.rt (ExtractArgs "batch.json" None (Some 5) None) Fixture.w0 = (r, w') /\
    r = Ok tt /\ Eff.exit_status r = 0 /\
    trace w' = trace Fixture.w0 ++ evs /\
    extract_calls evs
      = [(Fixture.broken, Pathlib.of_str "videos/frames");
         (Fixture.clip, Pathlib.of_str "videos/frames")].
Proof.
  apply (proj1 (batch_processes_every_video Fixture.rt "batch.json" None (Some 5)
                  None Fixture.w0
                  [("videos", PList [PStr "videos/broken.mp4"; PStr "videos/clip.mp4"])]
                  ["videos/broken.mp4"; "videos/clip.mp4"]%string
                  eq_refl eq_refl eq_refl eq_refl)).
Defined.

(** The batch of the specification: the first video fails in the probe,
    the second one is extracted, and the exit status is 0. *)
Example batch_with_one_failure :
  let '(r, w') := main Fixture.rt (ExtractArgs "batch.json" None (Some 5) None)
                       Fixture.w0 in
  Eff.exit_status r = 0 /\
  EvLog ERROR (MsgCouldNotProcess "broken.mp4"
     (Exn RuntimeError "Could not get video metadata for videos/broken.mp4."))
    ∈ trace w' /\
  fs w' !! Pathlib.of_str "videos/frames/frame_0001.png" = Some File.
Proof. vm_compute. split; [done|]. split; [|done]. set_solver. Qed.

(** ** The output directory *)

(** A single video and a non-empty override: the override it is. *)
Lemma output_dir_for_override v dir video_path :
  dir <> ""%string ->
  output_dir_for [v] (Some dir) video_path = Pathlib.of_str dir.
Proof.
  intros Hdir. unfold output_dir_for. cbn [length Nat.eqb andb].
  destruct (String.eqb_spec dir ""); [done|]. done.
Qed.

(** No override, or an empty one: the [frames] directory next to the
    video. *)
Lemma output_dir_for_default videos output_dir video_path :
  output_dir = None \/ output_dir = Some ""%string ->
  output_dir_for videos output_dir video_path
    = Pathlib.parent video_path // "frames".
Proof.
  intros [->| ->]; [done|]. unfold output_dir_for.
  cbn [String.eqb negb]. by rewrite andb_false_r.
Qed.

(** More than one video: the override is ignored. *)
Lemma output_dir_for_batch videos output_dir video_path :
  length videos <> 1%nat ->
  output_dir_for videos output_dir video_path
    = Pathlib.parent video_path // "frames".
Proof.
  intros Hlen. unfold output_dir_for. destruct output_dir as [dir|]; [|done].
  destruct (Nat.eqb_spec (length videos) 1); [done|]. done.
Qed.

(** C2. The failing input: a manifest with a single entry, together with
    [--output_dir out].  The run is a batch run, yet the override is
    honoured: the one call of [extract_frames] gets [out], ffmpeg writes
    there, and the per-video default [videos/frames] is never made. *)
Theorem single_entry_manifest_uses_override :
  let '(r, w') := main Fixture.rt (ExtractArgs "single.json" (Some "out") (Some 5) None)
                       Fixture.w0 in
  String.eqb (Str.lower (Pathlib.suffix (Pathlib.of_str "single.json"))) ".json" = true /\
  r = Ok tt /\
  extract_calls (trace w') = [(Fixture.clip, Pathlib.of_str "out")] /\
  Pathlib.parent Fixture.clip // "frames" = Pathlib.of_str "videos/frames" /\
  fs w' !! Pathlib.of_str "out/frame_0001.png" = Some File /\
  fs w' !! Pathlib.of_str "videos/frames" = None.
Proof. by vm_compute. Qed.

(** ** The file system *)

Section FileSystem.

Implicit Types (f : filesystem) (d p q : Path).

(** A filter that looks at the path alone. *)
Lemma lookup_filter_path (P : Path * entry -> Prop) `{!forall x, Decision (P x)}
    (Q : Path -> Prop) f p :
  (forall q e, P (q, e) <-> Q q) ->
  (Q p -> filter P f !! p = f !! p) /\ (~ Q p -> filter P f !! p = None).
Proof.
  intros HPQ. split; intros HQ.
  - destruct (f !! p) as [e|] eqn:E.
    + apply map_lookup_filter_Some. split; [done|]. by apply HPQ.
    + apply map_lookup_filter_None. by left.
  - apply map_lookup_filter_None. right. intros e _ HP. by apply HQ, (HPQ p e).
Qed.

Lemma elem_of_iterdir f d p :
  p ∈ FS.iterdir f d <-> Pathlib.child_of d p /\ is_Some (f !! p).
Proof.
  unfold FS.iterdir, FS.children. rewrite list_elem_of_fmap. split.
  - intros ([q e] & -> & H). apply elem_of_map_to_list in H.
    apply map_lookup_filter_Some in H as [H1 H2]. by eauto.
  - intros [Hc [e He]]. exists (p, e). split; [done|].
    apply elem_of_map_to_list. by apply map_lookup_filter_Some.
Qed.

Lemma elem_of_glob_png f d p :
  p ∈ FS.glob_png f d
    <-> Pathlib.child_of d p /\ FS.png_name p = true /\ is_Some (f !! p).
Proof.
  unfold FS.glob_png. rewrite list_elem_of_filter, elem_of_iterdir. tauto.
Qed.

Lemma iterdir_nil f d :
  FS.iterdir f d = [] <-> forall p, Pathlib.child_of d p -> f !! p = None.
Proof.
  split.
  - intros H p Hc. destruct (f !! p) as [e|] eqn:E; [|done].
    assert (p ∈ FS.iterdir f d) as Hin by (apply elem_of_iterdir; eauto).
    rewrite H in Hin. by apply elem_of_nil in Hin.
  - intros H. apply elem_of_nil_inv. intros p Hp.
    apply elem_of_iterdir in Hp as [Hc [e He]]. by rewrite (H p Hc) in He.
Qed.

Lemma glob_png_nil f d :
  FS.glob_png f d = [] ->
  forall p, Pathlib.child_of d p -> FS.png_name p = true -> f !! p = None.
Proof.
  intros H p Hc Hn. destruct (f !! p) as [e|] eqn:E; [|done].
  assert (p ∈ FS.glob_png f d) as Hin by (apply elem_of_glob_png; eauto).
  rewrite H in Hin. by apply elem_of_nil in Hin.
Qed.

Lemma lookup_without_pngs f d p :
  without_pngs f d !! p = if decide (png_file_in f d p) then None else f !! p.
Proof.
  unfold without_pngs.
  edestruct (lookup_filter_path (fun kv => ~ png_file_in f d kv.1)
               (fun q => ~ png_file_in f d q) f p) as [Hin Hout]; [done|].
  case_decide; [apply Hout; tauto|by apply Hin].
Qed.

Lemma lookup_rmtree f d p :
  FS.rmtree f d !! p = if decide (Pathlib.under d p) then None else f !! p.
Proof.
  unfold FS.rmtree.
  edestruct (lookup_filter_path (fun kv => ~ Pathlib.under d kv.1)
               (fun q => ~ Pathlib.under d q) f p) as [Hin Hout]; [done|].
  case_decide; [apply Hout; tauto|by apply Hin].
Qed.

(** Without any [.png] entry there is nothing to take away. *)
Lemma without_pngs_id f d :
  (forall p, png_file_in f d p -> False) -> without_pngs f d = f.
Proof.
  intros H. apply map_eq. intros p. rewrite lookup_without_pngs.
  case_decide; [by destruct (H p)|done].
Qed.

Lemma png_file_in_without_pngs f d p : ~ png_file_in (without_pngs f d) d p.
Proof.
  intros (Hc & Hn & Hf). rewrite lookup_without_pngs in Hf.
  case_decide as Hp; [done|]. apply Hp. exact (conj Hc (conj Hn Hf)).
Qed.

Lemma under_refl d : Pathlib.under d d.
Proof. by split. Qed.

Lemma child_under d p : Pathlib.child_of d p -> Pathlib.under d p.
Proof.
  intros [Hne <-]. split; [done|]. cbn [Pathlib.parent parts].
  exists [List.last (parts p) EmptyString].
  destruct (parts p) as [|x l] using rev_ind; [done|].
  by rewrite removelast_last, last_last.
Qed.

Lemma child_of_join d c : Pathlib.child_of d (d // c).
Proof.
  split.
  - cbn [Pathlib.joinpath parts]. by destruct (parts d).
  - unfold Pathlib.parent, Pathlib.joinpath. cbn [anchored parts].
    rewrite removelast_last. by destruct d.
Qed.

Lemma not_under_join d c : ~ Pathlib.under (d // c) d.
Proof.
  intros [_ [l Hl]]. cbn [Pathlib.joinpath parts] in Hl.
  apply (f_equal length) in Hl. rewrite !length_app in Hl. cbn in Hl. lia.
Qed.

(** In a well-formed file system every entry strictly below [d] sits
    under an entry directly inside [d], which is a directory unless it
    is that entry itself. *)
Lemma first_child f a pd n rest e :
  well_formed_fs f ->
  f !! MkPath a (pd ++ n :: rest) = Some e ->
  f !! MkPath a (pd ++ [n]) = Some (match rest with [] => e | _ => Dir end).
Proof.
  intros Hwf. revert e. induction rest as [|x rest IH] using rev_ind; intros e He.
  - done.
  - assert (f !! MkPath a (pd ++ n :: rest) = Some Dir) as Hparent.
    { specialize (Hwf _ _ He). unfold Pathlib.parent in Hwf.
      cbn [parts anchored] in Hwf.
      replace (pd ++ n :: rest ++ [x]) with ((pd ++ n :: rest) ++ [x]) in Hwf
        by (by rewrite <-app_assoc).
      rewrite removelast_last in Hwf. apply Hwf. by destruct (pd ++ n :: rest). }
    specialize (IH _ Hparent). destruct rest; cbn in IH |- *; [done|].
    by destruct (rest ++ [x]).
Qed.

Lemma below_has_child f d p e :
  well_formed_fs f -> f !! p = Some e -> Pathlib.under d p -> p <> d ->
  exists c, Pathlib.child_of d c /\
            (c = p \/ f !! c = Some Dir).
Proof.
  intros Hwf He [Ha [l Hl]] Hne. destruct d as [a pd], p as [a' pp].
  cbn [anchored parts] in *. subst a' pp.
  destruct l as [|n rest]; [by rewrite app_nil_r in Hne|].
  exists (MkPath a pd // n). split; [apply child_of_join|].
  pose proof (first_child f a pd n rest e Hwf He) as H.
  destruct rest; [by left|by right].
Qed.

End FileSystem.

(** ** Running the cleanup *)

Section Cleanup.

Implicit Types (f : filesystem) (d p q t : Path) (w : world).

(** One round of the deletion loop, seen from the end of the loop. *)
Lemma removal_step (f g : filesystem) (p : Path) (l : list Path) :
  (forall q, g !! q
             = if decide (q ∈ l /\
                          (match f !! p with Some File => delete p f | _ => f end)
                            !! q = Some File)
               then None
               else (match f !! p with Some File => delete p f | _ => f end) !! q) ->
  forall q, g !! q = if decide (q ∈ p :: l /\ f !! q = Some File) then None
                     else f !! q.
Proof.
  intros Hg q. rewrite Hg. clear Hg.
  destruct (decide (q = p)) as [->|Hne].
  - destruct (f !! p) as [[]|] eqn:Ep; rewrite ?lookup_delete_eq, ?Ep.
    + destruct (decide (p ∈ l /\ _)) as [[? ?]|_]; [done|].
      destruct (decide (p ∈ p :: l /\ _)) as [_|Hn]; [done|].
      destruct Hn. split; [by left|done].
    + destruct (decide (p ∈ l /\ _)) as [[? ?]|_]; [done|].
      by destruct (decide (p ∈ p :: l /\ _)) as [[? ?]|_].
    + destruct (decide (p ∈ l /\ _)) as [[? ?]|_]; [done|].
      by destruct (decide (p ∈ p :: l /\ _)) as [[? ?]|_].
  - assert ((match f !! p with Some File => delete p f | _ => f end) !! q = f !! q) as ->.
    { destruct (f !! p) as [[]|]; by rewrite ?lookup_delete_ne. }
    destruct (decide (q ∈ l /\ _)) as [[Hin Hf]|Hn];
      destruct (decide (q ∈ p :: l /\ _)) as [[Hin' Hf']|Hn']; try done.
    + destruct Hn'. split; [by right|done].
    + destruct Hn. split; [|done]. by apply elem_of_cons in Hin' as [?|?].
Qed.

(** The deletion loop: every regular file of the list is gone, nothing
    else has changed, and the loop itself never raises. *)
Lemma remove_all_run l w :
  exists w' evs,
    remove_all l w = (Ok tt, w') /\
    env_path w' = env_path w /\
    trace w' = trace w ++ evs /\ Forall no_rmtree evs /\
    forall q, fs w' !! q
              = if decide (q ∈ l /\ fs w !! q = Some File) then None
                else fs w !! q.
Proof.
  unfold remove_all. revert w.
  induction l as [|p l IH]; intros w; cbn [Eff.for_each].
  - exists w, []. rewrite app_nil_r. do 4 (split; [done|]).
    intros q. destruct (decide _) as [[H _]|_]; [|done].
    by apply elem_of_nil in H.
  - set (rest := Eff.for_each l _) in *.
    pose proof (removal_step (fs w)) as Hstep.
    unfold os_remove, FS.remove. mred.
    destruct (fs w !! p) as [[]|] eqn:Ep; mred; unfold Py.raise;
      cbn [is_OSError exn_cls]; mred.
    all: match goal with |- context [_ (World ?a ?b ?c)] =>
           destruct (IH (World a b c)) as (w' & evs & Hrun & Henv & Htr & Hev & Hfs)
         end; cbn [fs env_path trace] in *; rewrite Hrun.
    all: specialize (Hstep (fs w') p l); rewrite Ep in Hstep.
    + exists w', (EvRemove p :: evs). split; [done|]. split; [done|].
      split; [by rewrite Htr, <-app_assoc|]. split; [by constructor|].
      by apply Hstep.
    + eexists w', (EvRemove p :: _ :: evs). split; [done|]. split; [done|].
      split; [by rewrite Htr, <-!app_assoc|].
      split; [by repeat constructor|]. by apply Hstep.
    + eexists w', (EvRemove p :: _ :: evs). split; [done|]. split; [done|].
      split; [by rewrite Htr, <-!app_assoc|].
      split; [by repeat constructor|]. by apply Hstep.
Qed.

(** On the list that [glob] returns, that is the file system without the
    [.png] files of the directory. *)
Lemma remove_all_glob d w :
  exists evs,
    remove_all (FS.glob_png (fs w) d) w
      = (Ok tt, World (without_pngs (fs w) d) (env_path w) (trace w ++ evs)) /\
    Forall no_rmtree evs.
Proof.
  destruct (remove_all_run (FS.glob_png (fs w) d) w)
    as ([f' env' t'] & evs & Hrun & Henv & Htr & Hev & Hfs).
  cbn [fs env_path trace] in *. subst env' t'.
  exists evs. split; [|done]. rewrite Hrun. do 2 f_equal.
  apply map_eq. intros q. rewrite Hfs, lookup_without_pngs.
  destruct (decide (q ∈ _ /\ _)) as [[Hin Hf]|Hno];
    destruct (decide (png_file_in _ _ _)) as [Hpng|Hnopng]; try done; exfalso.
  - apply Hnopng. apply elem_of_glob_png in Hin.
    split; [tauto|]. split; [tauto|done].
  - apply Hno. destruct Hpng as (Hc & Hn & Hf). split; [|done].
    apply elem_of_glob_png. by eauto.
Qed.

Lemma prune_run d w :
  prune d w
    = if decide (Str.lower (Pathlib.name d) = "frames"%string
                 /\ FS.iterdir (fs w) d = [])
      then (Ok tt, World (FS.rmtree (fs w) d) (env_path w)
                         (trace w ++ [EvRmtree d; EvLog INFO (MsgRemovedEmptyDir d)]))
      else (Ok tt, w).
Proof.
  unfold prune, shutil_rmtree. mred. destruct w as [f env t]. cbn [fs env_path trace].
  destruct (String.eqb_spec (Str.lower (Pathlib.name d)) "frames") as [Hn|Hn]; mred.
  - destruct (FS.iterdir f d) eqn:E; mred; case_decide as H; try done.
    + by rewrite <-app_assoc.
    + exfalso. by apply H.
    + by destruct H.
  - case_decide as H; [by destruct H|done].
Qed.

(** Lines 137-155 as a whole. *)
Lemma clean_dir_run d w :
  exists evs,
    clean_dir d w = (Ok tt, World (cleaned (fs w) d) (env_path w) (trace w ++ evs)) /\
    (FS.glob_png (fs w) d = [] -> evs = [EvLog INFO (MsgNoPngFound d)]) /\
    (forall d', EvRmtree d' ∈ evs -> d' = d /\ prunes (fs w) d).
Proof.
  unfold clean_dir, cleaned. mred.
  destruct (FS.glob_png (fs w) d) as [|p0 l0] eqn:Eglob.
  - mred. exists [EvLog INFO (MsgNoPngFound d)].
    assert (without_pngs (fs w) d = fs w) as Hid.
    { apply without_pngs_id. intros p (Hc & Hn & Hf).
      by rewrite (glob_png_nil _ _ Eglob p Hc Hn) in Hf. }
    case_decide as Hp; [by destruct Hp as [Hp _]|]. rewrite Hid.
    split; [done|]. split; [done|]. intros d' Hin.
    apply list_elem_of_singleton in Hin. discriminate Hin.
  - mred. rewrite <-Eglob.
    set (w1 := World (fs w) (env_path w) (trace w ++ [EvLog INFO (MsgDeleting (length (FS.glob_png (fs w) d)) d)])).
    destruct (remove_all_glob d w1) as (evs & Hrun & Hev).
    cbn [fs env_path trace w1] in Hrun. rewrite Hrun. rewrite prune_run.
    cbn [fs env_path trace].
    assert (FS.glob_png (fs w) d <> []) as Hne by (by rewrite Eglob).
    case_decide as H1; case_decide as H2.
    + eexists (_ :: evs ++ [_; _]). split; [by rewrite <-!app_assoc|].
      split; [done|]. intros d' Hin. apply elem_of_cons in Hin as [?|Hin]; [done|].
      apply elem_of_app in Hin as [Hin|Hin].
      * rewrite Forall_forall in Hev. by destruct (Hev _ Hin).
      * apply elem_of_cons in Hin as [[= ->]|Hin]; [done|].
        apply list_elem_of_singleton in Hin. discriminate Hin.
    + exfalso. apply H2. by destruct H1.
    + exfalso. apply H1. by destruct H2 as (_ & ? & ?).
    + eexists (_ :: evs). split; [by rewrite <-!app_assoc|].
      split; [done|]. intros d' Hin. apply elem_of_cons in Hin as [?|Hin]; [done|].
      rewrite Forall_forall in Hev. by destruct (Hev _ Hin).
Qed.

Lemma resolve_frames_dir_run t w :
  exists evs,
    resolve_frames_dir t w
      = (Ok (frames_dir (fs w) t), World (fs w) (env_path w) (trace w ++ evs)) /\
    Forall is_log evs.
Proof.
  unfold resolve_frames_dir, frames_dir. mred. destruct w as [f env tr].
  cbn [fs env_path trace].
  destruct (FS.is_dir f t && negb _); mred.
  - destruct (FS.is_dir f (t // "frames")); mred.
    + exists []. by rewrite app_nil_r.
    + eexists [_]. split; [done|]. by repeat constructor.
  - exists []. by rewrite app_nil_r.
Qed.

(** The three ways in which [delete_frames] ends. *)
Lemma delete_frames_missing t w :
  FS.exists_ (fs w) t = false ->
  delete_frames t w
    = (Ok tt, World (fs w) (env_path w)
                    (trace w ++ [EvLog WARNING (MsgPathMissing t)])).
Proof. intros H. unfold delete_frames. mred. by rewrite H. Qed.

Lemma delete_frames_not_a_directory t w :
  FS.exists_ (fs w) t = true ->
  FS.is_dir (fs w) (frames_dir (fs w) t) = false ->
  exists e evs,
    delete_frames t w = (Raise e, World (fs w) (env_path w) (trace w ++ evs)) /\
    Forall is_log evs.
Proof.
  intros Hex Hdir. unfold delete_frames. mred. rewrite Hex. mred.
  destruct (resolve_frames_dir_run t w) as (evs & Hres & Hlog).
  rewrite Hres. cbn [fs]. rewrite Hdir. mred. by eexists _, _.
Qed.

Lemma delete_frames_run t w :
  FS.exists_ (fs w) t = true ->
  FS.is_dir (fs w) (frames_dir (fs w) t) = true ->
  exists evs,
    delete_frames t w
      = (Ok tt, World (cleaned (fs w) (frames_dir (fs w) t)) (env_path w)
                      (trace w ++ evs)) /\
    (FS.glob_png (fs w) (frames_dir (fs w) t) = [] ->
       exists warning, evs = warning ++ [EvLog INFO (MsgNoPngFound (frames_dir (fs w) t))]
                       /\ Forall is_log warning) /\
    (forall d', EvRmtree d' ∈ evs ->
       d' = frames_dir (fs w) t /\ prunes (fs w) (frames_dir (fs w) t)).
Proof.
  intros Hex Hdir. unfold delete_frames. mred. rewrite Hex. mred.
  destruct (resolve_frames_dir_run t w) as (evs0 & Hres & Hlog).
  rewrite Hres. cbn [fs]. rewrite Hdir. mred.
  match goal with |- context [clean_dir ?d ?w1] =>
    destruct (clean_dir_run d w1) as (evs1 & Hclean & Hnil & Hrm)
  end.
  cbn [fs env_path trace] in *. rewrite Hclean.
  exists (evs0 ++ evs1). split; [by rewrite <-app_assoc|]. split.
  - intros Hg. exists evs0. by rewrite (Hnil Hg).
  - intros d' Hin. apply elem_of_app in Hin as [Hin|Hin]; [|by apply Hrm].
    rewrite Forall_forall in Hlog. by destruct (Hlog _ Hin).
Qed.

End Cleanup.

(** ** What a cleanup leaves behind *)

Section Cleaned.

Implicit Types (f : filesystem) (d p q t : Path) (w : world).

Lemma not_child_of_itself d : ~ Pathlib.child_of d d.
Proof.
  intros [Hne Hp]. destruct d as [a l]. injection Hp as Hl.
  apply (f_equal length) in Hl. destruct l as [|x l] using rev_ind; [done|].
  rewrite removelast_last, length_app in Hl. cbn in Hl. lia.
Qed.

Lemma cleaned_subseteq f d p e : cleaned f d !! p = Some e -> f !! p = Some e.
Proof.
  unfold cleaned. case_decide.
  - rewrite lookup_rmtree. case_decide; [done|].
    rewrite lookup_without_pngs. by case_decide.
  - rewrite lookup_without_pngs. by case_decide.
Qed.

Lemma cleaned_png f d p : png_file_in f d p -> cleaned f d !! p = None.
Proof.
  intros Hp. unfold cleaned. case_decide.
  - rewrite lookup_rmtree. case_decide; [done|].
    rewrite lookup_without_pngs. by case_decide.
  - rewrite lookup_without_pngs. by case_decide.
Qed.

Lemma cleaned_outside f d p :
  ~ Pathlib.under d p -> cleaned f d !! p = f !! p.
Proof.
  intros Hp. unfold cleaned.
  assert (~ png_file_in f d p) as Hn.
  { intros (Hc & _). by apply Hp, child_under. }
  case_decide.
  - rewrite lookup_rmtree. case_decide; [done|].
    rewrite lookup_without_pngs. by case_decide.
  - rewrite lookup_without_pngs. by case_decide.
Qed.

(** Cleaning a directory that holds no [.png] file changes nothing. *)
Lemma cleaned_id f d : (forall p, ~ png_file_in f d p) -> cleaned f d = f.
Proof.
  intros Hnone. assert (without_pngs f d = f) as Hid by by apply without_pngs_id.
  unfold cleaned. rewrite Hid. case_decide as Hp; [|done].
  destruct Hp as (Hglob & _ & Hempty). rewrite Hid in Hempty.
  exfalso. apply Hglob.
  apply elem_of_nil_inv. intros p Hin.
  apply elem_of_glob_png in Hin as (Hc & Hn & [e He]).
  rewrite iterdir_nil in Hempty. by rewrite (Hempty p Hc) in He.
Qed.

Lemma cleaned_twice f d : cleaned (cleaned f d) d = cleaned f d.
Proof.
  apply cleaned_id. intros p (Hc & Hn & Hf).
  pose proof (cleaned_subseteq _ _ _ _ Hf) as Hf0.
  rewrite cleaned_png in Hf; [done|]. exact (conj Hc (conj Hn Hf0)).
Qed.

End Cleaned.

(** C7. For a cleanup that resolves to the existing directory [d] of a
    well-formed file system: it succeeds; every regular file directly
    inside [d] whose name matches [*.png] is gone; every other entry
    apart from [d] itself is exactly as before, in nested directories
    too; and [d] either stays, or is removed when all it held were such
    files. *)
Theorem cleanup_removes_exactly_the_png_files (target d : Path) (w w1 : world) :
  well_formed_fs (fs w) ->
  FS.exists_ (fs w) target = true ->
  resolve_frames_dir target w = (Ok d, w1) ->
  FS.is_dir (fs w) d = true ->
  exists w',
    delete_frames target w = (Ok tt, w') /\
    (forall p, png_file_in (fs w) d p -> fs w' !! p = None) /\
    (forall p, ~ png_file_in (fs w) d p -> p <> d -> fs w' !! p = fs w !! p) /\
    (fs w' !! d = Some Dir \/
     (fs w' !! d = None /\
      forall p, Pathlib.child_of d p -> is_Some (fs w !! p) ->
                png_file_in (fs w) d p)).
Proof.
  intros Hwf Hex Hres Hdir.
  destruct (resolve_frames_dir_run target w) as (evs0 & Hres' & _).
  rewrite Hres in Hres'. injection Hres' as -> _.
  destruct (delete_frames_run target w Hex Hdir) as (evs & Hrun & _).
  set (d := frames_dir (fs w) target) in *.
  eexists. split; [exact Hrun|]. cbn [fs].
  split; [by intros p; apply cleaned_png|].
  unfold cleaned. destruct (decide (prunes (fs w) d)) as [(Hglob & Hname & Hempty)|Hno].
  - rewrite iterdir_nil in Hempty. split.
    + intros p Hnp Hne. rewrite lookup_rmtree.
      destruct (decide (Pathlib.under d p)) as [Hu|Hu].
      * destruct (fs w !! p) as [e|] eqn:E; [|done]. exfalso.
        destruct (below_has_child _ d p e Hwf E Hu Hne) as (c & Hc & Hcase).
        specialize (Hempty c Hc). rewrite lookup_without_pngs in Hempty.
        destruct (decide (png_file_in (fs w) d c)) as [Hpng|_].
        -- destruct Hcase as [->|Hcd]; [by apply Hnp|].
           destruct Hpng as (_ & _ & Hfile). congruence.
        -- destruct Hcase as [->|Hcd]; congruence.
      * rewrite lookup_without_pngs. by case_decide.
    + right. split.
      * rewrite lookup_rmtree. case_decide as Hu; [done|].
        by destruct Hu; apply under_refl.
      * intros p Hc [e He]. specialize (Hempty p Hc).
        rewrite lookup_without_pngs in Hempty. case_decide; [done|congruence].
  - split.
    + intros p Hnp _. rewrite lookup_without_pngs. by case_decide.
    + left. rewrite lookup_without_pngs. case_decide as Hp.
      * destruct Hp as (Hc & _). by apply not_child_of_itself in Hc.
      * unfold FS.is_dir in Hdir. by apply bool_decide_eq_true in Hdir.
Qed.

(** A concrete file system is well formed when each of its entries
    passes the check. *)
Lemma well_formed_fs_check (f : filesystem) :
  map_Forall (fun p _ => parts p <> [] -> f !! Pathlib.parent p = Some Dir) f ->
  well_formed_fs f.
Proof. intros H p e He. by apply (H p e). Qed.

Lemma cleanup_removes_exactly_the_png_files_witness :
  let w := World Fixture.fs_frames [] [] in
  let d := Pathlib.of_str "shots/frames" in
  exists w',
    delete_frames (Pathlib.of_str "shots") w = (Ok tt, w') /\
    (forall p, png_file_in (fs w) d p -> fs w' !! p = None) /\
    (forall p, ~ png_file_in (fs w) d p -> p <> d -> fs w' !! p = fs w !! p) /\
    (fs w' !! d = Some Dir \/
     (fs w' !! d = None /\
      forall p, Pathlib.child_of d p -> is_Some (fs w !! p) ->
                png_file_in (fs w) d p)).
Proof.
  intros w d.
  apply (cleanup_removes_exactly_the_png_files (Pathlib.of_str "shots") d w w).
  - apply well_formed_fs_check. apply (bool_decide_unpack _). by vm_compute.
  - by vm_compute.
  - by vm_compute.
  - by vm_compute.
Defined.

(** The directory of the specification: [a.png] and [b.png] go, [c.txt]
    stays, and so do the frame in the nested directory and the poster
    next to [frames]. *)
Example cleanup_scoping :
  let '(r, w') := delete_frames (Pathlib.of_str "shots")
                                (World Fixture.fs_frames [] []) in
  r = Ok tt /\
  fs w' !! Pathlib.of_str "shots/frames/a.png" = None /\
  fs w' !! Pathlib.of_str "shots/frames/b.png" = None /\
  fs w' !! Pathlib.of_str "shots/frames/c.txt" = Some File /\
  fs w' !! Pathlib.of_str "shots/frames/keep/d.png" = Some File /\
  fs w' !! Pathlib.of_str "shots/poster.png" = Some File.
Proof. by vm_compute. Qed.

Section SecondRun.

Implicit Types (f : filesystem) (d p q t : Path) (w : world).

Lemma is_dir_true f p : FS.is_dir f p = true <-> f !! p = Some Dir.
Proof. unfold FS.is_dir. apply bool_decide_eq_true. Qed.

Lemma is_dir_false f p : FS.is_dir f p = false <-> f !! p <> Some Dir.
Proof. unfold FS.is_dir. apply bool_decide_eq_false. Qed.

(** The directory a cleanup works on is the target or its [frames]
    subdirectory, and in the second case the target is a directory with
    another name. *)
Lemma frames_dir_cases f t :
  (frames_dir f t = t /\
   (FS.is_dir f t = false \/ Str.lower (Pathlib.name t) = "frames"%string
    \/ FS.is_dir f (t // "frames") = false)) \/
  (frames_dir f t = t // "frames" /\ FS.is_dir f t = true /\
   Str.lower (Pathlib.name t) <> "frames"%string /\
   FS.is_dir f (t // "frames") = true).
Proof.
  unfold frames_dir. destruct (FS.is_dir f t); cbn [andb]; [|left; tauto].
  destruct (String.eqb_spec (Str.lower (Pathlib.name t)) "frames");
    cbn [andb negb]; [left; tauto|].
  destruct (FS.is_dir f (t // "frames")); [right|left]; tauto.
Qed.

End SecondRun.

(** C8 (as amended). After a cleanup that succeeded, a second cleanup of
    the same target succeeds as well.  It deletes nothing unless the
    first cleanup removed the [frames] subdirectory of a target with
    another name; in that one case the second cleanup works on the
    target directory itself and takes the [.png] files directly inside
    it. *)
Theorem second_cleanup (target : Path) (w w1 : world) :
  delete_frames target w = (Ok tt, w1) ->
  exists w2,
    delete_frames target w1 = (Ok tt, w2) /\
    (~ pruned_subdir (fs w) (fs w1) target -> fs w2 = fs w1) /\
    (pruned_subdir (fs w) (fs w1) target ->
       fs w2 = without_pngs (fs w1) target).
Proof.
  intros Hfirst.
  destruct (FS.exists_ (fs w) target) eqn:Hex.
  2:{ rewrite (delete_frames_missing _ _ Hex) in Hfirst.
      injection Hfirst as <-. cbn [fs].
      eexists. split; [by apply delete_frames_missing|]. cbn [fs].
      split; [done|]. intros (_ & Hyes & Hno). congruence. }
  destruct (FS.is_dir (fs w) (frames_dir (fs w) target)) eqn:Hdir.
  2:{ destruct (delete_frames_not_a_directory _ _ Hex Hdir) as (e & evs & Hr & _).
      congruence. }
  destruct (delete_frames_run _ _ Hex Hdir) as (evs & Hrun & _).
  rewrite Hrun in Hfirst. injection Hfirst as <-. cbn [fs].
  set (f := fs w) in *. set (d := frames_dir f target) in *.
  set (f1 := cleaned f d).
  assert (f !! target = Some Dir) as Htarget.
  { apply is_dir_true.
    destruct (frames_dir_cases f target) as [[Hd _]|(_ & Ht & _)]; [|done].
    fold d in Hd. by rewrite <-Hd. }
  destruct (FS.exists_ f1 target) eqn:Hex1.
  2:{ eexists. split; [by apply delete_frames_missing|]. cbn [fs].
      split; [done|]. intros (Hname & Hyes & Hno). exfalso.
      assert (d = target // "frames") as Hd.
      { subst d. unfold frames_dir.
        rewrite (proj2 (is_dir_true _ _) Htarget), Hyes.
        by destruct (String.eqb_spec (Str.lower (Pathlib.name target)) "frames"). }
      assert (f1 !! target = Some Dir) as Hkept.
      { subst f1. rewrite cleaned_outside; [done|]. rewrite Hd. apply not_under_join. }
      unfold FS.exists_ in Hex1. apply bool_decide_eq_false in Hex1.
      apply Hex1. by rewrite Hkept. }
  assert (f1 !! target = Some Dir) as Htarget1.
  { unfold FS.exists_ in Hex1. apply bool_decide_eq_true in Hex1 as [e He].
    pose proof (cleaned_subseteq _ _ _ _ He) as He0. congruence. }
  assert (FS.is_dir f1 (frames_dir f1 target) = true) as Hdir1.
  { destruct (frames_dir_cases f1 target) as [[-> _]|(-> & _ & _ & ?)]; [|done].
    by apply is_dir_true. }
  destruct (delete_frames_run target (World f1 (env_path w) (trace w ++ evs))
              Hex1 Hdir1) as (evs2 & Hrun2 & _).
  cbn [fs env_path trace] in Hrun2.
  eexists. split; [exact Hrun2|]. cbn [fs]. split.
  - intros Hkept. assert (frames_dir f1 target = d) as ->.
    { destruct (frames_dir_cases f target) as [[Hd Hwhy]|(Hd & Ht & Hname & Hsub)];
        fold d in Hd; rewrite Hd.
      - unfold frames_dir. destruct Hwhy as [Hwhy|[Hwhy|Hwhy]].
        + apply is_dir_false in Hwhy. done.
        + rewrite Hwhy. cbn [String.eqb negb]. by rewrite andb_false_r.
        + assert (FS.is_dir f1 (target // "frames") = false) as ->.
          { apply is_dir_false. intros Hsub. apply is_dir_false in Hwhy.
            apply Hwhy. by apply (cleaned_subseteq _ d). }
          by rewrite andb_false_r.
      - unfold frames_dir. rewrite (proj2 (is_dir_true _ _) Htarget1).
        destruct (String.eqb_spec (Str.lower (Pathlib.name target)) "frames");
          [done|]. cbn [andb negb].
        destruct (FS.is_dir f1 (target // "frames")) eqn:Hsub1; [done|].
        exfalso. apply Hkept. by repeat split. }
    apply cleaned_twice.
  - intros (Hname & Hyes & Hno).
    assert (frames_dir f1 target = target) as ->.
    { unfold frames_dir. rewrite Hno. by rewrite andb_false_r. }
    unfold cleaned. case_decide as Hp; [|done]. by destruct Hp as (_ & ? & _).
Qed.

Lemma second_cleanup_witness :
  let w := World Fixture.fs_frames [] [] in
  let w1 := (delete_frames (Pathlib.of_str "shots") w).2 in
  exists w2,
    delete_frames (Pathlib.of_str "shots") w1 = (Ok tt, w2) /\
    (~ pruned_subdir (fs w) (fs w1) (Pathlib.of_str "shots") -> fs w2 = fs w1) /\
    (pruned_subdir (fs w) (fs w1) (Pathlib.of_str "shots") ->
       fs w2 = without_pngs (fs w1) (Pathlib.of_str "shots")).
Proof.
  intros w w1.
  apply (second_cleanup (Pathlib.of_str "shots") w w1). by vm_compute.
Defined.

(** C8, the claim as worded: [shots/frames] holds nothing but one frame
    and [shots] holds a poster.  The first cleanup of [shots] empties
    and removes [shots/frames]; the second one no longer finds it, turns
    to [shots] itself and deletes [shots/poster.png]. *)
Lemma second_cleanup_deletes_the_poster :
  ~ second_run_deletes_nothing (Pathlib.of_str "shots")
      (World Fixture.fs_only_frames [] []).
Proof.
  intros H.
  destruct (delete_frames (Pathlib.of_str "shots")
              (World Fixture.fs_only_frames [] [])) as [r1 w1] eqn:E1.
  destruct (delete_frames (Pathlib.of_str "shots") w1) as [r2 w2] eqn:E2.
  assert (r1 = Ok tt) as -> by (by vm_compute in E1; injection E1 as <- _).
  destruct (H w1 r2 w2 E1 E2) as [_ Hsame].
  apply (f_equal (fun f => f !! Pathlib.of_str "shots/poster.png")) in Hsame.
  vm_compute in E1. injection E1 as <-.
  vm_compute in E2. injection E2 as _ <-.
  vm_compute in Hsame. discriminate Hsame.
Qed.

(** A directory called [frames] is resolved without a warning. *)
Lemma resolve_frames_dir_named (t d : Path) (w w1 : world) :
  resolve_frames_dir t w = (Ok d, w1) ->
  Str.lower (Pathlib.name d) = "frames"%string ->
  w1 = w.
Proof.
  unfold resolve_frames_dir. mred.
  destruct (String.eqb_spec (Str.lower (Pathlib.name t)) "frames") as [Hn|Hn];
    cbn [negb]; rewrite ?andb_false_r, ?andb_true_r.
  - by intros [= _ <-].
  - destruct (FS.is_dir (fs w) t); [|by intros [= _ <-]]. mred.
    destruct (FS.is_dir (fs w) (t // "frames")); mred; [by intros [= _ <-]|].
    intros [= <- _] Hd. by destruct Hn.
Qed.

(** C10. A cleanup that resolves to an existing directory [d] called
    [frames] without any entry matching [*.png] logs that it found none
    and returns: that line is the only event, the file system is
    untouched, and [d] is still there, empty or not.  More generally a
    cleanup of a directory without [.png] files changes nothing.  And
    whenever a cleanup does remove a directory, it has deleted a [.png]
    file directly inside that directory in the same run. *)
Theorem frames_dir_without_png_is_kept (target : Path) (w : world) :
  (forall d w1,
     FS.exists_ (fs w) target = true ->
     resolve_frames_dir target w = (Ok d, w1) ->
     FS.is_dir (fs w) d = true ->
     Str.lower (Pathlib.name d) = "frames"%string ->
     FS.glob_png (fs w) d = [] ->
     delete_frames target w
       = (Ok tt, World (fs w) (env_path w)
                       (trace w ++ [EvLog INFO (MsgNoPngFound d)]))) /\
  (forall d w1,
     FS.exists_ (fs w) target = true ->
     resolve_frames_dir target w = (Ok d, w1) ->
     FS.is_dir (fs w) d = true ->
     (forall p, ~ png_file_in (fs w) d p) ->
     exists w', delete_frames target w = (Ok tt, w') /\ fs w' = fs w) /\
  (forall r w' evs d',
     delete_frames target w = (r, w') ->
     trace w' = trace w ++ evs ->
     EvRmtree d' ∈ evs ->
     exists p, png_file_in (fs w) d' p /\ fs w' !! p = None).
Proof.
  split; [|split].
  - intros d w1 Hex Hres Hdir Hname Hglob.
    pose proof (resolve_frames_dir_named _ _ _ _ Hres Hname) as ->.
    unfold delete_frames. mred. rewrite Hex. mred. rewrite Hres. mred.
    rewrite Hdir. mred. unfold clean_dir. mred. by rewrite Hglob.
  - intros d w1 Hex Hres Hdir Hnone.
    destruct (resolve_frames_dir_run target w) as (evs0 & Hres' & _).
    rewrite Hres in Hres'. injection Hres' as -> _.
    destruct (delete_frames_run _ _ Hex Hdir) as (evs & Hr & _).
    eexists. split; [exact Hr|]. cbn [fs]. by apply cleaned_id.
  - intros r w' evs d' Hrun Htrace Hin.
    destruct (FS.exists_ (fs w) target) eqn:Hex.
    2:{ rewrite (delete_frames_missing _ _ Hex) in Hrun.
        injection Hrun as _ <-. cbn [trace] in Htrace.
        apply app_inv_head in Htrace. subst evs.
        apply list_elem_of_singleton in Hin. discriminate Hin. }
    destruct (FS.is_dir (fs w) (frames_dir (fs w) target)) eqn:Hdir.
    2:{ destruct (delete_frames_not_a_directory _ _ Hex Hdir)
          as (e & evs0 & Hr & Hlog).
        rewrite Hr in Hrun. injection Hrun as _ <-. cbn [trace] in Htrace.
        apply app_inv_head in Htrace. subst evs0.
        rewrite Forall_forall in Hlog. by destruct (Hlog _ Hin). }
    destruct (delete_frames_run _ _ Hex Hdir) as (evs0 & Hr & _ & Hrm).
    rewrite Hr in Hrun. injection Hrun as _ <-. cbn [trace fs] in *.
    apply app_inv_head in Htrace. subst evs0.
    destruct (Hrm d' Hin) as [-> (Hglob & _ & Hempty)].
    set (d := frames_dir (fs w) target) in *.
    destruct (FS.glob_png (fs w) d) as [|p l] eqn:Eglob; [done|].
    assert (p ∈ FS.glob_png (fs w) d) as Hp by (rewrite Eglob; by left).
    apply elem_of_glob_png in Hp as (Hc & Hn & [e He]).
    rewrite iterdir_nil in Hempty. specialize (Hempty p Hc).
    rewrite lookup_without_pngs in Hempty.
    destruct (decide (png_file_in (fs w) d p)) as [Hpng|_]; [|congruence].
    exists p. split; [done|]. by apply cleaned_png.
Qed.

Lemma frames_dir_without_png_is_kept_witness :
  let empty := World (<[Pathlib.of_str "shots/frames" := Dir]>
                        (<[Pathlib.of_str "shots" := Dir]> ∅)) [] [] in
  let full := World Fixture.fs_only_frames [] [] in
  delete_frames (Pathlib.of_str "shots") empty
    = (Ok tt, World (fs empty) [] [EvLog INFO (MsgNoPngFound (Pathlib.of_str "shots/frames"))]) /\
  (exists w', delete_frames (Pathlib.of_str "shots") empty = (Ok tt, w') /\
              fs w' = fs empty) /\
  exists p, png_file_in (fs full) (Pathlib.of_str "shots/frames") p /\
            fs (delete_frames (Pathlib.of_str "shots") full).2 !! p = None.
Proof.
  intros empty full. split; [|split].
  - apply (proj1 (frames_dir_without_png_is_kept (Pathlib.of_str "shots") empty)
             (Pathlib.of_str "shots/frames") empty); by vm_compute.
  - apply (proj1 (proj2 (frames_dir_without_png_is_kept (Pathlib.of_str "shots") empty))
             (Pathlib.of_str "shots/frames") empty); try by vm_compute.
    intros p (Hc & Hn & Hf).
    assert (p ∈ FS.glob_png (fs empty) (Pathlib.of_str "shots/frames")) as Hin.
    { apply elem_of_glob_png. by eauto. }
    replace (FS.glob_png _ _) with (@nil Path) in Hin by (by vm_compute).
    by apply elem_of_nil in Hin.
  - eapply (proj2 (proj2 (frames_dir_without_png_is_kept (Pathlib.of_str "shots") full))
              (Ok tt) _ _ (Pathlib.of_str "shots/frames")).
    + by vm_compute.
    + cbn [trace app]. reflexivity.
    + cbn [trace]. apply elem_of_cons. right. apply elem_of_cons. right.
      apply elem_of_cons. by left.
Defined.

(** ** Further runs of the model *)

(** Five frames of a ten-second clip: ffmpeg is asked for 0.5 frames per
    second and writes into the [frames] directory next to the video. *)
Example frame_count_extraction :
  let '(r, w') := main Fixture.rt (ExtractArgs "videos/clip.mp4" None (Some 5) None)
                       Fixture.w0 in
  r = Ok tt /\
  EvRun (Job Fixture.clip 0.5 (Pathlib.of_str "videos/frames/frame_%04d.png") "0")
    ∈ trace w' /\
  fs w' !! Pathlib.of_str "videos/frames" = Some Dir.
Proof. vm_compute. split; [done|]. split; [|done]. set_solver. Qed.

(** A single video with [--output_dir]: the frames go there. *)
Example single_video_override :
  let '(r, w') := main Fixture.rt (ExtractArgs "videos/clip.mp4" (Some "out") (Some 5) None)
                       Fixture.w0 in
  r = Ok tt /\
  extract_calls (trace w') = [(Fixture.clip, Pathlib.of_str "out")] /\
  fs w' !! Pathlib.of_str "out/frame_0001.png" = Some File.
Proof. by vm_compute. Qed.

(** The suffix decides what is a manifest, whatever the case of its
    letters; a name that is nothing but [.json] has no suffix. *)
Example manifest_suffixes :
  Pathlib.suffix (Pathlib.of_str "jobs/batch.JSON") = ".JSON"%string /\
  Pathlib.suffix (Pathlib.of_str "clip.mp4") = ".mp4"%string /\
  Pathlib.suffix (Pathlib.of_str ".json") = ""%string.
Proof. by vm_compute. Qed.

(** * Further properties of the code *)

(** A computation that raised skips the rest of its block. *)
Lemma bind_raise_run {A B} (m : M A) (k : A -> M B) w e w' :
  m w = (Raise e, w') -> (m ≫= k) w = (Raise e, w').
Proof. intros H. unfold mbind, M_bind. by rewrite H. Qed.

(** ** The metadata prober *)

(** X1. Whatever the file system, ffprobe and the response are:
    [_get_video_metadata] leaves the file system alone, does nothing but
    call ffprobe and write log lines, and ends with a value, a
    [FileNotFoundError] or a [RuntimeError], never with anything else. *)
Theorem prober_contract (rt : runtime) (video : Path) (w : world) :
  let '(r, w') := _get_video_metadata rt video w in
  fs w' = fs w /\
  (exists evs, trace w' = trace w ++ evs /\ Forall is_probe_or_log evs) /\
  match r with
  | Ok _ => True
  | Raise e => exn_cls e = FileNotFoundError \/ exn_cls e = RuntimeError
  end.
Proof.
  destruct (_get_video_metadata rt video w) as [r w'] eqn:E.
  split; [by apply (get_video_metadata_keeps_fs rt video w r)|].
  destruct (get_video_metadata_effects rt video _ _ _ E) as [Hev Hexn].
  split; [done|]. destruct r as [|e]; [done|]. by apply Hexn.
Qed.

(** X2. How the prober fails.  A missing file is a [FileNotFoundError]
    raised before ffprobe is called and without a log line.  For an
    existing file, a failing ffprobe and a response that cannot be read
    both end in the same [RuntimeError], after one probe call and one
    error line; the line for ffprobe carries its diagnostic output. *)
Theorem prober_failures (rt : runtime) (video : Path) (w : world) :
  let failure :=
    Exn RuntimeError ("Could not get video metadata for " +:+ Pathlib.str video +:+ ".") in
  (FS.exists_ (fs w) video = false ->
     _get_video_metadata rt video w
       = (Raise (Exn FileNotFoundError ("Video file not found: " +:+ Pathlib.str video)),
          w)) /\
  (FS.exists_ (fs w) video = true ->
     (forall stderr,
        ffprobe rt (fs w) video = ProbeFailed stderr ->
        _get_video_metadata rt video w
          = (Raise failure,
             World (fs w) (env_path w)
                   (trace w ++ [EvProbe video;
                                EvLog ERROR (MsgFFprobeError video stderr)]))) /\
     (forall response e,
        ffprobe rt (fs w) video = ProbeOk response ->
        read_metadata rt video response = Raise e ->
        exists msg,
          _get_video_metadata rt video w
            = (Raise failure,
               World (fs w) (env_path w)
                     (trace w ++ [EvProbe video; EvLog ERROR msg])))).
Proof.
  intros failure. split; [|intros Hex; split].
  - intros Hex. unfold _get_video_metadata. mred. rewrite Hex. by destruct w.
  - intros stderr Hprobe. unfold _get_video_metadata. mred. rewrite Hex. mred.
    unfold probe_metadata, ffmpeg_probe. mred. rewrite Hprobe. mred.
    cbn [exn_cls]. mred. by rewrite <-app_assoc.
  - intros response e Hprobe Hread.
    pose proof (ordinary_read_metadata rt video response) as Hord.
    rewrite Hread in Hord. cbn [ordinary] in Hord. unfold exception in Hord.
    unfold _get_video_metadata. mred. rewrite Hex. mred.
    unfold probe_metadata, ffmpeg_probe. mred. rewrite Hprobe. mred.
    rewrite Hread. destruct (exn_cls e) eqn:Ec; rewrite ?Hord; mred;
      eexists; by rewrite <-app_assoc.
Qed.

Lemma prober_failures_witness :
  (_get_video_metadata Fixture.rt (Pathlib.of_str "videos/none.mp4") Fixture.w0).1
    = Raise (Exn FileNotFoundError "Video file not found: videos/none.mp4") /\
  trace (_get_video_metadata Fixture.rt Fixture.broken Fixture.w0).2
    = [EvProbe Fixture.broken;
       EvLog ERROR (MsgFFprobeError Fixture.broken
                      "Invalid data found when processing input")] /\
  exists msg,
    trace (_get_video_metadata Fixture.rt Fixture.audio_only Fixture.w0).2
      = [EvProbe Fixture.audio_only; EvLog ERROR msg].
Proof.
  split; [|split].
  - exact (f_equal fst
             (proj1 (prober_failures Fixture.rt (Pathlib.of_str "videos/none.mp4")
                       Fixture.w0) eq_refl)).
  - exact (f_equal (fun x => trace x.2)
             (proj1 (proj2 (prober_failures Fixture.rt Fixture.broken Fixture.w0)
                       eq_refl) _ eq_refl)).
  - destruct (proj2 (proj2 (prober_failures Fixture.rt Fixture.audio_only Fixture.w0)
                       eq_refl)
                _ (Exn ValueError "No video stream found in videos/audio.mp4")
                eq_refl eq_refl) as [msg Hrun].
    exists msg. exact (f_equal (fun x => trace x.2) Hrun).
Defined.

Lemma first_video_skips pre rest :
  Forall other_stream pre -> first_video (pre ++ rest) = first_video rest.
Proof.
  induction 1 as [|s pre (c & Hc & Hne) _ IH]; [done|].
  cbn [app first_video]. rewrite Hc. cbn [Py.bind]. by rewrite Hne.
Qed.

(** X3. The choice of the video stream.  The first stream whose
    [codec_type] is ["video"] is taken and nothing after it is looked
    at; without such a stream the answer is [None]; and a stream without
    a [codec_type] in front of the first video stream makes the search
    raise. *)
Theorem first_video_stream (pre post : list pyval) (s : pyval) :
  Forall other_stream pre ->
  (Py.getitem s "codec_type" = Ok (PStr "video") ->
     first_video (pre ++ s :: post) = Ok s) /\
  (first_video pre = Ok PNone) /\
  (forall e, Py.getitem s "codec_type" = Raise e ->
     first_video (pre ++ s :: post) = Raise e).
Proof.
  intros Hpre. split; [|split].
  - intros Hs. rewrite (first_video_skips _ _ Hpre). cbn [first_video].
    by rewrite Hs.
  - rewrite <-(app_nil_r pre). by rewrite (first_video_skips _ _ Hpre).
  - intros e He. rewrite (first_video_skips _ _ Hpre). cbn [first_video].
    by rewrite He.
Qed.

Lemma first_video_stream_witness :
  first_video [Fixture.audio_stream; Fixture.clip_stream; PInt 7] = Ok Fixture.clip_stream /\
  first_video [Fixture.audio_stream] = Ok PNone /\
  first_video [Fixture.audio_stream; PInt 7; Fixture.clip_stream]
    = Raise (Exn TypeError "object is not subscriptable by a string").
Proof.
  assert (Forall other_stream [Fixture.audio_stream]) as Hpre.
  { constructor; [|constructor]. exists (PStr "audio"). by split. }
  split; [|split].
  - exact (proj1 (first_video_stream [Fixture.audio_stream] [PInt 7]
                    Fixture.clip_stream Hpre) eq_refl).
  - exact (proj1 (proj2 (first_video_stream [Fixture.audio_stream] [] PNone Hpre))).
  - exact (proj2 (proj2 (first_video_stream [Fixture.audio_stream]
                           [Fixture.clip_stream] (PInt 7) Hpre)) _ eq_refl).
Defined.

Section Duration.

Variable rt : runtime.

(** What [read_metadata] does once the video stream is found. *)
Lemma read_metadata_found video items streams sitems :
  Py.bind (Py.getitem (PDict items) "streams") Py.iter = Ok streams ->
  first_video streams = Ok (PDict sitems) ->
  sitems <> [] ->
  read_metadata rt video (PDict items)
    = Py.bind (Py.get (PDict items) "format" (PDict [])) (fun format =>
      Py.bind (Py.get format "duration" (PFloat 0)) (fun container_duration =>
      Py.bind (Py.get (PDict sitems) "duration" container_duration) (fun duration =>
      Py.bind (py_float rt duration) (fun duration_s =>
      Py.bind (Py.getitem (PDict sitems) "width") (fun width =>
      Py.bind (Py.getitem (PDict sitems) "height") (fun height =>
      Py.bind (stream_fps rt (PDict sitems)) (fun fps =>
      Ok (Metadata duration_s width height fps)))))))).
Proof.
  intros Hstreams Hfirst Hne. unfold read_metadata.
  rewrite Hstreams. cbn [Py.bind]. rewrite Hfirst. cbn [Py.bind Py.truthy].
  by destruct sitems.
Qed.

Lemma bind_ok_inv {A B} (r : result A) (k : A -> result B) b :
  Py.bind r k = Ok b -> exists a, r = Ok a /\ k a = Ok b.
Proof. destruct r; [by eauto|done]. Qed.

End Duration.

(** X4. The duration of a probed video.  When the metadata could be read:
    the duration is the float of the video stream's own [duration] when
    the stream has one; otherwise of the [duration] of the container's
    [format]; and 0.0 when neither is there. *)
Theorem duration_fallback (rt : runtime) (video : Path)
    (items sitems : list (string * pyval)) (streams : list pyval) (meta : metadata) :
  Py.bind (Py.getitem (PDict items) "streams") Py.iter = Ok streams ->
  first_video streams = Ok (PDict sitems) ->
  read_metadata rt video (PDict items) = Ok meta ->
  (forall d, Py.lookup "duration" sitems = Some d ->
     py_float rt d = Ok (duration_s meta)) /\
  (Py.lookup "duration" sitems = None ->
     (forall fitems d,
        Py.lookup "format" items = Some (PDict fitems) ->
        Py.lookup "duration" fitems = Some d ->
        py_float rt d = Ok (duration_s meta)) /\
     (Py.lookup "format" items = None \/
      (exists fitems, Py.lookup "format" items = Some (PDict fitems) /\
                      Py.lookup "duration" fitems = None) ->
      duration_s meta = 0%float)).
Proof.
  intros Hstreams Hfirst Hread.
  assert (sitems <> []) as Hne.
  { intros ->. unfold read_metadata in Hread. rewrite Hstreams in Hread.
    cbn [Py.bind] in Hread. by rewrite Hfirst in Hread. }
  rewrite (read_metadata_found rt video items streams sitems) in Hread by done.
  apply bind_ok_inv in Hread as (format & Hformat & Hread).
  apply bind_ok_inv in Hread as (cd & Hcd & Hread).
  apply bind_ok_inv in Hread as (dur & Hdur & Hread).
  apply bind_ok_inv in Hread as (ds & Hds & Hread).
  apply bind_ok_inv in Hread as (wd & _ & Hread).
  apply bind_ok_inv in Hread as (ht & _ & Hread).
  apply bind_ok_inv in Hread as (f & _ & Hread).
  injection Hread as <-. cbn [duration_s].
  cbn [Py.get] in Hformat, Hdur. injection Hformat as <-. injection Hdur as <-.
  split.
  - intros d Hd. by rewrite Hd in Hds.
  - intros Hnone. rewrite Hnone in Hds. split.
    + intros fitems d Hf Hd. rewrite Hf in Hcd. cbn [Py.get] in Hcd.
      rewrite Hd in Hcd. injection Hcd as <-. done.
    + intros [Hf|(fitems & Hf & Hd)]; rewrite Hf in Hcd; cbn [Py.get Py.lookup] in Hcd;
        rewrite ?Hd in Hcd; injection Hcd as <-; cbn [py_float] in Hds;
        by injection Hds as <-.
Qed.

Lemma duration_fallback_witness :
  (exists meta,
     read_metadata Fixture.rt Fixture.clip
       (PDict [("streams", PList [Fixture.clip_stream]);
               ("format", PDict [("duration", PStr "99")])]) = Ok meta /\
     py_float Fixture.rt (PStr "10") = Ok (duration_s meta)) /\
  (exists meta,
     read_metadata Fixture.rt Fixture.clip
       (PDict [("streams", PList [PDict [("codec_type", PStr "video");
                                         ("width", PInt 4); ("height", PInt 2)]]);
               ("format", PDict [("duration", PStr "99")])]) = Ok meta /\
     py_float Fixture.rt (PStr "99") = Ok (duration_s meta)) /\
  (exists meta,
     read_metadata Fixture.rt Fixture.clip
       (PDict [("streams", PList [PDict [("codec_type", PStr "video");
                                         ("width", PInt 4); ("height", PInt 2)]])])
       = Ok meta /\
     duration_s meta = 0%float).
Proof.
  pose (bare := [("codec_type", PStr "video"); ("width", PInt 4); ("height", PInt 2)]).
  split; [|split]; eexists; (split; [vm_compute; reflexivity|]).
  - eapply (proj1 (duration_fallback Fixture.rt Fixture.clip
                     [("streams", PList [Fixture.clip_stream]);
                      ("format", PDict [("duration", PStr "99")])]
                     _ [Fixture.clip_stream] _ eq_refl eq_refl eq_refl)).
    reflexivity.
  - eapply (proj1 (proj2 (duration_fallback Fixture.rt Fixture.clip
                            [("streams", PList [PDict bare]);
                             ("format", PDict [("duration", PStr "99")])]
                            bare [PDict bare] _ eq_refl eq_refl eq_refl) eq_refl));
      reflexivity.
  - eapply (proj2 (proj2 (duration_fallback Fixture.rt Fixture.clip
                            [("streams", PList [PDict bare])]
                            bare [PDict bare] _ eq_refl eq_refl eq_refl) eq_refl)).
    by left.
Defined.

Lemma first_video_is_a_stream l sitems :
  first_video l = Ok (PDict sitems) -> sitems <> [].
Proof.
  induction l as [|s l IH]; [done|]. cbn [first_video].
  destruct (Py.getitem s "codec_type") as [c|] eqn:Hc; [|done]. cbn [Py.bind].
  destruct (Py.eq_str c "video"); [|done]. intros [= ->] ->. done.
Qed.

(** X5. The container's [format] entry is read before the stream's own
    duration is consulted: a [format] that is not a dict makes the prober
    fail with an [AttributeError], whether or not the video stream has a
    [duration] of its own. *)
Theorem malformed_format_is_fatal (rt : runtime) (video : Path)
    (items sitems : list (string * pyval)) (streams : list pyval) (x : pyval) :
  Py.bind (Py.getitem (PDict items) "streams") Py.iter = Ok streams ->
  first_video streams = Ok (PDict sitems) ->
  Py.lookup "format" items = Some x ->
  (forall fitems, x <> PDict fitems) ->
  read_metadata rt video (PDict items) = Raise (Exn AttributeError "get").
Proof.
  intros Hstreams Hfirst Hformat Hx.
  rewrite (read_metadata_found rt video items streams sitems);
    [|done|done|by apply (first_video_is_a_stream streams)].
  cbn [Py.get]. rewrite Hformat. cbn [Py.bind].
  destruct x; try done. by destruct (Hx items0).
Qed.

Lemma malformed_format_is_fatal_witness :
  read_metadata Fixture.rt Fixture.clip
    (PDict [("streams", PList [Fixture.clip_stream]); ("format", PNone)])
    = Raise (Exn AttributeError "get").
Proof.
  apply (malformed_format_is_fatal Fixture.rt Fixture.clip
           [("streams", PList [Fixture.clip_stream]); ("format", PNone)]
           _ [Fixture.clip_stream] PNone eq_refl eq_refl eq_refl).
  by intros fitems.
Defined.

(** ** The frame extractor *)

Section ExtractorEffects.

Variable rt : runtime.
Variable P : event -> Prop.
Hypothesis P_log : forall lvl msg, P (EvLog lvl msg).
Hypothesis P_mkdir : forall d, P (EvMkdir d).
Hypothesis P_run : forall job, P (EvRun job).

Lemma mkdir_p_ordinary f d : ordinary (FS.mkdir_p f d).
Proof.
  unfold FS.mkdir_p. generalize (@nil string). revert f.
  induction (parts d) as [|c rest IH]; intros f done; cbn [FS.mkdir_from].
  - by destruct (f !! _) as [[]|].
  - destruct (f !! _) as [[]|]; try done; apply IH.
Qed.

Lemma write_frames_events v out rate :
  effects P exception (write_frames rt v out rate).
Proof.
  unfold write_frames. destruct (PrimFloat.leb rate 0).
  { apply effects_emit, P_log. }
  apply effects_bind.
  { unfold mkdir. apply effects_bind; [apply effects_emit, P_mkdir|]. intros _.
    apply effects_bind; [apply effects_get_fs|]. intros f.
    apply effects_bind; [|intros; apply effects_put_fs].
    apply effects_lift, ordinary_elim, mkdir_p_ordinary. }
  intros _. apply effects_bind; [apply effects_emit, P_log|]. intros _.
  unfold run_ffmpeg. eapply effects_try with (Q0 := exception).
  - apply effects_bind; [|intros; apply effects_emit, P_log].
    unfold subprocess_run. apply effects_bind; [apply effects_emit, P_run|].
    intros _. apply effects_bind; [apply effects_get_fs|]. intros f.
    destruct (ffmpeg_run rt f _) as [outcome f'].
    apply effects_bind; [apply effects_put_fs|]. intros _.
    destruct outcome as [|code ? ?]; [by apply effects_raise|].
    destruct (code =? 0); [apply effects_ret|by apply effects_raise].
  - intros e k He Hk. destruct (exn_cls e); try discriminate.
    injection Hk as <-. apply effects_bind; [apply effects_emit, P_log|].
    intros _. by apply effects_raise.
  - by intros e He _.
Qed.

Lemma plan_rate_events v D nf iv : effects P exception (plan_rate v D nf iv).
Proof.
  unfold plan_rate. destruct nf as [n|]; [|destruct iv as [i|]].
  - destruct (PrimFloat.leb D 0).
    + apply effects_bind; [apply effects_emit, P_log|intros; apply effects_ret].
    + apply effects_lift, ordinary_elim, ordinary_int_float_truediv.
  - destruct (PrimFloat.leb i 0); [by apply effects_raise|].
    apply effects_lift, ordinary_elim, ordinary_float_truediv.
  - by apply effects_raise.
Qed.

End ExtractorEffects.

Section ExtractorShape.

Variable rt : runtime.

(** A probe that returned the metadata did so from a response of
    ffprobe that could be read. *)
Lemma get_video_metadata_ok_inv v w meta w' :
  _get_video_metadata rt v w = (Ok meta, w') ->
  FS.exists_ (fs w) v = true /\
  exists response,
    ffprobe rt (fs w) v = ProbeOk response /\
    read_metadata rt v response = Ok meta.
Proof.
  unfold _get_video_metadata. mred.
  destruct (FS.exists_ (fs w) v); mred; [|done].
  unfold probe_metadata, ffmpeg_probe. mred.
  destruct (ffprobe rt (fs w) v) as [|stderr|response]; mred; cbn [exn_cls]; mred;
    try done.
  destruct (read_metadata rt v response) as [m|e] eqn:Hread.
  - destruct (_ || _); mred; intros [= <- _]; eauto.
  - destruct (exn_cls e); try destruct (is_Exception e); mred; done.
Qed.

(** On an existing file the prober calls ffprobe once, first, and
    writes log lines after it. *)
Lemma get_video_metadata_trace v w r w' :
  FS.exists_ (fs w) v = true ->
  _get_video_metadata rt v w = (r, w') ->
  exists logs, trace w' = trace w ++ EvProbe v :: logs /\ Forall is_log logs.
Proof.
  intros Hex. unfold _get_video_metadata. mred. rewrite Hex. mred.
  unfold probe_metadata, ffmpeg_probe. mred.
  destruct (ffprobe rt (fs w) v) as [|stderr|response]; mred; cbn [exn_cls]; mred.
  - intros [= _ <-]. eexists [_]. cbn [trace]. rewrite <-app_assoc.
    split; [done|]. by repeat constructor.
  - intros [= _ <-]. eexists [_]. cbn [trace]. rewrite <-app_assoc.
    split; [done|]. by repeat constructor.
  - destruct (read_metadata rt v response) as [m|e] eqn:Hread.
    + destruct (_ || _); mred; intros [= _ <-]; cbn [trace].
      * eexists [_]. rewrite <-app_assoc. split; [done|]. by repeat constructor.
      * by exists [].
    + pose proof (ordinary_read_metadata rt v response) as Hord.
      rewrite Hread in Hord. cbn [ordinary] in Hord. unfold exception in Hord.
      destruct (exn_cls e) eqn:Ec; rewrite ?Hord; mred; intros [= _ <-];
        cbn [trace]; eexists [_]; rewrite <-app_assoc;
        (split; [done|by repeat constructor]).
Qed.

(** What is left of [extract_frames] once the metadata is there. *)
Lemma sampling_events v out nf iv meta :
  effects (fun ev => match ev with
                     | EvLog _ _ | EvMkdir _ | EvRun _ => True
                     | _ => False
                     end)
          (fun _ => True)
          (Eff.try_except
             (target_fps ← plan_rate v (duration_s meta) nf iv;
              write_frames rt v out target_fps)
             (critical v)).
Proof.
  eapply effects_try with (Q0 := exception).
  - apply effects_bind; [by apply plan_rate_events|].
    intros rate. by apply write_frames_events.
  - intros e k He Hk. unfold critical in Hk. rewrite He in Hk.
    injection Hk as <-. apply effects_bind; [by apply effects_emit|].
    intros _. by apply effects_reraise.
  - done.
Qed.

End ExtractorShape.

(** X6. What an extraction never does.  Whatever its arguments and
    whatever the world: [extract_frames] calls ffprobe on nothing but its
    own video, and only when that is an existing regular file; and it
    creates the output directory or runs ffmpeg only after ffprobe
    succeeded and the response could be read. *)
Theorem extraction_preconditions (rt : runtime) (video out : Path)
    (num_frames : option Z) (interval_sec : option float)
    (w w' : world) (r : result unit) (evs : list event) :
  extract_frames rt video out num_frames interval_sec w = (r, w') ->
  trace w' = trace w ++ evs ->
  (forall v, EvProbe v ∈ evs -> v = video /\ FS.is_file (fs w) video = true) /\
  (forall ev, ev ∈ evs -> ~ no_extraction ev ->
     exists response meta,
       ffprobe rt (fs w) video = ProbeOk response /\
       read_metadata rt video response = Ok meta).
Proof.
  intros Hrun Htrace. unfold extract_frames in Hrun.
  rewrite (bind_ok _ _ _ tt (World (fs w) (env_path w) (trace w ++ [EvExtract video out])))
    in Hrun by done.
  set (w1 := World (fs w) (env_path w) (trace w ++ [EvExtract video out])) in *.
  rewrite (bind_ok _ _ w1 (FS.exists_ (fs w) video) w1) in Hrun by done.
  destruct (FS.exists_ (fs w) video) eqn:Hex; cbn [negb] in Hrun.
  2:{ injection Hrun as _ <-. cbn [trace w1] in Htrace.
      apply app_inv_head in Htrace as <-.
      split; [intros v Hin|intros ev Hin Hno];
        apply list_elem_of_singleton in Hin; [done|subst ev; by destruct Hno]. }
  rewrite (bind_ok _ _ w1 (FS.is_file (fs w) video) w1) in Hrun by done.
  destruct (FS.is_file (fs w) video) eqn:Hfile; cbn [negb] in Hrun.
  2:{ injection Hrun as _ <-. cbn [trace w1] in Htrace.
      apply app_inv_head in Htrace as <-.
      split; [intros v Hin|intros ev Hin Hno];
        apply list_elem_of_singleton in Hin; [done|subst ev; by destruct Hno]. }
  destruct (_get_video_metadata rt video w1) as [[meta|e] w2] eqn:Hmeta.
  - destruct (get_video_metadata_ok_inv rt _ _ _ _ Hmeta) as (_ & response & Hp & Hr).
    destruct (get_video_metadata_trace rt video w1 _ _ Hex Hmeta) as (logs & T2 & F2).
    unfold Eff.try_except in Hrun. rewrite (bind_ok _ _ _ _ _ Hmeta) in Hrun.
    destruct (sampling_events rt video out num_frames interval_sec meta w2 r w')
      as [(rest & T3 & F3) _]; [exact Hrun|].
    rewrite T3, T2 in Htrace. cbn [trace w1] in Htrace.
    rewrite <-!app_assoc in Htrace. apply app_inv_head in Htrace. subst evs.
    rewrite Forall_forall in F2, F3. split.
    + intros v Hin. cbn [app] in Hin.
      apply elem_of_cons in Hin as [?|Hin]; [done|].
      apply elem_of_cons in Hin as [[= ->]|Hin]; [done|].
      apply elem_of_app in Hin as [Hin|Hin];
        [by destruct (F2 _ Hin)|by destruct (F3 _ Hin)].
    + intros ev _ _. by eauto.
  - destruct (get_video_metadata_trace rt video w1 _ _ Hex Hmeta) as (logs & T2 & F2).
    destruct (get_video_metadata_effects rt video _ _ _ Hmeta) as [_ Hexn].
    assert (is_Exception e = true) as Hexc.
    { destruct (Hexn e eq_refl) as [H|H]; unfold is_Exception; by rewrite H. }
    unfold Eff.try_except in Hrun. rewrite (bind_raise_run _ _ _ _ _ Hmeta) in Hrun.
    unfold critical in Hrun. rewrite Hexc in Hrun. revert Hrun. mred.
    intros [= _ <-]. cbn [trace] in Htrace. rewrite T2 in Htrace.
    cbn [trace w1] in Htrace. rewrite <-!app_assoc in Htrace.
    apply app_inv_head in Htrace. subst evs.
    rewrite Forall_forall in F2.
    assert (forall ev, ev ∈ [EvExtract video out] ++ (EvProbe video :: logs)
                        ++ [EvLog CRITICAL (MsgExtractionCritical (Pathlib.name video) e)] ->
                       ev = EvExtract video out \/ ev = EvProbe video \/ is_log ev)
      as Hshape.
    { intros ev Hin. apply elem_of_app in Hin as [Hin|Hin].
      { apply list_elem_of_singleton in Hin. by left. }
      apply elem_of_app in Hin as [Hin|Hin].
      - apply elem_of_cons in Hin as [->|Hin]; [by right; left|].
        right. right. by apply F2.
      - apply list_elem_of_singleton in Hin. subst ev. by right; right. }
    split.
    + intros v Hin. destruct (Hshape _ Hin) as [?|[[= ->]|?]]; done.
    + intros ev Hin Hno. exfalso. apply Hno.
      destruct (Hshape _ Hin) as [->|[->|Hl]]; [done|done|by destruct ev].
Qed.

Lemma extraction_preconditions_witness :
  let run := extract_frames Fixture.rt Fixture.clip (Pathlib.of_str "out")
                            (Some 5) None Fixture.w0 in
  (forall v, EvProbe v ∈ trace run.2 ->
     v = Fixture.clip /\ FS.is_file (fs Fixture.w0) Fixture.clip = true) /\
  (forall ev, ev ∈ trace run.2 -> ~ no_extraction ev ->
     exists response meta,
       ffprobe Fixture.rt (fs Fixture.w0) Fixture.clip = ProbeOk response /\
       read_metadata Fixture.rt Fixture.clip response = Ok meta).
Proof.
  intros run.
  apply (extraction_preconditions Fixture.rt Fixture.clip (Pathlib.of_str "out")
           (Some 5) None Fixture.w0 run.2 run.1 (trace run.2)).
  - apply surjective_pairing.
  - reflexivity.
Defined.

(** ** The output directory and the ffmpeg run *)

Section Mkdir.

Implicit Types (f : filesystem) (d p : Path).

Lemma mkdir_from_ok f a done todo f' :
  FS.mkdir_from f a done todo = Ok f' ->
  f' !! MkPath a (done ++ todo) = Some Dir /\
  (forall p e, f !! p = Some e -> f' !! p = Some e).
Proof.
  revert f done. induction todo as [|c rest IH]; intros f done; cbn [FS.mkdir_from].
  - rewrite app_nil_r. destruct (f !! MkPath a done) as [[]|] eqn:E; try done.
    + by intros [= <-].
    + intros [= <-]. split; [apply lookup_insert_eq|].
      intros p e Hp. rewrite lookup_insert_ne; [done|]. congruence.
  - destruct (f !! MkPath a done) as [[]|] eqn:E; try done; intros H;
      apply IH in H as [H1 H2]; rewrite <-app_assoc in H1; (split; [done|]).
    + done.
    + intros p e Hp. apply H2. rewrite lookup_insert_ne; [done|]. congruence.
Qed.

(** A successful [mkdir] leaves the directory in place and takes
    nothing away. *)
Lemma mkdir_p_ok f d f' :
  FS.mkdir_p f d = Ok f' ->
  f' !! d = Some Dir /\ (forall p e, f !! p = Some e -> f' !! p = Some e).
Proof.
  unfold FS.mkdir_p. intros H. apply mkdir_from_ok in H. by destruct d.
Qed.

Lemma mkdir_from_file f a done todo :
  f !! MkPath a (done ++ todo) = Some File ->
  exists msg, FS.mkdir_from f a done todo = Raise (Exn FileExistsError msg).
Proof.
  revert f done. induction todo as [|c rest IH]; intros f done; cbn [FS.mkdir_from].
  - rewrite app_nil_r. intros ->. by eexists.
  - intros Hfile. destruct (f !! MkPath a done) as [[]|] eqn:E.
    + by eexists.
    + apply IH. by rewrite <-app_assoc.
    + apply IH. rewrite <-app_assoc. rewrite lookup_insert_ne; [done|].
      intros [= H]. apply (f_equal length) in H. rewrite length_app in H.
      cbn in H. lia.
Qed.

(** [mkdir] on the path of a regular file fails. *)
Lemma mkdir_p_file f d :
  f !! d = Some File -> exists msg, FS.mkdir_p f d = Raise (Exn FileExistsError msg).
Proof. destruct d as [a l]. apply (mkdir_from_file f a [] l). Qed.

End Mkdir.

(** X7. From a positive rate to the frames.  The output directory is
    made first, so it is a directory when ffmpeg starts.  An exit status
    of 0 ends the extraction normally; any other exit status ends it
    with a [RuntimeError], after an error line that carries what ffmpeg
    wrote to both of its streams.  Either way the file system is the one
    ffmpeg left: nothing is rolled back. *)
Theorem ffmpeg_exit_status (rt : runtime) (video out : Path) (rate : float)
    (w : world) (f1 f2 : filesystem) (code : Z) (stdout stderr : string) :
  let job := Job video rate (out // "frame_%04d.png") "0" in
  let started := [EvMkdir out;
                  EvLog INFO (MsgFfmpegCommand (Pathlib.name video) job);
                  EvRun job] in
  PrimFloat.leb rate 0 = false ->
  FS.mkdir_p (fs w) out = Ok f1 ->
  ffmpeg_run rt f1 job = (RunExited code stdout stderr, f2) ->
  f1 !! out = Some Dir /\
  write_frames rt video out rate w
    = if (code =? 0)%Z
      then (Ok tt,
            World f2 (env_path w)
                  (trace w ++ started ++ [EvLog INFO (MsgFramesExtracted out)]))
      else (Raise (Exn RuntimeError "FFmpeg failed during extraction."),
            World f2 (env_path w)
                  (trace w ++ started
                     ++ [EvLog ERROR (MsgFfmpegFailed (Pathlib.name video)
                                                      stdout stderr)])).
Proof.
  intros job started Hrate Hmkdir Hrun.
  split; [exact (proj1 (mkdir_p_ok _ _ _ Hmkdir))|].
  unfold write_frames. rewrite Hrate. unfold mkdir. mred. rewrite Hmkdir. mred.
  unfold run_ffmpeg, subprocess_run. mred. fold job. rewrite Hrun. mred.
  destruct (code =? 0)%Z; mred; cbn [exn_cls]; mred;
    by rewrite <-!app_assoc.
Qed.

Lemma ffmpeg_exit_status_witness :
  let w1 := (write_frames Fixture.rt Fixture.clip (Pathlib.of_str "out") 0.5
                          Fixture.w0) in
  w1.1 = Ok tt /\ fs w1.2 !! Pathlib.of_str "out/frame_0001.png" = Some File.
Proof.
  intros w1.
  pose proof (ffmpeg_exit_status Fixture.rt Fixture.clip (Pathlib.of_str "out") 0.5
                Fixture.w0 _ _ 0 "" "" eq_refl eq_refl eq_refl) as [_ H].
  subst w1. rewrite H. by vm_compute.
Defined.

(** X8. An output directory that is in fact a regular file: the
    extraction fails with a [FileExistsError] when it tries to make the
    directory; ffmpeg is not run and the file system stays as it was. *)
Theorem output_dir_is_a_file (rt : runtime) (video out : Path) (rate : float)
    (w : world) :
  PrimFloat.leb rate 0 = false ->
  fs w !! out = Some File ->
  exists msg,
    write_frames rt video out rate w
      = (Raise (Exn FileExistsError msg),
         World (fs w) (env_path w) (trace w ++ [EvMkdir out])).
Proof.
  intros Hrate Hfile. destruct (mkdir_p_file _ _ Hfile) as [msg Hmkdir].
  exists msg. unfold write_frames. rewrite Hrate. unfold mkdir. mred.
  by rewrite Hmkdir.
Qed.

Lemma output_dir_is_a_file_witness :
  exists msg,
    write_frames Fixture.rt Fixture.clip (Pathlib.of_str "batch.json") 0.5 Fixture.w0
      = (Raise (Exn FileExistsError msg),
         World Fixture.fs0 [] [EvMkdir (Pathlib.of_str "batch.json")]).
Proof.
  apply (output_dir_is_a_file Fixture.rt Fixture.clip (Pathlib.of_str "batch.json")
           0.5 Fixture.w0); by vm_compute.
Defined.

(** Zero divided by a positive duration is not positive. *)
Lemma zero_over_positive (d : float) :
  PrimFloat.ltb 0 d = true -> PrimFloat.leb (PrimFloat.div 0 d) 0 = true.
Proof.
  rewrite FloatAxioms.ltb_spec, FloatAxioms.leb_spec, FloatAxioms.div_spec.
  change (Prim2SF 0) with (S754_zero false).
  destruct (Prim2SF d) as [s|s| |s m e]; try destruct s; cbn; congruence.
Qed.

(** X9. Zero frames of a video with a positive duration.  The rate is
    0/D = 0.0, which is not positive: the extraction logs an error and
    returns normally; no directory is made, ffmpeg is not run and the
    file system is unchanged. *)
Theorem zero_frames_is_a_soft_no_op (rt : runtime) (video out : Path)
    (interval_sec : option float) (w : world) (response : pyval) (meta : metadata) :
  FS.is_file (fs w) video = true ->
  ffprobe rt (fs w) video = ProbeOk response ->
  read_metadata rt video response = Ok meta ->
  PrimFloat.ltb 0 (duration_s meta) = true ->
  extract_frames rt video out (Some 0) interval_sec w
    = (Ok tt,
       World (fs w) (env_path w)
             (trace w ++ EvExtract video out :: EvProbe video
                      :: metadata_warning video meta
                      ++ [EvLog ERROR (MsgInvalidTargetFps video)])).
Proof.
  intros Hfile Hprobe Hmeta HD.
  assert (FS.exists_ (fs w) video = true) as Hex.
  { unfold FS.is_file, FS.exists_ in *. apply bool_decide_eq_true in Hfile.
    apply bool_decide_eq_true. by rewrite Hfile. }
  unfold extract_frames. mred. rewrite Hex. mred. rewrite Hfile. mred.
  rewrite (get_video_metadata_ok _ _ _ response meta) by done.
  unfold plan_rate. rewrite (positive_not_le _ HD).
  unfold Py.int_float_truediv. change (Py.float_of_int 0) with (@Ok float 0%float).
  cbn [Py.bind]. unfold Py.float_truediv. rewrite (positive_not_zero _ HD). mred.
  unfold write_frames. rewrite (zero_over_positive _ HD). mred.
  by rewrite <-!app_assoc.
Qed.

Lemma zero_frames_is_a_soft_no_op_witness :
  (extract_frames Fixture.rt Fixture.clip (Pathlib.of_str "out") (Some 0) None
                  Fixture.w0).1 = Ok tt.
Proof.
  erewrite (zero_frames_is_a_soft_no_op Fixture.rt Fixture.clip (Pathlib.of_str "out")
              None Fixture.w0); [reflexivity|vm_compute; reflexivity..].
Defined.

(** ** The frame cleaner *)

Section CleanerScope.

Implicit Types (f : filesystem) (d p q t : Path) (w : world).

Lemma under_trans p q r : Pathlib.under p q -> Pathlib.under q r -> Pathlib.under p r.
Proof. intros [H1 H2] [H3 H4]. split; [congruence|]. by etrans. Qed.

Lemma under_join t c : Pathlib.under t (t // c).
Proof. apply child_under, child_of_join. Qed.

Lemma under_frames_dir f t : Pathlib.under t (frames_dir f t).
Proof.
  destruct (frames_dir_cases f t) as [[-> _]|[-> _]];
    [apply under_refl|apply under_join].
Qed.

(** Every outcome of a cleanup, by what it does to the file system. *)
Lemma delete_frames_fs t w r w' :
  delete_frames t w = (r, w') ->
  fs w' = fs w \/ fs w' = cleaned (fs w) (frames_dir (fs w) t).
Proof.
  intros Hrun. destruct (FS.exists_ (fs w) t) eqn:Hex.
  2:{ rewrite (delete_frames_missing _ _ Hex) in Hrun. injection Hrun as _ <-. by left. }
  destruct (FS.is_dir (fs w) (frames_dir (fs w) t)) eqn:Hdir.
  - destruct (delete_frames_run _ _ Hex Hdir) as (evs & Hr & _).
    rewrite Hr in Hrun. injection Hrun as _ <-. by right.
  - destruct (delete_frames_not_a_directory _ _ Hex Hdir) as (e & evs & Hr & _).
    rewrite Hr in Hrun. injection Hrun as _ <-. by left.
Qed.

End CleanerScope.

(** X10. A cleanup stays inside its target.  Whatever the file system and
    however the run ends: nothing is created or changed, every entry
    that is there afterwards was there before as it is, and every path
    outside the tree of the target is untouched. *)
Theorem cleanup_is_confined (target : Path) (w w' : world) (r : result unit) :
  delete_frames target w = (r, w') ->
  (forall p e, fs w' !! p = Some e -> fs w !! p = Some e) /\
  (forall p, ~ Pathlib.under target p -> fs w' !! p = fs w !! p).
Proof.
  intros Hrun. destruct (delete_frames_fs _ _ _ _ Hrun) as [->| ->]; [done|]. split.
  - intros p e. apply cleaned_subseteq.
  - intros p Hout. apply cleaned_outside. intros Hin. apply Hout.
    by apply (under_trans _ (frames_dir (fs w) target)); [apply under_frames_dir|].
Qed.

Lemma cleanup_is_confined_witness :
  let w := World Fixture.fs_only_frames [] [] in
  let w' := (delete_frames (Pathlib.of_str "shots/frames") w).2 in
  (forall p e, fs w' !! p = Some e -> fs w !! p = Some e) /\
  (forall p, ~ Pathlib.under (Pathlib.of_str "shots/frames") p ->
             fs w' !! p = fs w !! p).
Proof.
  intros w w'.
  apply (cleanup_is_confined (Pathlib.of_str "shots/frames") w w'
           (delete_frames (Pathlib.of_str "shots/frames") w).1).
  apply surjective_pairing.
Defined.

Section CleanerFailure.

Implicit Types (t : Path) (w : world).

(** A regular file as target: the check of line 135 raises. *)
Lemma delete_frames_file t w :
  FS.is_file (fs w) t = true ->
  delete_frames t w
    = (Raise (Exn ValueError ("Resolved path is not a directory: '"
                              +:+ Pathlib.str t +:+ "'.")), w).
Proof.
  intros Hfile. unfold FS.is_file in Hfile. apply bool_decide_eq_true in Hfile.
  unfold delete_frames. mred.
  assert (FS.exists_ (fs w) t = true) as ->.
  { apply bool_decide_eq_true. by rewrite Hfile. }
  assert (FS.is_dir (fs w) t = false) as Hdir.
  { apply bool_decide_eq_false. by rewrite Hfile. }
  mred. unfold resolve_frames_dir. mred. rewrite Hdir. cbn [andb]. mred.
  by rewrite Hdir.
Qed.

(** Any other target: a normal return. *)
Lemma delete_frames_not_file t w :
  FS.is_file (fs w) t = false ->
  exists w', delete_frames t w = (Ok tt, w').
Proof.
  intros Hfile. destruct (FS.exists_ (fs w) t) eqn:Hex.
  2:{ eexists. by apply delete_frames_missing. }
  assert (FS.is_dir (fs w) t = true) as Hdir.
  { apply bool_decide_eq_true in Hex as [e He].
    apply bool_decide_eq_false in Hfile. apply bool_decide_eq_true.
    destruct e; [by destruct Hfile|done]. }
  assert (FS.is_dir (fs w) (frames_dir (fs w) t) = true) as Hres.
  { destruct (frames_dir_cases (fs w) t) as [[-> _]|(-> & _ & _ & ?)]; done. }
  destruct (delete_frames_run _ _ Hex Hres) as (evs & Hrun & _). by eexists.
Qed.

End CleanerFailure.

(** X11. When a cleanup fails.  [delete_frames] raises exactly when its
    target is a regular file: the exception is a [ValueError] and the
    world is as before.  For every other target, missing ones included,
    it returns normally. *)
Theorem cleanup_fails_on_a_file_only (target : Path) (w : world) :
  (FS.is_file (fs w) target = true ->
     delete_frames target w
       = (Raise (Exn ValueError ("Resolved path is not a directory: '"
                                 +:+ Pathlib.str target +:+ "'.")), w)) /\
  (FS.is_file (fs w) target = false ->
     exists w', delete_frames target w = (Ok tt, w')).
Proof. split; [apply delete_frames_file|apply delete_frames_not_file]. Qed.

Lemma cleanup_fails_on_a_file_only_witness :
  (delete_frames (Pathlib.of_str "shots/poster.png") (World Fixture.fs_frames [] [])).1
    = Raise (Exn ValueError "Resolved path is not a directory: 'shots/poster.png'.") /\
  exists w', delete_frames (Pathlib.of_str "nowhere") (World Fixture.fs_frames [] [])
             = (Ok tt, w').
Proof.
  split.
  - exact (f_equal fst
             (proj1 (cleanup_fails_on_a_file_only (Pathlib.of_str "shots/poster.png")
                       (World Fixture.fs_frames [] [])) eq_refl)).
  - exact (proj2 (cleanup_fails_on_a_file_only (Pathlib.of_str "nowhere")
                    (World Fixture.fs_frames [] [])) eq_refl).
Defined.

(** ** The driver *)

Section MainRuns.

Variable rt : runtime.

(** What [main] does before it looks at the action. *)
Lemma main_delete_run target w :
  exists env evs,
    Forall is_log evs /\
    main rt (DeleteArgs target) w
      = Eff.try_except (delete_frames (Pathlib.of_str target)) (fun e =>
          if is_Exception e
          then Some (Eff.log ERROR (MsgDeleteFailed e);; Eff.sys_exit 1)
          else None)
          (World (fs w) env (trace w ++ evs ++ [EvLog INFO MsgSetupCompleted])).
Proof.
  destruct (setup_ffmpeg_path_run rt w) as (env & evs0 & Hsetup & Hlog0).
  exists env, evs0. split; [done|]. unfold main.
  rewrite (bind_ok _ _ _ _ _ Hsetup). mred. by rewrite <-app_assoc.
Qed.

Lemma main_extract_run path od nf iv w :
  exists env evs,
    Forall is_log evs /\
    main rt (ExtractArgs path od nf iv) w
      = (present ← path_exists (Pathlib.of_str path);
         if negb present
         then Eff.log ERROR (MsgInputMissing (Pathlib.of_str path));; Eff.sys_exit 1
         else
           videos ← videos_to_process rt (Pathlib.of_str path);
           Eff.log INFO (MsgFoundVideos (length videos));;
           process_videos rt videos od nf iv)
          (World (fs w) env (trace w ++ evs ++ [EvLog INFO MsgSetupCompleted])).
Proof.
  destruct (setup_ffmpeg_path_run rt w) as (env & evs0 & Hsetup & Hlog0).
  exists env, evs0. split; [done|]. unfold main.
  rewrite (bind_ok _ _ _ _ _ Hsetup). mred. by rewrite <-app_assoc.
Qed.

End MainRuns.

(** X12. The exit status of a delete run.  It is 1 exactly when the
    target is a regular file, and 0 otherwise, a missing target included.
    In the first case nothing on disk has changed, and the last line
    logged carries the [ValueError] of [delete_frames]. *)
Theorem delete_exit_status (rt : runtime) (target : string) (w : world) :
  let t := Pathlib.of_str target in
  let '(r, w') := main rt (DeleteArgs target) w in
  Eff.exit_status r = (if FS.is_file (fs w) t then 1 else 0) /\
  (FS.is_file (fs w) t = true ->
     fs w' = fs w /\
     exists evs,
       trace w' = trace w ++ evs ++
         [EvLog ERROR (MsgDeleteFailed
            (Exn ValueError ("Resolved path is not a directory: '"
                             +:+ Pathlib.str t +:+ "'.")))] /\
       Forall is_log evs).
Proof.
  intros t. destruct (main_delete_run rt target w) as (env & evs & Hlog & ->).
  fold t. unfold Eff.try_except.
  set (w1 := World (fs w) env (trace w ++ evs ++ [EvLog INFO MsgSetupCompleted])).
  destruct (FS.is_file (fs w) t) eqn:Hfile.
  - rewrite (delete_frames_file t w1 Hfile). cbn [is_Exception exn_cls]. mred.
    split; [done|]. intros _. split; [done|].
    exists (evs ++ [EvLog INFO MsgSetupCompleted]). cbn [w1 trace].
    rewrite <-!app_assoc.
    split; [done|]. apply Forall_app. split; [done|]. by repeat constructor.
  - destruct (delete_frames_not_file t w1 Hfile) as (w' & ->). split; [done|].
    done.
Qed.

Lemma delete_exit_status_witness :
  let w := World Fixture.fs_frames [] [] in
  let t := Pathlib.of_str "shots/poster.png" in
  let run := main Fixture.rt (DeleteArgs "shots/poster.png") w in
  Eff.exit_status run.1 = 1 /\ fs run.2 = fs w.
Proof.
  intros w t run.
  pose proof (delete_exit_status Fixture.rt "shots/poster.png" w) as H.
  cbv zeta in H. fold run in H. destruct run as [r w'].
  destruct H as [Hexit Hfile]. split; [exact Hexit|].
  exact (proj1 (Hfile eq_refl)).
Defined.

Section ExtractRuns.

Variable rt : runtime.

(** [Path(p)] raises on the first entry that is not a string, so the
    comprehension of line 200 raises whenever there is one. *)
Lemma paths_of_non_string (pre post : list pyval) (x : pyval) :
  (forall s, x <> PStr s) ->
  exists e, paths_of (pre ++ x :: post) = Raise e /\ exn_cls e = TypeError.
Proof.
  intros Hx. induction pre as [|y pre (e & IH & He)]; cbn [app paths_of].
  - destruct x; try (by eexists); by destruct (Hx s).
  - destruct y; try (by eexists). rewrite IH. by eexists.
Qed.

Lemma load_manifest_non_string input w items pre x post :
  json_load rt (fs w) input = Loaded (PDict items) ->
  Py.lookup "videos" items = Some (PList (pre ++ x :: post)) ->
  (forall s, x <> PStr s) ->
  exists e, load_manifest rt input w = (Raise e, w) /\ exn_cls e = TypeError.
Proof.
  intros Hload Hvideos Hx. unfold load_manifest, open_json. mred.
  rewrite Hload. mred. unfold malformed. cbn [Py.contains Py.getitem Py.bind].
  rewrite Hvideos. cbn [Py.bind negb Py.isinstance_list Py.iter].
  destruct (paths_of_non_string pre post x Hx) as (e & -> & He).
  exists e. split; [|done]. unfold is_ValueError, is_KeyError. by rewrite He.
Qed.

End ExtractRuns.

(** X13. An input path that does not exist ends an extract run at once,
    whatever its suffix: exit status 1, the file system untouched, and
    after the lines of the start-up only the one error line; neither the
    manifest reader nor [extract_frames] has run. *)
Theorem missing_input_is_fatal (rt : runtime) (path : string)
    (output_dir : option string) (num_frames : option Z)
    (interval_sec : option float) (w : world) :
  FS.exists_ (fs w) (Pathlib.of_str path) = false ->
  exists r w' evs,
    main rt (ExtractArgs path output_dir num_frames interval_sec) w = (r, w') /\
    Eff.exit_status r = 1 /\ fs w' = fs w /\
    trace w' = trace w ++ evs ++ [EvLog INFO MsgSetupCompleted;
                                  EvLog ERROR (MsgInputMissing (Pathlib.of_str path))] /\
    Forall is_log evs.
Proof.
  intros Hex.
  destruct (main_extract_run rt path output_dir num_frames interval_sec w)
    as (env & evs & Hlog & ->).
  mred. rewrite Hex. mred. eexists _, _, evs. split; [reflexivity|].
  cbn [fs trace]. rewrite <-!app_assoc. by repeat split.
Qed.

Lemma missing_input_is_fatal_witness :
  exists r w' evs,
    main Fixture.rt (ExtractArgs "videos/gone.mp4" None (Some 5) None) Fixture.w0
      = (r, w') /\
    Eff.exit_status r = 1 /\ fs w' = fs Fixture.w0 /\
    trace w' = trace Fixture.w0 ++ evs ++
      [EvLog INFO MsgSetupCompleted;
       EvLog ERROR (MsgInputMissing (Pathlib.of_str "videos/gone.mp4"))] /\
    Forall is_log evs.
Proof.
  apply (missing_input_is_fatal Fixture.rt "videos/gone.mp4" None (Some 5) None
           Fixture.w0).
  vm_compute. reflexivity.
Defined.

(** X14. A run on one video.  When the input exists and its suffix is not
    [.json] (in any case), [main] returns normally, so the exit status is
    0 even if the extraction failed; [extract_frames] is called exactly
    once, on the input itself, and writes to [--output_dir] when that is
    given and not empty, and to [frames] next to the video otherwise. *)
Theorem single_video_run (rt : runtime) (path : string)
    (output_dir : option string) (num_frames : option Z)
    (interval_sec : option float) (w : world) :
  let input := Pathlib.of_str path in
  FS.exists_ (fs w) input = true ->
  String.eqb (Str.lower (Pathlib.suffix input)) ".json" = false ->
  exists w' evs,
    main rt (ExtractArgs path output_dir num_frames interval_sec) w = (Ok tt, w') /\
    trace w' = trace w ++ evs /\
    extract_calls evs
      = [(input, match output_dir with
                 | Some dir => if String.eqb dir "" then Pathlib.parent input // "frames"
                               else Pathlib.of_str dir
                 | None => Pathlib.parent input // "frames"
                 end)].
Proof.
  intros input Hex Hsuffix.
  destruct (main_extract_run rt path output_dir num_frames interval_sec w)
    as (env & evs0 & Hlog & ->).
  fold input. mred. rewrite Hex. mred. unfold videos_to_process.
  rewrite Hsuffix. mred. unfold process_videos.
  match goal with |- context [Eff.for_each [input] ?body ?w1] =>
    destruct (for_each_process_one rt [input] output_dir num_frames interval_sec
                [input] w1) as (w2 & evs2 & Hloop & T2 & C2)
  end.
  cbn [length] in *. rewrite Hloop.
  exists w2, (evs0 ++ [EvLog INFO MsgSetupCompleted; EvLog INFO (MsgFoundVideos 1)] ++ evs2).
  split; [done|]. rewrite T2. cbn [trace]. rewrite <-!app_assoc.
  split; [done|]. rewrite !extract_calls_app, C2.
  rewrite (extract_calls_none evs0)
    by (eapply Forall_impl; [exact Hlog|]; apply is_log_not_extract).
  cbn [extract_calls app map]. do 2 f_equal. unfold output_dir_for.
  destruct output_dir as [dir|]; [|done]. cbn [length Nat.eqb andb].
  by destruct (String.eqb dir "").
Qed.

Lemma single_video_run_witness :
  exists w' evs,
    main Fixture.rt (ExtractArgs "videos/broken.mp4" (Some "out") (Some 5) None)
         Fixture.w0 = (Ok tt, w') /\
    trace w' = trace Fixture.w0 ++ evs /\
    extract_calls evs = [(Fixture.broken, Pathlib.of_str "out")].
Proof.
  apply (single_video_run Fixture.rt "videos/broken.mp4" (Some "out") (Some 5) None
           Fixture.w0); vm_compute; reflexivity.
Defined.

(** X15. A manifest whose list holds an entry that is not a string.  The
    [TypeError] of [Path(p)] is none of the exceptions the reader of the
    manifest catches: it leaves [main] as it is, so the run ends with a
    traceback and status 1, without the line about a batch file that
    could not be read, and no video of the list is processed, the
    well-formed entries before it included. *)
Theorem non_string_entry_is_uncaught (rt : runtime) (path : string)
    (output_dir : option string) (num_frames : option Z)
    (interval_sec : option float) (w : world)
    (items : list (string * pyval)) (pre post : list pyval) (x : pyval) :
  let input := Pathlib.of_str path in
  FS.exists_ (fs w) input = true ->
  String.eqb (Str.lower (Pathlib.suffix input)) ".json" = true ->
  json_load rt (fs w) input = Loaded (PDict items) ->
  Py.lookup "videos" items = Some (PList (pre ++ x :: post)) ->
  (forall s, x <> PStr s) ->
  exists e w' evs,
    main rt (ExtractArgs path output_dir num_frames interval_sec) w = (Raise e, w') /\
    exn_cls e = TypeError /\ Eff.exit_status (@Raise unit e) = 1 /\
    fs w' = fs w /\
    trace w' = trace w ++ evs ++ [EvLog INFO MsgSetupCompleted;
                                  EvLog INFO (MsgDetectedJson input)] /\
    Forall is_log evs.
Proof.
  intros input Hex Hsuffix Hload Hvideos Hx.
  destruct (main_extract_run rt path output_dir num_frames interval_sec w)
    as (env & evs0 & Hlog & ->).
  fold input. mred. rewrite Hex. mred. unfold videos_to_process.
  rewrite Hsuffix. mred.
  match goal with |- context [load_manifest rt input ?w1] =>
    destruct (load_manifest_non_string rt input w1 items pre x post Hload Hvideos Hx)
      as (e & -> & He)
  end.
  exists e. eexists _, evs0. split; [reflexivity|]. split; [done|].
  split; [by cbn; rewrite He|]. cbn [fs trace]. rewrite <-!app_assoc. by repeat split.
Qed.

Lemma non_string_entry_is_uncaught_witness :
  let manifest := PDict [("videos"%string, PList [PStr "videos/clip.mp4"; PInt 7])] in
  let rt := Runtime Fixture.int_of_str Fixture.float_of_str Fixture.ffprobe
                    Fixture.ffmpeg_run (fun _ _ => Loaded manifest)
                    (Pathlib.of_str "tool/app.py") in
  exists e w' evs,
    main rt (ExtractArgs "batch.json" None (Some 5) None) Fixture.w0 = (Raise e, w') /\
    exn_cls e = TypeError /\ Eff.exit_status (@Raise unit e) = 1 /\
    fs w' = fs Fixture.w0 /\
    trace w' = trace Fixture.w0 ++ evs ++
      [EvLog INFO MsgSetupCompleted;
       EvLog INFO (MsgDetectedJson (Pathlib.of_str "batch.json"))] /\
    Forall is_log evs.
Proof.
  intros manifest rt.
  apply (non_string_entry_is_uncaught rt "batch.json" None (Some 5) None Fixture.w0
           [("videos"%string, PList [PStr "videos/clip.mp4"; PInt 7])]
           [PStr "videos/clip.mp4"] [] (PInt 7));
    [vm_compute; reflexivity..|discriminate].
Defined.

(** X16. A manifest that lists no video, or more than one: [--output_dir]
    plays no part.  Every video of the list, in order, is extracted to
    the [frames] directory next to it, and the run returns normally. *)
Theorem batch_ignores_output_dir (rt : runtime) (path : string)
    (output_dir : option string) (num_frames : option Z)
    (interval_sec : option float) (w : world)
    (items : list (string * pyval)) (entries : list string) :
  let input := Pathlib.of_str path in
  FS.exists_ (fs w) input = true ->
  String.eqb (Str.lower (Pathlib.suffix input)) ".json" = true ->
  json_load rt (fs w) input = Loaded (PDict items) ->
  Py.lookup "videos" items = Some (PList (map PStr entries)) ->
  length entries <> 1%nat ->
  exists w' evs,
    main rt (ExtractArgs path output_dir num_frames interval_sec) w = (Ok tt, w') /\
    trace w' = trace w ++ evs /\
    extract_calls evs
      = map (fun s => (Pathlib.of_str s, Pathlib.parent (Pathlib.of_str s) // "frames"))
            entries.
Proof.
  intros input Hex Hsuffix Hload Hvideos Hlen.
  destruct (main_extract_run rt path output_dir num_frames interval_sec w)
    as (env & evs0 & Hlog & ->).
  fold input. mred. rewrite Hex. mred. unfold videos_to_process.
  rewrite Hsuffix. mred.
  rewrite (load_manifest_ok rt _ _ items entries) by done. mred.
  unfold process_videos. set (videos := map Pathlib.of_str entries).
  match goal with |- context [Eff.for_each videos ?body ?w1] =>
    destruct (for_each_process_one rt videos output_dir num_frames interval_sec
                videos w1) as (w2 & evs2 & Hloop & T2 & C2)
  end.
  rewrite Hloop. eexists _, (evs0 ++ [_; _; _] ++ evs2). split; [done|].
  rewrite T2. cbn [trace]. rewrite <-!app_assoc. split; [done|].
  rewrite !extract_calls_app, C2.
  rewrite (extract_calls_none evs0)
    by (eapply Forall_impl; [exact Hlog|]; apply is_log_not_extract).
  cbn [extract_calls app]. unfold videos. rewrite map_map. apply map_ext.
  intros s. f_equal. apply output_dir_for_batch. by rewrite length_map.
Qed.

Lemma batch_ignores_output_dir_witness :
  exists w' evs,
    main Fixture.rt (ExtractArgs "batch.json" (Some "out") (Some 5) None) Fixture.w0
      = (Ok tt, w') /\
    trace w' = trace Fixture.w0 ++ evs /\
    extract_calls evs
      = [(Fixture.broken, Pathlib.of_str "videos/frames");
         (Fixture.clip, Pathlib.of_str "videos/frames")].
Proof.
  apply (batch_ignores_output_dir Fixture.rt "batch.json" (Some "out") (Some 5) None
           Fixture.w0
           [("videos"%string, PList [PStr "videos/broken.mp4"; PStr "videos/clip.mp4"])]
           ["videos/broken.mp4"; "videos/clip.mp4"]%string);
    [vm_compute; reflexivity..|cbn; lia].
Defined.

(** ** The search path *)



(** ** Failures of the extractor *)

Section ExtractorFailures.

Variable rt : runtime.

(** The block under the [try] of [extract_frames] raises nothing but an
    [Exception], so its handler always applies. *)
Lemma extraction_block_effects v out nf iv :
  effects (fun _ => True) exception
    (meta ← _get_video_metadata rt v;
     target_fps ← plan_rate v (duration_s meta) nf iv;
     write_frames rt v out target_fps).
Proof.
  apply effects_bind.
  - eapply effects_weaken; [| |apply get_video_metadata_effects]; [done|].
    intros e [He|He]; unfold exception, is_Exception; by rewrite He.
  - intros meta. apply effects_bind; [by apply plan_rate_events|].
    intros rate. by apply write_frames_events.
Qed.

End ExtractorFailures.

(** X21. How an extraction fails.  When the video is not a regular file,
    [extract_frames] raises at once, a [FileNotFoundError] for a missing
    path and a [ValueError] otherwise, and nothing is logged.  Every
    other failure is logged exactly as it is raised: the last thing the
    call does is write the critical line that carries the very
    exception it ends with. *)
Theorem extraction_failure_is_logged (rt : runtime) (video out : Path)
    (num_frames : option Z) (interval_sec : option float)
    (w w' : world) (e : exn) :
  extract_frames rt video out num_frames interval_sec w = (Raise e, w') ->
  if FS.is_file (fs w) video
  then exists evs,
         trace w' = trace w ++ EvExtract video out :: evs
                    ++ [EvLog CRITICAL (MsgExtractionCritical (Pathlib.name video) e)]
  else w' = World (fs w) (env_path w) (trace w ++ [EvExtract video out]) /\
       exn_cls e = (if FS.exists_ (fs w) video then ValueError else FileNotFoundError).
Proof.
  unfold extract_frames.
  set (w1 := World (fs w) (env_path w) (trace w ++ [EvExtract video out])).
  rewrite (bind_ok _ _ w tt w1) by done.
  rewrite (bind_ok _ _ w1 (FS.exists_ (fs w) video) w1) by done.
  destruct (FS.exists_ (fs w) video) eqn:Hex; cbn [negb].
  2:{ assert (FS.is_file (fs w) video = false) as ->.
      { apply bool_decide_eq_false. apply bool_decide_eq_false in Hex.
        intros Hf. apply Hex. by rewrite Hf. }
      by intros [= <- <-]. }
  rewrite (bind_ok _ _ w1 (FS.is_file (fs w) video) w1) by done.
  destruct (FS.is_file (fs w) video) eqn:Hfile; cbn [negb]; [|by intros [= <- <-]].
  unfold Eff.try_except.
  match goal with |- context [?m w1] =>
    destruct (m w1) as [[[]|e1] w2] eqn:Hbody
  end; [done|].
  destruct (extraction_block_effects rt video out num_frames interval_sec _ _ _ Hbody)
    as [(evs & T & _) HQ].
  unfold critical. rewrite (HQ e1 eq_refl). mred. intros [= <- <-].
  exists evs. cbn [trace]. rewrite T. cbn [w1 trace]. by rewrite <-!app_assoc.
Qed.

Lemma extraction_failure_is_logged_witness :
  let run := extract_frames Fixture.rt Fixture.broken (Pathlib.of_str "out") (Some 5) None
                            Fixture.w0 in
  exists e evs,
    run.1 = Raise e /\
    trace run.2 = EvExtract Fixture.broken (Pathlib.of_str "out") :: evs
                  ++ [EvLog CRITICAL (MsgExtractionCritical "broken.mp4" e)].
Proof.
  intros run.
  assert (exists e, run.1 = Raise e) as [e He] by (vm_compute; by eexists).
  pose proof (extraction_failure_is_logged Fixture.rt Fixture.broken
                (Pathlib.of_str "out") (Some 5) None Fixture.w0 run.2 e) as H.
  destruct H as [evs Hevs].
  { rewrite <-He. apply surjective_pairing. }
  exists e, evs. split; [exact He|exact Hevs].
Defined.

(** ** Intervals outside the order of the floats *)

Lemma is_nan_spec (x : float) : PrimFloat.is_nan x = true -> Prim2SF x = S754_nan.
Proof.
  unfold PrimFloat.is_nan. rewrite negb_true_iff, FloatAxioms.eqb_spec.
  destruct (Prim2SF x) as [s|s| |s m e]; try (by destruct s); [done|].
  unfold SFeqb, SFcompare.
  destruct s; rewrite Z.compare_refl, Pos.compare_cont_refl; done.
Qed.

Lemma nan_not_le (x : float) : PrimFloat.is_nan x = true -> PrimFloat.leb x 0 = false.
Proof. intros H. by rewrite FloatAxioms.leb_spec, (is_nan_spec x H). Qed.

Lemma nan_not_zero (x : float) : PrimFloat.is_nan x = true -> PrimFloat.eqb x 0 = false.
Proof. intros H. by rewrite FloatAxioms.eqb_spec, (is_nan_spec x H). Qed.

Lemma one_over_nan (x : float) :
  PrimFloat.is_nan x = true -> PrimFloat.leb (PrimFloat.div 1 x) 0 = false.
Proof.
  intros H.
  by rewrite FloatAxioms.leb_spec, FloatAxioms.div_spec, (is_nan_spec x H).
Qed.

Section OddIntervals.

Variable rt : runtime.

(** A rate that is not rejected: the output directory comes first. *)
Lemma write_frames_starts v out rate w r w' :
  PrimFloat.leb rate 0 = false ->
  write_frames rt v out rate w = (r, w') ->
  exists evs, trace w' = trace w ++ EvMkdir out :: evs.
Proof.
  intros Hrate. unfold write_frames, mkdir. rewrite Hrate. mred.
  destruct (FS.mkdir_p (fs w) out) as [f1|e1]; mred.
  - match goal with |- run_ffmpeg ?a ?b ?c ?d ?x = _ -> _ =>
      intros Hffmpeg;
      destruct (run_ffmpeg_effects a b c d _ _ _ Hffmpeg) as [(evs & T & _) _]
    end.
    eexists. rewrite T. cbn [trace]. by rewrite <-!app_assoc.
  - intros [= _ <-]. by exists [].
Qed.

(** The handler of [extract_frames] only ever adds to the trace. *)
Lemma critical_extends v (body : M unit) w r2 w3 r w' :
  body w = (r2, w3) ->
  Eff.try_except body (critical v) w = (r, w') ->
  exists evs, trace w' = trace w3 ++ evs.
Proof.
  intros Hbody. unfold Eff.try_except, critical. rewrite Hbody.
  destruct r2 as [a|e2]; [intros [= _ <-]; exists []; by rewrite app_nil_r|].
  destruct (is_Exception e2); mred.
  - intros [= _ <-]. by eexists.
  - intros [= _ <-]. exists []. by rewrite app_nil_r.
Qed.

End OddIntervals.

(** X22. Two intervals that the test [interval_sec <= 0] lets through
    although no frame can be sampled with them.  With an interval of
    infinity the rate is 1/inf = 0.0: the extraction of a probed video
    logs the line about an invalid rate and returns normally, without a
    directory or a run of ffmpeg.  With an interval that is not a number
    no comparison holds, neither [interval_sec <= 0] nor
    [target_fps <= 0]: nothing is raised or logged, and the extraction
    goes on to make the output directory and to start ffmpeg. *)
Theorem interval_outside_the_order (rt : runtime) (video out : Path)
    (interval_sec : float) (w : world) (response : pyval) (meta : metadata) :
  FS.is_file (fs w) video = true ->
  ffprobe rt (fs w) video = ProbeOk response ->
  read_metadata rt video response = Ok meta ->
  let probed := trace w ++ EvExtract video out :: EvProbe video
                        :: metadata_warning video meta in
  (interval_sec = infinity ->
     extract_frames rt video out None (Some interval_sec) w
       = (Ok tt, World (fs w) (env_path w)
                       (probed ++ [EvLog ERROR (MsgInvalidTargetFps video)]))) /\
  (PrimFloat.is_nan interval_sec = true ->
     exists r w' evs,
       extract_frames rt video out None (Some interval_sec) w = (r, w') /\
       trace w' = probed ++ EvMkdir out :: evs).
Proof.
  intros Hfile Hprobe Hmeta probed.
  assert (FS.exists_ (fs w) video = true) as Hex.
  { unfold FS.is_file, FS.exists_ in *. apply bool_decide_eq_true in Hfile.
    apply bool_decide_eq_true. by rewrite Hfile. }
  split.
  - intros ->. unfold extract_frames. mred. rewrite Hex. mred. rewrite Hfile. mred.
    rewrite (get_video_metadata_ok _ _ _ response meta) by done.
    unfold plan_rate, Py.float_truediv.
    change (PrimFloat.leb infinity 0) with false.
    change (PrimFloat.eqb infinity 0) with false. mred.
    unfold write_frames. change (PrimFloat.leb (1 / infinity) 0) with true. mred.
    unfold probed. by rewrite <-!app_assoc.
  - intros Hnan.
    destruct (extract_frames rt video out None (Some interval_sec) w) as [r w'] eqn:Hrun.
    exists r, w'. revert Hrun. unfold extract_frames.
    set (w1 := World (fs w) (env_path w) (trace w ++ [EvExtract video out])).
    rewrite (bind_ok _ _ w tt w1) by done.
    rewrite (bind_ok _ _ w1 true w1) by (unfold path_exists; mred; unfold w1; cbn [fs]; by rewrite Hex).
    cbn [negb].
    rewrite (bind_ok _ _ w1 true w1) by (unfold path_is_file; mred; unfold w1; cbn [fs]; by rewrite Hfile).
    cbn [negb]. intros Hrun.
    set (w2 := World (fs w) (env_path w)
                     (trace w1 ++ EvProbe video :: metadata_warning video meta)).
    assert (plan_rate video (duration_s meta) None (Some interval_sec) w2
            = (Ok (1 / interval_sec)%float, w2)) as Hplan.
    { unfold plan_rate, Py.float_truediv.
      by rewrite (nan_not_le _ Hnan), (nan_not_zero _ Hnan). }
    destruct (write_frames rt video out (1 / interval_sec) w2) as [r2 w3] eqn:Hwrite.
    destruct (write_frames_starts rt _ _ _ _ _ _ (one_over_nan _ Hnan) Hwrite)
      as (evs & T).
    match type of Hrun with Eff.try_except ?body _ _ = _ =>
      assert (body w1 = (r2, w3)) as Hbody
    end.
    { rewrite (bind_ok _ _ w1 meta w2)
        by (by apply (get_video_metadata_ok rt video w1 response meta)).
      by rewrite (bind_ok _ _ w2 _ w2 Hplan). }
    destruct (critical_extends _ _ _ _ _ _ _ Hbody Hrun) as (evs' & T').
    exists (evs ++ evs'). rewrite T', T. unfold probed. cbn [w2 w1 trace].
    by rewrite <-!app_assoc.
Qed.

Lemma interval_outside_the_order_witness :
  let out := Pathlib.of_str "out" in
  (extract_frames Fixture.rt Fixture.clip out None (Some infinity) Fixture.w0).1 = Ok tt /\
  exists r w',
    extract_frames Fixture.rt Fixture.clip out None (Some nan) Fixture.w0 = (r, w') /\
    EvMkdir out ∈ trace w'.
Proof.
  intros out. split.
  - edestruct (interval_outside_the_order Fixture.rt Fixture.clip out infinity
                 Fixture.w0) as [Hinf _]; [vm_compute; reflexivity..|].
    by rewrite (Hinf eq_refl).
  - edestruct (interval_outside_the_order Fixture.rt Fixture.clip out nan
                 Fixture.w0) as [_ Hnan]; [vm_compute; reflexivity..|].
    destruct (Hnan eq_refl) as (r & w' & evs & Hrun & T).
    exists r, w'. split; [exact Hrun|]. rewrite T.
    apply elem_of_app. right. apply list_elem_of_here.
Defined.

(** ** The logging set-up *)

Section LoggingProps.

Import Logging.

Lemma length_append (a b : string) :
  String.length (a +:+ b) = (String.length a + String.length b)%nat.
Proof.
  induction a as [|c a IH]; [done|].
  change (String c a +:+ b) with (String c (a +:+ b)). cbn [String.length].
  by rewrite IH.
Qed.

Lemma append_assoc (a b c : string) : (a +:+ b) +:+ c = a +:+ (b +:+ c).
Proof.
  induction a as [|x a IH]; [done|].
  change ((String x a +:+ b) +:+ c) with (String x ((a +:+ b) +:+ c)).
  change (String x a +:+ (b +:+ c)) with (String x (a +:+ (b +:+ c))).
  by rewrite IH.
Qed.

Lemma shortlevel_cases (record : LogRecord) :
  let n := rec_levelno record in
  (n = 10 /\ shortlevel record = "d"%string) \/
  (n = 20 /\ shortlevel record = "i"%string) \/
  (n = 30 /\ shortlevel record = "W"%string) \/
  (n = 40 /\ shortlevel record = "E"%string) \/
  (n = 50 /\ shortlevel record = "C"%string) \/
  (n <> 10 /\ n <> 20 /\ n <> 30 /\ n <> 40 /\ n <> 50 /\
   shortlevel record = "?"%string).
Proof.
  intros n. unfold shortlevel, LEVEL_MAP. fold n.
  cbn [list_to_map foldr uncurry levelno]. unfold DEBUG.
  destruct (decide (n = 10)) as [->|H1]; [left; by rewrite lookup_insert_eq|].
  rewrite lookup_insert_ne by done.
  destruct (decide (n = 20)) as [->|H2]; [right; left; by rewrite lookup_insert_eq|].
  rewrite lookup_insert_ne by done.
  destruct (decide (n = 30)) as [->|H3]; [do 2 right; left; by rewrite lookup_insert_eq|].
  rewrite lookup_insert_ne by done.
  destruct (decide (n = 40)) as [->|H4]; [do 3 right; left; by rewrite lookup_insert_eq|].
  rewrite lookup_insert_ne by done.
  destruct (decide (n = 50)) as [->|H5]; [do 4 right; left; by rewrite lookup_insert_eq|].
  rewrite lookup_insert_ne by done. rewrite lookup_empty. do 5 right. done.
Qed.

(** The handlers a call installs, from its arguments alone. *)
Lemma configure_logging_run open_append level log_file s :
  (forall file e, log_file = Some file -> open_append file = Some e ->
                  is_Exception e = true) ->
  exists s',
    configure_logging open_append level log_file s = (Ok tt, s') /\
    root_level s' = level /\
    root_handlers s'
      = StreamHandler Stdout console_formatter ::
        match log_file with
        | Some file =>
            if String.eqb file "" then []
            else match open_append file with
                 | None => [FileHandler file file_formatter]
                 | Some _ => []
                 end
        | None => []
        end /\
    (forall h, h ∈ root_handlers s -> h ∈ closed s').
Proof.
  intros Hexn. unfold configure_logging, make_file_handler.
  assert (forall (c : list handler) hs extra h, h ∈ hs -> h ∈ c ++ hs ++ extra) as Hin.
  { intros c hs extra h Hh. apply elem_of_app. right. apply elem_of_app. by left. }
  destruct log_file as [file|].
  2:{ destruct s as [l [|h0 hs] c o]; eexists; (split; [reflexivity|]);
        cbn; (split; [done|]); (split; [done|]); intros h Hh;
        [by apply elem_of_nil in Hh|rewrite <-(app_nil_r (h0 :: hs)); by apply Hin]. }
  destruct (String.eqb file "").
  { destruct s as [l [|h0 hs] c o]; eexists; (split; [reflexivity|]);
      cbn; (split; [done|]); (split; [done|]); intros h Hh;
      [by apply elem_of_nil in Hh|rewrite <-(app_nil_r (h0 :: hs)); by apply Hin]. }
  destruct (open_append file) as [e|] eqn:Hopen.
  2:{ destruct s as [l [|h0 hs] c o]; eexists; (split; [reflexivity|]);
        cbn; (split; [done|]); (split; [done|]); intros h Hh;
        [by apply elem_of_nil in Hh|rewrite <-(app_nil_r (h0 :: hs)); by apply Hin]. }
  rewrite (Hexn file e eq_refl Hopen).
  destruct s as [l [|h0 hs] c o];
    cbv [logging_error basicConfig clear_handlers addHandler print];
    cbn [root_handlers root_level closed written levelno];
    destruct (level <=? 40); cbn [root_handlers root_level closed written];
    eexists; (split; [reflexivity|]); cbn; (split; [done|]); (split; [done|]);
    intros h Hh; try (by apply elem_of_nil in Hh);
    rewrite <-(app_nil_r (h0 :: hs)); by apply Hin.
Qed.

End LoggingProps.

(** X18. The level character of the console format.  It is always a
    single character: one of [d], [i], [W], [E], [C] for the five
    standard levels, each with its own, and [?] for every other level
    number and for no standard one.  So in a formatted line the message
    always starts six columns after the time. *)
Theorem level_character (record : Logging.LogRecord) :
  String.length (Logging.shortlevel record) = 1%nat /\
  (Logging.shortlevel record = "?"%string
   <-> Logging.rec_levelno record ∉ [10; 20; 30; 40; 50]) /\
  (forall other,
     Logging.shortlevel other = Logging.shortlevel record ->
     Logging.shortlevel record <> "?"%string ->
     Logging.rec_levelno other = Logging.rec_levelno record) /\
  exists prefix,
    Logging.format record = prefix +:+ Logging.rec_message record /\
    String.length prefix = (String.length (Logging.rec_asctime record) + 6)%nat.
Proof.
  assert (String.length (Logging.shortlevel record) = 1%nat) as Hlen.
  { destruct (shortlevel_cases record)
      as [[_ ->]|[[_ ->]|[[_ ->]|[[_ ->]|[[_ ->]|(_ & _ & _ & _ & _ & ->)]]]]];
      reflexivity. }
  split; [exact Hlen|]. split; [|split].
  - rewrite !not_elem_of_cons.
    destruct (shortlevel_cases record)
      as [[E ->]|[[E ->]|[[E ->]|[[E ->]|[[E ->]|(?&?&?&?&?& ->)]]]]].
    1-5: cbv zeta in E; split; [discriminate|by intros (?&?&?&?&?&?)].
    split; [|done]. intros _. repeat (split; [done|]). apply not_elem_of_nil.
  - intros other Heq Hne.
    destruct (shortlevel_cases record)
      as [[E Hs]|[[E Hs]|[[E Hs]|[[E Hs]|[[E Hs]|(?&?&?&?&?& Hs)]]]]];
      [..|by destruct Hne].
    all: cbv zeta in E; rewrite Hs in Heq; rewrite E;
      destruct (shortlevel_cases other)
        as [[E' Hs']|[[E' Hs']|[[E' Hs']|[[E' Hs']|[[E' Hs']|(?&?&?&?&?& Hs')]]]]];
      rewrite Hs' in Heq; try discriminate; exact E'.
  - exists (Logging.rec_asctime record +:+ "  " +:+ Logging.shortlevel record +:+ "   ").
    split.
    + unfold Logging.format. by rewrite !append_assoc.
    + rewrite !length_append, Hlen. cbn [String.length]. lia.
Qed.

Lemma level_character_witness :
  let warning := Logging.MkRecord 30 "12:00:00" "No frames" in
  let custom := Logging.MkRecord 25 "12:00:00" "Progress" in
  Logging.format warning = "12:00:00  W   No frames"%string /\
  Logging.format custom = "12:00:00  ?   Progress"%string /\
  forall other,
    Logging.shortlevel other = "W"%string -> Logging.rec_levelno other = 30.
Proof.
  intros warning custom. split; [reflexivity|]. split; [reflexivity|].
  intros other Hother.
  apply (proj1 (proj2 (proj2 (level_character warning))) other);
    [exact Hother|discriminate].
Defined.

(** X19. What [configure_logging] leaves on the root logger.  Unless
    opening the log file fails with something that is no [Exception],
    the call returns normally and the root logger has the level asked
    for and exactly the new console handler, followed by the file
    handler when a file name was given, was not empty and could be
    opened.  Whatever handlers were there before are closed, so calling
    it again leaves the same handlers once more and no line is written
    twice. *)
Theorem configure_logging_replaces_handlers
    (open_append : string -> option exn) (level : Z) (log_file : option string)
    (s : Logging.logging) :
  (forall file e, log_file = Some file -> open_append file = Some e ->
                  is_Exception e = true) ->
  exists s',
    Logging.configure_logging open_append level log_file s = (Ok tt, s') /\
    Logging.root_level s' = level /\
    Logging.root_handlers s'
      = Logging.StreamHandler Logging.Stdout Logging.console_formatter ::
        match log_file with
        | Some file =>
            if String.eqb file "" then []
            else match open_append file with
                 | None => [Logging.FileHandler file Logging.file_formatter]
                 | Some _ => []
                 end
        | None => []
        end /\
    (forall h, h ∈ Logging.root_handlers s -> h ∈ Logging.closed s') /\
    exists s'',
      Logging.configure_logging open_append level log_file s' = (Ok tt, s'') /\
      Logging.root_handlers s'' = Logging.root_handlers s' /\
      (forall h, h ∈ Logging.root_handlers s' -> h ∈ Logging.closed s'').
Proof.
  intros Hexn.
  destruct (configure_logging_run open_append level log_file s Hexn)
    as (s' & Hrun & Hlevel & Hhandlers & Hclosed).
  exists s'. repeat (split; [done|]).
  destruct (configure_logging_run open_append level log_file s' Hexn)
    as (s'' & Hrun' & _ & Hhandlers' & Hclosed').
  exists s''. split; [done|]. split; [congruence|done].
Qed.

Lemma configure_logging_replaces_handlers_witness :
  let initial := Logging.MkLogging 30 [] [] [] in
  exists s',
    Logging.configure_logging (fun _ => None) 20 (Some "run.log"%string) initial
      = (Ok tt, s') /\
    Logging.root_handlers s'
      = [Logging.StreamHandler Logging.Stdout Logging.console_formatter;
         Logging.FileHandler "run.log" Logging.file_formatter].
Proof.
  intros initial.
  destruct (configure_logging_replaces_handlers (fun _ => None) 20
              (Some "run.log"%string) initial) as (s' & Hrun & _ & Hhandlers & _);
    [discriminate|].
  exists s'. split; [exact Hrun|exact Hhandlers].
Defined.

(** X20. A log file that cannot be opened.  The call still returns
    normally, with the console handler alone.  The failure is reported
    as one error record to each handler that was on the root logger
    before the call, or to a temporary handler on [sys.stderr] when
    there was none; these handlers are then closed.  The report is made
    only if the level asked for lets an error through: with a level
    above [ERROR] the failure leaves no trace at all, and the only line
    written is the confirmation of the console set-up. *)
Theorem log_file_failure (open_append : string -> option exn) (level : Z)
    (file : string) (e : exn) (s : Logging.logging) :
  file <> ""%string -> open_append file = Some e -> is_Exception e = true ->
  let reporters :=
    match Logging.root_handlers s with
    | [] => [Logging.StreamHandler Logging.Stderr Logging.basic_formatter]
    | hs => hs
    end in
  exists s',
    Logging.configure_logging open_append level (Some file) s = (Ok tt, s') /\
    Logging.root_handlers s'
      = [Logging.StreamHandler Logging.Stdout Logging.console_formatter] /\
    Logging.closed s' = Logging.closed s ++ reporters /\
    Logging.written s'
      = Logging.written s
        ++ (if level <=? 40
            then map (fun h => Logging.Handled h 40 (Logging.HandlerFailed file e))
                     reporters
            else [])
        ++ [Logging.Printed (Logging.ConsoleConfigured level)].
Proof.
  intros Hfile Hopen Hexn reporters.
  unfold Logging.configure_logging, Logging.make_file_handler.
  destruct (String.eqb_spec file ""); [done|]. rewrite Hopen, Hexn.
  destruct s as [l [|h0 hs] c o];
    cbv [Logging.logging_error Logging.basicConfig Logging.clear_handlers
         Logging.addHandler Logging.print];
    cbn [Logging.root_handlers Logging.root_level Logging.closed Logging.written
         Logging.levelno] in *;
    destruct (level <=? 40);
    cbn [Logging.root_handlers Logging.root_level Logging.closed Logging.written];
    eexists; (split; [reflexivity|]);
    cbn [Logging.root_handlers Logging.root_level Logging.closed Logging.written];
    rewrite <-?app_assoc; done.
Qed.

Lemma log_file_failure_witness :
  let failing := fun _ : string => Some (Exn OSError "Permission denied") in
  let console := Logging.StreamHandler Logging.Stdout Logging.console_formatter in
  let s := Logging.MkLogging 20 [console] [] [] in
  (exists s',
     Logging.configure_logging failing 50 (Some "run.log"%string) s = (Ok tt, s') /\
     Logging.written s' = [Logging.Printed (Logging.ConsoleConfigured 50)]) /\
  (exists s',
     Logging.configure_logging failing 20 (Some "run.log"%string) s = (Ok tt, s') /\
     Logging.written s'
       = [Logging.Handled console 40
            (Logging.HandlerFailed "run.log" (Exn OSError "Permission denied"));
          Logging.Printed (Logging.ConsoleConfigured 20)]).
Proof.
  intros failing console s. split.
  - destruct (log_file_failure failing 50 "run.log"
                (Exn OSError "Permission denied") s) as (s' & Hrun & _ & _ & Hw);
      [discriminate|reflexivity|reflexivity|].
    exists s'. split; [exact Hrun|exact Hw].
  - destruct (log_file_failure failing 20 "run.log"
                (Exn OSError "Permission denied") s) as (s' & Hrun & _ & _ & Hw);
      [discriminate|reflexivity|reflexivity|].
    exists s'. split; [exact Hrun|exact Hw].
Defined.
